(** * CrocSafeNT: the GOVHACK map scripts

    A shallow embedding of the three scripts under [GOVHACK/]:

    - [Combined_Map_Crocs_Dataset.py]  (module [Combined]),
    - [highlighted_map.py]             (module [Highlighted]),
    - [crocodile_capture_data.py]      (modules [Capture], [CaptureMap]).

    The scripts talk to the outside world (a geocoding service, the clock,
    the console, one map object).  The embedding makes that explicit: every
    effect is an [event] appended to the [trace] of a [world], exceptions are
    a [result], and the geocoding service is an oracle that answers the n-th
    request of a run. *)

From Stdlib Require Import ZArith String QArith Lia Bool List.
From Stdlib Require OrderedTypeEx Sorted.
Import ListNotations.
Local Open Scope string_scope.
Local Open Scope Z_scope.

(** ** Values *)

(** A cell of a pandas frame.  The scripts never compute with a coordinate,
    they only carry it from the frame to the service and to the map, so a
    float cell is represented by the rational number its literal denotes. *)
Inductive cell : Type :=
| CStr (s : string)
| CNum (q : Q)
| CNaN.

(** A row as [iterrows] yields it: labelled values, in column order. *)
Definition Series : Type := list (string * cell).

Record DataFrame : Type := mkDataFrame {
  columns : list string;
  data : list (list cell)
}.

(** The exceptions the scripts name, and everything else. *)
Inductive exn : Type :=
| GeocoderTimedOut
| GeocoderUnavailable (msg : string)
| KeyError (key : string)
| IndexError (msg : string)
| ValueError (msg : string)
| OtherError (msg : string).

(** What [geolocator.reverse] hands back; the scripts read [.address] only. *)
Record Location : Type := mkLocation { address : string }.

Inductive response : Type :=
| Returns (location : option Location)
| Raises (e : exn).

(** The service as an oracle: the answer to the request that comes after [n]
    earlier requests of the run, for these coordinates and this timeout. *)
Definition Geolocator : Type := nat -> cell * cell -> Z -> response.

(** ** The map document *)

Record Popup : Type := mkPopup { html : string; max_width : Z }.

Inductive annotation : Type :=
| Marker (location : cell * cell) (popup : Popup)
| Circle (location : cell * cell) (radius : Z) (color : string)
         (fill : bool) (fill_color : string) (fill_opacity : Q).

Record Map : Type := mkMap {
  map_location : Z * Z;
  zoom_start : Z;
  children : list annotation
}.

(** [a.add_to(m)]: the annotation becomes the last child of the map.  What
    folium itself checks about a location is outside the scripts and outside
    this model. *)
Definition add_to (a : annotation) (m : Map) : Map :=
  {| map_location := map_location m;
     zoom_start := zoom_start m;
     children := children m ++ [a] |}.

(** The text a reader of the map sees attached to an annotation, if any. *)
Definition label_of (a : annotation) : option string :=
  match a with
  | Marker _ p => Some (html p)
  | Circle _ _ _ _ _ _ => None
  end.

Definition location_of (a : annotation) : cell * cell :=
  match a with
  | Marker l _ => l
  | Circle l _ _ _ _ _ => l
  end.

(** ** Effects *)

(** Console lines, kept as structured values rather than rendered text. *)
Inductive message : Type :=
| MsgColumns (cols : list string)
| MsgFirstRows
| MsgHead (rows : list (list cell))
| MsgTimedOut (attempt_number : Z)
| MsgUnavailable (e : string)
| MsgMarkerAdded (name : cell)
| MsgCirclesAdded (name : cell)
| MsgColumnNotFound (e : exn)
| MsgIndexError (e : exn)
| MsgSaved (file : string).

(** Which [time.sleep] of the source an event comes from. *)
Inductive sleep_site : Type := Backoff | InterBatch.

Inductive event : Type :=
| EvReverse (coordinates : cell * cell) (timeout : Z)
| EvSleep (site : sleep_site) (seconds : Z)
| EvPrint (m : message)
| EvSave (file : string) (doc : Map).

Record world : Type := mkWorld {
  trace : list event;
  map_obj : Map
}.

Inductive result (A : Type) : Type :=
| Ok (a : A)
| Raise (e : exn).
Arguments Ok {A} a.
Arguments Raise {A} e.

Definition M (A : Type) : Type := world -> result A * world.

Definition ret {A} (a : A) : M A := fun w => (Ok a, w).

Definition raise {A} (e : exn) : M A := fun w => (Raise e, w).

Definition bind {A B} (m : M A) (k : A -> M B) : M B :=
  fun w =>
    match m w with
    | (Ok a, w1) => k a w1
    | (Raise e, w1) => (Raise e, w1)
    end.

Notation "x <- m ;; k" := (bind m (fun x => k))
  (at level 61, m at next level, right associativity).
Notation "m ;;; k" := (bind m (fun _ => k))
  (at level 61, right associativity).

(** [try: body except: handler]; a handler that answers [None] lets the
    exception through. *)
Definition try_except {A} (body : M A) (handler : exn -> option (M A)) : M A :=
  fun w =>
    match body w with
    | (Ok a, w1) => (Ok a, w1)
    | (Raise e, w1) =>
        match handler e with
        | Some h => h w1
        | None => (Raise e, w1)
        end
    end.

Definition emit (e : event) : M unit :=
  fun w => (Ok tt, {| trace := trace w ++ [e]; map_obj := map_obj w |}).

Definition print (m : message) : M unit := emit (EvPrint m).

(** [time.sleep(seconds)], for the waits it accepts.  CPython counts a wait
    in nanoseconds on 63 bits: 2^33 seconds pass, 2^34 seconds are an
    [OverflowError].  The waits of the scripts' own calls are 1, 2, 4 (three
    attempts) and 2 (between batches); a run of the helper stays below the
    limit as long as it has had at most [most_timeouts] timeouts before the
    one it is waiting for, and the properties of longer runs say so. *)
Definition sleep (site : sleep_site) (seconds : Z) : M unit :=
  emit (EvSleep site seconds).

Definition most_timeouts : nat := 34.

Definition update_map (f : Map -> Map) : M unit :=
  fun w => (Ok tt, {| trace := trace w; map_obj := f (map_obj w) |}).

(** How a loop body ends: fall through to the next iteration, [break], or
    [return] from the enclosing function. *)
Inductive ctl (A : Type) : Type :=
| Continue
| Break
| Return (a : A).
Arguments Continue {A}.
Arguments Break {A}.
Arguments Return {A} a.

(** [for x in xs: body]; [Some a] when the body returned [a], [None] when the
    loop ran out or was broken. *)
Fixpoint for_each {X A} (xs : list X) (body : X -> M (ctl A)) : M (option A) :=
  match xs with
  | [] => ret None
  | x :: rest =>
      c <- body x ;;
      match c with
      | Continue => for_each rest body
      | Break => ret None
      | Return a => ret (Some a)
      end
  end.

(** A loop whose body neither breaks nor returns. *)
Fixpoint for_ {X} (xs : list X) (body : X -> M unit) : M unit :=
  match xs with
  | [] => ret tt
  | x :: rest => body x ;;; for_ rest body
  end.

(** ** Observations on a trace *)

Definition is_reverse (e : event) : bool :=
  match e with EvReverse _ _ => true | _ => false end.

(** Requests sent to the geocoding service. *)
Definition ncalls (tr : list event) : nat := length (filter is_reverse tr).

Definition seconds_of (e : event) : Z :=
  match e with EvSleep _ s => s | _ => 0 end.

(** Total of the arguments handed to [time.sleep]. *)
Definition slept (tr : list event) : Z :=
  fold_right (fun e acc => seconds_of e + acc) 0 tr.

(** The world after [evs] more events. *)
Definition log (evs : list event) (w : world) : world :=
  {| trace := trace w ++ evs; map_obj := map_obj w |}.

(** The events a computation adds when started in [w]. *)
Definition during {A} (m : M A) (w : world) : list event :=
  skipn (length (trace w)) (trace (snd (m w))).

(** ** Python built-ins *)

(** [range(n)]: empty when [n <= 0]. *)
Definition range (n : Z) : list Z := map Z.of_nat (seq 0 (Z.to_nat n)).

(** [len(range(start, stop, step))] for a positive step, as CPython computes
    it. *)
Definition range_len (start stop step : Z) : Z :=
  if start <? stop then 1 + (stop - 1 - start) / step else 0.

(** The members of [range(start, stop, step)] for a positive step. *)
Definition range_up (start stop step : Z) : list Z :=
  map (fun i => start + Z.of_nat i * step)
      (seq 0 (Z.to_nat (range_len start stop step))).

(** [range(start, stop, step)]: a zero step is a [ValueError]; in the scripts
    the start never exceeds the stop, so a negative step gives the empty
    range. *)
Definition range3 (start stop step : Z) : result (list Z) :=
  if step =? 0 then Raise (ValueError "range() arg 3 must not be zero")
  else if step <? 0 then Ok []
  else Ok (range_up start stop step).

(** The spec's ceil(n / b), for a positive [b]. *)
Definition ceil_div (n b : Z) : Z := (n + b - 1) / b.

(** ** pandas *)

Definition len (df : DataFrame) : Z := Z.of_nat (length (data df)).

(** [df.iloc[start:stop]] for the non-negative bounds the scripts use. *)
Definition iloc (df : DataFrame) (start stop : Z) : DataFrame :=
  {| columns := columns df;
     data := firstn (Z.to_nat (stop - start)) (skipn (Z.to_nat start) (data df)) |}.

(** The item at position [i], if there is one. *)
Definition pick {A} (l : list A) (i : Z) : list A :=
  match nth_error l (Z.to_nat i) with
  | Some r => [r]
  | None => []
  end.

(** [df.iloc[::step].reset_index(drop=True)]: the rows at positions
    [range(0, len(df), step)]; the row labels, which [reset_index] renumbers,
    are not part of the model since no script reads them. *)
Definition iloc_step (df : DataFrame) (step : Z) : DataFrame :=
  {| columns := columns df;
     data := flat_map (pick (data df)) (range_up 0 (len df) step) |}.

(** [df.head()] *)
Definition head (df : DataFrame) : list (list cell) := firstn 5 (data df).

(** The rows [df.iterrows()] yields (the index half of each pair is unused).
    A frame is rectangular: every row of [data] has a cell for each column. *)
Definition iterrows (df : DataFrame) : list Series :=
  map (fun vals => combine (columns df) vals) (data df).

(** [row[key]] *)
Fixpoint getitem (row : Series) (key : string) : result cell :=
  match row with
  | [] => Raise (KeyError key)
  | (k, v) :: rest => if String.eqb k key then Ok v else getitem rest key
  end.

Definition lift {A} (r : result A) : M A := fun w => (r, w).

(** ** The retry helper

    [reverse_geocode_with_retry] is the same text in the combined-map script
    (lines 30-55) and in the highlighted-map script (lines 43-69). *)

Definition reverse (geolocator : Geolocator) (coordinates : cell * cell)
    (timeout : Z) : M (option Location) :=
  fun w =>
    let w1 := {| trace := trace w ++ [EvReverse coordinates timeout];
                 map_obj := map_obj w |} in
    match geolocator (ncalls (trace w)) coordinates timeout with
    | Returns location => (Ok location, w1)
    | Raises e => (Raise e, w1)
    end.

Definition attempt_body (geolocator : Geolocator) (coordinates : cell * cell)
    (timeout : Z) (attempt : Z) : M (ctl (option Location)) :=
  try_except
    (location <- reverse geolocator coordinates timeout ;;
     ret (Return location))
    (fun e =>
       match e with
       | GeocoderTimedOut =>
           Some (print (MsgTimedOut (attempt + 1)) ;;;
                 sleep Backoff (2 ^ attempt) ;;;
                 ret Continue)
       | GeocoderUnavailable msg =>
           Some (print (MsgUnavailable msg) ;;;
                 ret Break)
       | _ => None
       end).

(** The [for attempt in ...] loop over the given attempts. *)
Definition retry_loop (geolocator : Geolocator) (coordinates : cell * cell)
    (timeout : Z) (attempts : list Z) : M (option (option Location)) :=
  for_each attempts (attempt_body geolocator coordinates timeout).

Definition reverse_geocode_with_retry (geolocator : Geolocator)
    (coordinates : cell * cell) (retries : Z) (timeout : Z)
    : M (option Location) :=
  r <- retry_loop geolocator coordinates timeout (range retries) ;;
  match r with
  | Some location => ret location
  | None => ret None
  end.

Definition default_retries : Z := 3.
Definition default_timeout : Z := 10.

(** The spec's bound on the waiting: 2^0 + 2^1 + ... + 2^(retries-1). *)
Definition backoff_budget (retries : Z) : Z :=
  fold_right Z.add 0 (map (fun attempt => 2 ^ attempt) (range retries)).

(** ** folium *)

(** [folium.Map(location=[0, 0], zoom_start=2)], the [create_map] of the two
    geocoding scripts. *)
Definition create_map : Map :=
  {| map_location := (0, 0); zoom_start := 2; children := [] |}.

Definition save (file : string) : M unit :=
  fun w => emit (EvSave file (map_obj w)) w.

(** The [except KeyError as e] clause of both row loops. *)
Definition on_key_error (e : exn) : option (M unit) :=
  match e with
  | KeyError _ => Some (print (MsgColumnNotFound e))
  | _ => None
  end.

(** ** Combined_Map_Crocs_Dataset.py *)
Module Combined.

Definition add_marker_to_map (lat lon : cell) (address : string) : M unit :=
  update_map (add_to (Marker (lat, lon)
                             {| html := "Address: " ++ address;
                                max_width := 300 |})).

(** The body of [for index, row in batch_df.iterrows()].  [name] stays the
    cell that [str] is applied to; it only ever reaches the console.  A
    [Location] is truthy, so [if location] tells a result from [None]. *)
Definition process_row (geolocator : Geolocator) (row : Series) : M unit :=
  try_except
    (name <- lift (getitem row "name") ;;
     lat <- lift (getitem row "latitude") ;;
     lon <- lift (getitem row "longitude") ;;
     location <- reverse_geocode_with_retry geolocator (lat, lon)
                   default_retries default_timeout ;;
     let address := match location with
                    | Some l => address l
                    | None => "Address not found"
                    end in
     add_marker_to_map lat lon address ;;;
     print (MsgMarkerAdded name))
    on_key_error.

(** The body of [for start in range(0, len(df), batch_size)]. *)
Definition process_batch (geolocator : Geolocator) (df : DataFrame)
    (batch_size : Z) (start : Z) : M unit :=
  let end_ := Z.min (start + batch_size) (len df) in
  let batch_df := iloc df start end_ in
  for_ (iterrows batch_df) (process_row geolocator) ;;;
  sleep InterBatch 2.

(** [process_csv], from the frame that [pd.read_csv(file_path)] gave. *)
Definition process_csv (geolocator : Geolocator) (df : DataFrame)
    (batch_size : Z) : M unit :=
  print (MsgColumns (columns df)) ;;;
  print MsgFirstRows ;;;
  print (MsgHead (head df)) ;;;
  update_map (fun _ => create_map) ;;;
  starts <- lift (range3 0 (len df) batch_size) ;;
  for_ starts (process_batch geolocator df batch_size) ;;;
  save "combined_map.html" ;;;
  print (MsgSaved "combined_map.html").

Definition default_batch_size : Z := 100.

End Combined.

(** ** highlighted_map.py *)
Module Highlighted.

Definition add_circle_to_map (lat lon : cell) : M unit :=
  update_map (add_to (Circle (lat, lon) 200 "red" true "red" 0.3)) ;;;
  update_map (add_to (Circle (lat, lon) 500 "orange" true "orange" 0.2)).

Definition on_error (e : exn) : option (M unit) :=
  match e with
  | KeyError _ => Some (print (MsgColumnNotFound e))
  | IndexError _ => Some (print (MsgIndexError e))
  | _ => None
  end.

Definition process_row (geolocator : Geolocator) (row : Series) : M unit :=
  try_except
    (name <- lift (getitem row "name") ;;
     lat <- lift (getitem row "latitude") ;;
     lon <- lift (getitem row "longitude") ;;
     location <- reverse_geocode_with_retry geolocator (lat, lon)
                   default_retries default_timeout ;;
     let address := match location with
                    | Some l => address l
                    | None => "Address not found"
                    end in
     add_circle_to_map lat lon ;;;
     print (MsgCirclesAdded name))
    on_error.

Definition process_batch (geolocator : Geolocator) (df_sampled : DataFrame)
    (batch_size : Z) (start : Z) : M unit :=
  let end_ := Z.min (start + batch_size) (len df_sampled) in
  let batch_df := iloc df_sampled start end_ in
  for_ (iterrows batch_df) (process_row geolocator) ;;;
  sleep InterBatch 2.

Definition process_csv (geolocator : Geolocator) (df : DataFrame)
    (batch_size : Z) : M unit :=
  print (MsgColumns (columns df)) ;;;
  print MsgFirstRows ;;;
  print (MsgHead (head df)) ;;;
  let df_sampled := iloc_step df 5 in
  update_map (fun _ => create_map) ;;;
  starts <- lift (range3 0 (len df_sampled) batch_size) ;;
  for_ starts (process_batch geolocator df_sampled batch_size) ;;;
  save "highlighted_map.html" ;;;
  print (MsgSaved "highlighted_map.html").

Definition default_batch_size : Z := 100.

End Highlighted.

(** ** crocodile_capture_data.py

    The top-level statements that compute the [YEAR_TOTAL] column (lines
    52-60), over the two columns they read. *)
Module Capture.

Record date : Type := mkDate { year : Z; month : Z; day : Z }.

(** A cell of the [ZONE_NAME] column as [pd.read_csv] hands it over.  A
    column whose filled cells all read as numbers is a column of numbers,
    any other is a column of text; a cell left empty is NaN in both.  A
    column read from a file holds numbers or text, not both. *)
Inductive zone : Type :=
| Text (s : string)
| Number (q : Q)
| NoZone.

(** A row once line 53 has parsed its date; [None] is NaT, the date of a
    cell left empty. *)
Record capture : Type := mkCapture {
  ZONE_NAME : zone;
  DATE_CAPTURED : option date
}.

(** An index label.  Numbers are compared by value, whether they are
    written as integers or not; NaN is equal to nothing. *)
Inductive label : Type :=
| LNum (q : Q)
| LStr (s : string)
| LNaN.

Definition label_eqb (a b : label) : bool :=
  match a, b with
  | LNum x, LNum y => Qeq_bool x y
  | LStr x, LStr y => String.eqb x y
  | _, _ => false
  end.

Definition year_label (y : Z) : label := LNum (inject_Z y).

Definition zone_label (z : zone) : label :=
  match z with
  | Text s => LStr s
  | Number q => LNum q
  | NoZone => LNaN
  end.

(** A labelled column of numbers; [None] is NaN. *)
Definition NumSeries : Type := list (label * option Z).

(** [data_df['YEAR'] = data_df['DATE_CAPTURED'].dt.year]; the year of NaT
    is NaN. *)
Definition YEAR (r : capture) : option Z := option_map year (DATE_CAPTURED r).

Definition in_year (r : capture) (y : Z) : bool :=
  match YEAR r with
  | Some x => x =? y
  | None => false
  end.

(** The order [groupby] sorts the zones in: numbers by value, text as
    Python compares strings.  The cases with one zone of each kind are
    there to make the function total; no frame read from a file gets to
    them. *)
Definition zone_compare (a b : zone) : comparison :=
  match a, b with
  | Number p, Number q => (p ?= q)%Q
  | Text s, Text t => String.compare s t
  | NoZone, NoZone => Eq
  | Number _, _ => Lt
  | _, Number _ => Gt
  | Text _, NoZone => Lt
  | NoZone, Text _ => Gt
  end.

Definition same_zone (a b : zone) : bool :=
  match zone_compare a b with
  | Eq => true
  | _ => false
  end.

(** [groupby] leaves out the rows in which a key is NaN. *)
Definition grouped (r : capture) : bool :=
  match ZONE_NAME r, DATE_CAPTURED r with
  | NoZone, _ => false
  | _, None => false
  | _, Some _ => true
  end.

Fixpoint insert_year (y : Z) (ys : list Z) : list Z :=
  match ys with
  | [] => [y]
  | x :: rest =>
      if y <? x then y :: ys
      else if y =? x then ys
      else x :: insert_year y rest
  end.

Fixpoint insert_zone (z : zone) (zs : list zone) : list zone :=
  match zs with
  | [] => [z]
  | x :: rest =>
      match zone_compare z x with
      | Lt => z :: zs
      | Eq => zs
      | Gt => x :: insert_zone z rest
      end
  end.

(** The group keys, sorted and without repetition, as [groupby] orders
    them. *)
Definition years (df : list capture) : list Z :=
  fold_right insert_year []
    (flat_map (fun r => match YEAR r with
                        | Some y => [y]
                        | None => []
                        end)
              (filter grouped df)).

Definition zones (df : list capture) : list zone :=
  fold_right insert_zone [] (map ZONE_NAME (filter grouped df)).

(** [groupby(['YEAR', 'ZONE_NAME']).size()] at one key. *)
Definition group_size (df : list capture) (y : Z) (z : zone) : Z :=
  Z.of_nat (length (filter (fun r => grouped r && in_year r y
                                     && same_zone (ZONE_NAME r) z) df)).

(** [.unstack(fill_value=0)]: one row per year, one column per zone. *)
Record Table : Type := mkTable {
  index : list Z;
  table_columns : list zone;
  value : Z -> zone -> Z
}.

Definition yearly_totals (df : list capture) : Table :=
  {| index := years df;
     table_columns := zones df;
     value := group_size df |}.

(** [.sum(axis=1)]: along the columns, one total per row label. *)
Definition sum_axis1 (t : Table) : NumSeries :=
  map (fun y => (year_label y,
                 Some (fold_right Z.add 0 (map (value t y) (table_columns t)))))
      (index t).

Fixpoint loc (s : NumSeries) (l : label) : option Z :=
  match s with
  | [] => None
  | (k, v) :: rest => if label_eqb k l then v else loc rest l
  end.

(** [.reindex(labels)]: the value at each new label, NaN where the series has
    none. *)
Definition reindex (s : NumSeries) (labels : list label) : NumSeries :=
  map (fun l => (l, loc s l)) labels.

Definition values (s : NumSeries) : list (option Z) := map snd s.

(** [data_df['YEAR_TOTAL']] as line 60 assigns it. *)
Definition YEAR_TOTAL (df : list capture) : list (option Z) :=
  values (reindex (sum_axis1 (yearly_totals df))
                  (map (fun r => zone_label (ZONE_NAME r)) df)).

(** The per-zone-per-year breakdown the comment on line 58 speaks of: the
    number of captures in the row's own zone and year; a row without a
    date has none. *)
Definition zone_year_count (df : list capture) (r : capture) : option Z :=
  option_map (fun y => group_size df y (ZONE_NAME r)) (YEAR r).

End Capture.


(** ** crocodile_capture_data.py, the map

    [create_map] (lines 5-43) and the script around it (lines 47-74), from
    the frame that [pd.read_csv] returns and whose dates line 53 can
    parse. *)
Module CaptureMap.

(** The capture file as read: the names on its header line and its rows.
    Of a row, the two cells the script reads. *)
Record csv_file : Type := mkCsv {
  csv_columns : list string;
  csv_rows : list Capture.capture
}.

(** A row of [data_df] once [YEAR] and [YEAR_TOTAL] are in place; a
    [YEAR_TOTAL] of [None] is NaN. *)
Record data_row : Type := mkData {
  ZONE_NAME : Capture.zone;
  DATE_CAPTURED : option Capture.date;
  YEAR : option Z;
  YEAR_TOTAL : option Z
}.

Record data_frame : Type := mkFrame {
  data_columns : list string;
  data_rows : list data_row
}.

(** A row of [coordinates_df], whose columns are [ZONE_NAME], [LATITUDE] and
    [LONGITUDE]. *)
Record zone_row : Type := mkZone {
  ZONE : string;
  LATITUDE : Q;
  LONGITUDE : Q
}.

(** [folium.Marker(location=..., popup=..., icon=folium.Icon(color=...))] *)
Record marker : Type := mkMarker {
  location : Q * Q;
  popup : string;
  icon_color : string
}.

Inductive event : Type :=
| EvCsvColumns (cols : list string)
| EvColumns (cols : list string)
| EvMissingKey (key : string)
| EvSave (file : string) (center : Q * Q) (zoom : Z) (markers : list marker)
| EvSaved (file : string).

Definition has_column (cols : list string) (c : string) : bool :=
  existsb (String.eqb c) cols.

(** [df[c] = ...]: a new column goes to the end, an old one keeps its
    place. *)
Definition assign (c : string) (cols : list string) : list string :=
  if has_column cols c then cols else (cols ++ [c])%list.

(** The [ZONE_NAME] column is one of numbers: it has rows, and no cell
    of it is text. *)
Definition number_column (rows : list data_row) : bool :=
  match rows with
  | [] => false
  | _ => forallb (fun d => match ZONE_NAME d with
                           | Capture.Text _ => false
                           | _ => true
                           end) rows
  end.

Record merged_frame : Type := mkMerged {
  merged_columns : list string;
  merged_rows : list (data_row * zone_row)
}.

(** The columns of a frame merged with [coordinates_df] on [ZONE_NAME]: a
    column that the two frames share beside the key comes out twice, as
    [name_x] and [name_y]. *)
Definition merged_names (cols : list string) : list string :=
  let right := ["LATITUDE"; "LONGITUDE"] in
  app (map (fun c => if has_column right c then c ++ "_x" else c) cols)
      (map (fun c => if has_column cols c then c ++ "_y" else c) right).

(** [pd.merge(data_df, coordinates_df, on='ZONE_NAME')]: the inner join, in
    the order of the rows of [data_df].  The zone names of
    [coordinates_df] are text: against a column of numbers pandas refuses
    to merge (its message, which names the two dtypes, is shortened
    here). *)
Definition merge (data_df : data_frame) (coordinates_df : list zone_row)
    : result merged_frame :=
  if number_column (data_rows data_df)
     && match coordinates_df with [] => false | _ => true end
  then Raise (ValueError "You are trying to merge on number and object columns for key 'ZONE_NAME'")
  else
    Ok {| merged_columns := merged_names (data_columns data_df);
          merged_rows :=
            flat_map (fun d =>
                        match ZONE_NAME d with
                        | Capture.Text s =>
                            map (fun z => (d, z))
                                (filter (fun z => String.eqb (ZONE z) s)
                                        coordinates_df)
                        | _ => []
                        end)
                     (data_rows data_df) |}.

(** [total_captures > 50]; a comparison with NaN is false. *)
Definition above_50 (total_captures : option Z) : bool :=
  match total_captures with
  | Some t => 50 <? t
  | None => false
  end.

(** The first of the four lookups of lines 27-30 that finds no column of
    its name. *)
Definition missing_key (cols : list string) : option string :=
  find (fun k => negb (has_column cols k))
       ["ZONE_NAME"; "YEAR_TOTAL"; "LATITUDE"; "LONGITUDE"].

Section Render.

(** How Python writes a number inside an f-string. *)
Variable fmt : Z -> string.

Definition str_total (total_captures : option Z) : string :=
  match total_captures with
  | Some t => fmt t
  | None => "nan"
  end.

(** The marker of one row of the merged frame.  The key column of a merged
    row holds the name that the two sides share. *)
Definition marker_of (row : data_row * zone_row) : marker :=
  let zone_name := ZONE (snd row) in
  let total_captures := YEAR_TOTAL (fst row) in
  let latitude := LATITUDE (snd row) in
  let longitude := LONGITUDE (snd row) in
  {| location := (latitude, longitude);
     popup := "Zone: " ++ zone_name ++ "<br>Total Captures: "
              ++ str_total total_captures;
     icon_color := if above_50 total_captures then "red" else "blue" |}.

(** Lines 26-39, on the markers of the map and the lines printed so far. *)
Definition loop_body (cols : list string)
    (acc : list marker * list event) (row : data_row * zone_row)
    : list marker * list event :=
  match missing_key cols with
  | None => ((fst acc ++ [marker_of row])%list, snd acc)
  | Some key => (fst acc, (snd acc ++ [EvMissingKey key])%list)
  end.

Definition create_map (data_df : data_frame)
    (coordinates_df : list zone_row) (output_file : string)
    : result unit * list event :=
  let map_center := ((-12.4634)%Q, 130.8456%Q) in
  match merge data_df coordinates_df with
  | Raise e => (Raise e, [])
  | Ok merged_df =>
      let done := fold_left (loop_body (merged_columns merged_df))
                            (merged_rows merged_df) ([], []) in
      (Ok tt,
       ([EvColumns (merged_columns merged_df)]
        ++ snd done
        ++ [EvSave output_file map_center 6 (fst done);
            EvSaved output_file])%list)
  end.

(** Lines 63-68. *)
Definition coordinates_data : list zone_row :=
  [mkZone "Borroloola" (-17.7414) 139.3268;
   mkZone "Katherine Zone" (-14.4846) 132.4603;
   mkZone "Litchfield" (-13.0876) 130.9075;
   mkZone "Lower Harbour" (-12.4634) 130.8456;
   mkZone "Management Zone" (-12.4640) 130.8460;
   mkZone "Nhulunbuy" (-12.6461) 136.8121;
   mkZone "Outside Management Zone" (-12.8000) 136.8700;
   mkZone "Shoal Bay" (-12.8456) 131.3870;
   mkZone "Upper Harbour" (-12.9000) 131.4000].

(** [data_df] as lines 53-60 leave it. *)
Definition data_df_of (f : csv_file) : data_frame :=
  {| data_columns := assign "YEAR_TOTAL" (assign "YEAR" (csv_columns f));
     data_rows :=
       map (fun rt : Capture.capture * option Z =>
              {| ZONE_NAME := Capture.ZONE_NAME (fst rt);
                 DATE_CAPTURED := Capture.DATE_CAPTURED (fst rt);
                 YEAR := Capture.YEAR (fst rt);
                 YEAR_TOTAL := snd rt |})
           (combine (csv_rows f) (Capture.YEAR_TOTAL (csv_rows f))) |}.

(** The script from line 50 on.  Line 53 needs the [DATE_CAPTURED] column
    and line 59 the [ZONE_NAME] column; then [create_map] is called with
    the table of the nine zones and its default file name. *)
Definition script (f : csv_file) : result unit * list event :=
  let printed := [EvCsvColumns (csv_columns f)] in
  if negb (has_column (csv_columns f) "DATE_CAPTURED")
  then (Raise (KeyError "DATE_CAPTURED"), printed)
  else if negb (has_column (csv_columns f) "ZONE_NAME")
  then (Raise (KeyError "ZONE_NAME"), printed)
  else
    let run := create_map (data_df_of f) coordinates_data
                          "crocodile_capture_map.html" in
    (fst run, (printed ++ snd run)%list).

End Render.

(** The markers a run has saved. *)
Definition saved_markers (evs : list event) : list marker :=
  flat_map (fun e => match e with
                     | EvSave _ _ _ ms => ms
                     | _ => []
                     end) evs.

(** The files a run has written. *)
Definition saved_files (evs : list event) : list string :=
  flat_map (fun e => match e with
                     | EvSave f _ _ _ => [f]
                     | _ => []
                     end) evs.

(** The keys the row loop has reported as missing. *)
Definition missing_keys (evs : list event) : list string :=
  flat_map (fun e => match e with
                     | EvMissingKey k => [k]
                     | _ => []
                     end) evs.

(** The row of the table for a zone, if the zone is one of the nine. *)
Definition zone_of (name : string) : option zone_row :=
  find (fun z => String.eqb (ZONE z) name) coordinates_data.

End CaptureMap.

(** ** The text the two batch drivers share

    From [map_obj = create_map()] to the last [print], the two [process_csv]
    differ only in the body of the row loop and in the name of the file. *)
Section Driver.

Variable body : Series -> M unit.
Variable file : string.

Definition batch_with (df : DataFrame) (batch_size start : Z) : M unit :=
  let end_ := Z.min (start + batch_size) (len df) in
  let batch_df := iloc df start end_ in
  for_ (iterrows batch_df) body ;;;
  sleep InterBatch 2.

Definition drive_with (df : DataFrame) (batch_size : Z) : M unit :=
  update_map (fun _ => create_map) ;;;
  starts <- lift (range3 0 (len df) batch_size) ;;
  for_ starts (batch_with df batch_size) ;;;
  save file ;;;
  print (MsgSaved file).

End Driver.

(** ** Vocabulary of the properties *)

(** The map with [anns] appended. *)
Definition adds (anns : list annotation) (m : Map) : Map :=
  {| map_location := map_location m;
     zoom_start := zoom_start m;
     children := children m ++ anns |}.

(** The world after [evs] more events and [anns] more annotations. *)
Definition extend (evs : list event) (anns : list annotation) (w : world)
    : world :=
  {| trace := trace w ++ evs; map_obj := adds anns (map_obj w) |}.

(** The milestones of a run: a row dealt with (its closing console line), a
    pause between batches, the map written to a file. *)
Inductive mark : Type :=
| RowDone
| Pause (seconds : Z)
| Saved (file : string) (doc : Map).

Definition mark_of (e : event) : list mark :=
  match e with
  | EvPrint (MsgMarkerAdded _) => [RowDone]
  | EvPrint (MsgCirclesAdded _) => [RowDone]
  | EvPrint (MsgColumnNotFound _) => [RowDone]
  | EvPrint (MsgIndexError _) => [RowDone]
  | EvSleep InterBatch s => [Pause s]
  | EvSave f d => [Saved f d]
  | _ => []
  end.

Definition skeleton (evs : list event) : list mark := flat_map mark_of evs.

(** The chunks of rows the batch loop cuts a frame into. *)
Definition chunks (df : DataFrame) (batch_size : Z) : list (list (list cell)) :=
  map (fun start =>
         data (iloc df start (Z.min (start + batch_size) (len df))))
      (range_up 0 (len df) batch_size).

Definition has_field (row : Series) (key : string) : bool :=
  match getitem row key with
  | Ok _ => true
  | Raise _ => false
  end.

(** A row with the three fields the row loops read. *)
Definition complete (row : Series) : bool :=
  has_field row "name" && has_field row "latitude" && has_field row "longitude".

Definition field (row : Series) (key : string) : cell :=
  match getitem row key with
  | Ok v => v
  | Raise _ => CNaN
  end.

Definition coords_of (row : Series) : cell * cell :=
  (field row "latitude", field row "longitude").

(** The first of the three fields that a row lacks, in the order the loops
    read them. *)
Definition first_missing (row : Series) : option string :=
  if negb (has_field row "name") then Some "name"
  else if negb (has_field row "latitude") then Some "latitude"
  else if negb (has_field row "longitude") then Some "longitude"
  else None.

(** A service that answers, times out or is unavailable, and fails in no
    other way. *)
Definition tame (g : Geolocator) : Prop :=
  forall n c t,
    match g n c t with
    | Returns _ => True
    | Raises GeocoderTimedOut => True
    | Raises (GeocoderUnavailable _) => True
    | Raises _ => False
    end.

(** The marker the combined-map script puts on a row's coordinates. *)
Definition marker_at (c : cell * cell) (address : string) : annotation :=
  Marker c {| html := "Address: " ++ address; max_width := 300 |}.

(** The two circles the highlighted-map script puts on a row's coordinates. *)
Definition circles_at (c : cell * cell) : list annotation :=
  [Circle c 200 "red" true "red" 0.3;
   Circle c 500 "orange" true "orange" 0.2].

Definition is_marker (a : annotation) : bool :=
  match a with Marker _ _ => true | _ => false end.

(** The arguments of the pauses between batches, in order. *)
Definition batch_sleeps (evs : list event) : list Z :=
  flat_map (fun e => match e with
                     | EvSleep InterBatch s => [s]
                     | _ => []
                     end) evs.

Definition pauses_of (ms : list mark) : list Z :=
  flat_map (fun m => match m with
                     | Pause s => [s]
                     | _ => []
                     end) ms.

(** The milestones of a row loop that ends normally, the rows of the batch
    that starts at [start], and the milestones of that batch. *)
Definition rows_done (rows : list Series) : list mark :=
  repeat RowDone (length rows).

Definition batch_rows (df : DataFrame) (batch_size start : Z) : list Series :=
  iterrows (iloc df start (Z.min (start + batch_size) (len df))).

Definition batch_marks (df : DataFrame) (batch_size start : Z) : list mark :=
  (rows_done (batch_rows df batch_size start) ++ [Pause 2])%list.

(** The milestones of a batch loop over the given chunks: every chunk is
    followed by its pause. *)
Definition chunk_marks (cs : list (list (list cell))) : list mark :=
  flat_map (fun c => repeat RowDone (length c) ++ [Pause 2])%list cs.

(** What the drivers need from the body of a row loop: it adds events and
    annotations only; when it ends normally it has closed the row with one
    console line; on a complete row and with a tame service it ends normally
    with annotations the script's own ([good]); on an incomplete row it ends
    normally with none. *)
Definition row_spec (g : Geolocator) (body : Series -> M unit)
    (good : Series -> list annotation -> Prop) : Prop :=
  forall row w, exists r evs anns,
    body row w = (r, extend evs anns w) /\
    (r = Ok tt -> skeleton evs = [RowDone]) /\
    (tame g -> complete row = true -> r = Ok tt /\ good row anns) /\
    (complete row = false -> r = Ok tt /\ anns = [] /\ ncalls evs = 0%nat).

(** What a loop over [rows] leaves behind: [skel] are its milestones when it
    ends normally. *)
Definition outcome (g : Geolocator) (good : Series -> list annotation -> Prop)
    (rows : list Series) (skel : list mark)
    (r : result unit) (evs : list event) (anns : list annotation) : Prop :=
  (r = Ok tt -> skeleton evs = skel) /\
  (tame g -> r = Ok tt) /\
  (tame g -> forallb complete rows = true ->
   exists per, Forall2 good rows per /\ anns = concat per).

(** The annotations of a complete row in each script. *)
Definition one_marker (row : Series) (anns : list annotation) : Prop :=
  exists address, anns = [marker_at (coords_of row) address].

Definition two_circles (row : Series) (anns : list annotation) : Prop :=
  anns = circles_at (coords_of row).

(** The events of the opening lines of [process_csv]. *)
Definition header (df : DataFrame) : list event :=
  [EvPrint (MsgColumns (columns df)); EvPrint MsgFirstRows;
   EvPrint (MsgHead (head df))].

(** ** More vocabulary: what a run of the helper looks like *)

(** The events of the attempts numbered [first], ..., [first + k - 1] when
    every one of them times out: the request, the console line, the wait. *)
Definition timed_out_attempts (coordinates : cell * cell) (timeout : Z)
    (first k : nat) : list event :=
  flat_map (fun i => [EvReverse coordinates timeout;
                      EvPrint (MsgTimedOut (Z.of_nat i + 1));
                      EvSleep Backoff (2 ^ Z.of_nat i)])
           (seq first k).

(** The events the helper may add to a trace, for the coordinates and the
    timeout it was called with. *)
Definition helper_event (coordinates : cell * cell) (timeout : Z)
    (e : event) : Prop :=
  match e with
  | EvReverse c t => c = coordinates /\ t = timeout
  | EvPrint (MsgTimedOut _) => True
  | EvPrint (MsgUnavailable _) => True
  | EvSleep Backoff _ => True
  | _ => False
  end.

(** The files written, with the document each one got. *)
Definition saves (evs : list event) : list (string * Map) :=
  flat_map (fun e => match e with
                     | EvSave f d => [(f, d)]
                     | _ => []
                     end) evs.

(** An exception the helper has no clause for. *)
Definition unhandled_by_helper (e : exn) : Prop :=
  match e with
  | GeocoderTimedOut => False
  | GeocoderUnavailable _ => False
  | _ => True
  end.

(** The rows of a frame that the service is asked about. *)
Definition load (rows : list Series) : nat := length (filter complete rows).

(** What a row leaves on the map when nothing goes wrong: its own
    annotations when it is complete, none when it is not. *)
Definition row_share (good : Series -> list annotation -> Prop)
    (row : Series) (anns : list annotation) : Prop :=
  if complete row then good row anns else anns = [].

(** An exception that gets out of a row loop: the service raised it, and it
    is none of those the helper or the loop has a clause for. *)
Definition leak (g : Geolocator) (e : exn) : Prop :=
  (exists n c t, g n c t = Raises e) /\
  unhandled_by_helper e /\
  forall key, e <> KeyError key.

(** The account of one pass through the body of a row loop. *)
Definition row_facts (g : Geolocator) (body : Series -> M unit)
    (good : Series -> list annotation -> Prop) : Prop :=
  forall row w, exists r evs anns,
    body row w = (r, extend evs anns w) /\
    saves evs = [] /\
    (ncalls evs <= 3 * load [row])%nat /\
    0 <= slept evs <= 7 * Z.of_nat (load [row]) /\
    (tame g -> r = Ok tt /\ row_share good row anns) /\
    (load [row] = 0%nat -> r = Ok tt /\ anns = []) /\
    (forall e, r = Raise e -> leak g e) /\
    (r = Ok tt -> (load [row] <= ncalls evs)%nat).

(** The account of a loop over [rows] that paused [pauses] times. *)
Definition ledger (g : Geolocator) (good : Series -> list annotation -> Prop)
    (rows : list Series) (pauses : nat)
    (r : result unit) (evs : list event) (anns : list annotation) : Prop :=
  saves evs = [] /\
  (ncalls evs <= 3 * load rows)%nat /\
  0 <= slept evs <= 7 * Z.of_nat (load rows) + 2 * Z.of_nat pauses /\
  (tame g ->
   r = Ok tt /\
   exists per, Forall2 (row_share good) rows per /\ anns = concat per) /\
  (load rows = 0%nat -> r = Ok tt /\ anns = []) /\
  (forall e, r = Raise e -> leak g e) /\
  (r = Ok tt -> (load rows <= ncalls evs)%nat).

(** The last two events of a driver that got to its end. *)
Definition closing (file : string) (r : result unit) (doc : Map)
    : list event :=
  match r with
  | Ok _ => [EvSave file doc; EvPrint (MsgSaved file)]
  | Raise _ => []
  end.

(** The captures of one year, all zones together, among the rows that
    [groupby] keeps. *)
Definition captures_in_year (df : list Capture.capture) (y : Z) : Z :=
  Z.of_nat (length (filter (fun r => Capture.grouped r && Capture.in_year r y)
                           df)).

(** A capture with a zone and a date whose year is the number [q]. *)
Definition names_year (q : Q) (r : Capture.capture) : bool :=
  Capture.grouped r
  && match Capture.YEAR r with
     | Some y => Qeq_bool (inject_Z y) q
     | None => false
     end.

(** The year that a zone name is the number of: the year of a capture of
    the file, if the zone name is a number and there is a capture in the
    year of that number. *)
Definition year_named (df : list Capture.capture) (z : Capture.zone)
    : option Z :=
  match z with
  | Capture.Number q =>
      match find (names_year q) df with
      | Some r => Capture.YEAR r
      | None => None
      end
  | _ => None
  end.

(** The order [groupby] sorts the zones in, the count of one zone in a
    one-item tally, and the sum of a column of numbers. *)
Definition before (a b : Capture.zone) : Prop := Capture.zone_compare a b = Lt.

Definition hit (z0 z : Capture.zone) : Z :=
  if Capture.same_zone z0 z then 1 else 0.

Definition total (l : list Z) : Z := fold_right Z.add 0 l.

(** ** Sample inputs *)

(** A service that times out once and is unavailable from then on. *)
Definition flaky_then_down : Geolocator :=
  fun n _ _ =>
    match n with
    | O => Raises GeocoderTimedOut
    | _ => Raises (GeocoderUnavailable "503")
    end.

Definition darwin : cell * cell := (CNum (-12.46), CNum 130.84).

Definition fresh : world := {| trace := []; map_obj := create_map |}.

(** The row of the spec's example, alone in its frame. *)
Definition site_a_frame : DataFrame :=
  {| columns := ["name"; "latitude"; "longitude"];
     data := [[CStr "Site A"; CNum (-12.46); CNum 130.84]] |}.

Definition site_a : Series :=
  [("name", CStr "Site A");
   ("latitude", CNum (-12.46));
   ("longitude", CNum 130.84)].

(** Six records, two of them at the same coordinates. *)
Definition six_sites : DataFrame :=
  {| columns := ["name"; "latitude"; "longitude"];
     data := [[CStr "Site A"; CNum (-12.46); CNum 130.84];
              [CStr "Site B"; CNum (-12.46); CNum 130.84];
              [CStr "Site C"; CNum (-14.48); CNum 132.46];
              [CStr "Site D"; CNum (-13.08); CNum 130.90];
              [CStr "Site E"; CNum (-12.64); CNum 136.81];
              [CStr "Site F"; CNum (-12.84); CNum 131.38]] |}.

(** A frame without a latitude column. *)
Definition no_latitude_frame : DataFrame :=
  {| columns := ["name"; "longitude"];
     data := [[CStr "Site A"; CNum 130.84];
              [CStr "Site B"; CNum 132.46]] |}.

(** A service that fails with a [KeyError] of its own, and one that fails
    with an [IndexError]. *)
Definition key_error_inside : Geolocator :=
  fun _ _ _ => Raises (KeyError "display_name").

Definition index_error_inside : Geolocator :=
  fun _ _ _ => Raises (IndexError "list index out of range").

(** A frame whose only row has no name in its cell, and one whose first row
    has no latitude in its cell. *)
Definition nameless_frame : DataFrame :=
  {| columns := ["name"; "latitude"; "longitude"];
     data := [[CNaN; CNum (-12.46); CNum 130.84]] |}.

Definition blank_latitude_frame : DataFrame :=
  {| columns := ["name"; "latitude"; "longitude"];
     data := [[CStr "Site A"; CNaN; CNum 130.84];
              [CStr "Site B"; CNum (-14.48); CNum 132.46]] |}.

(** A service that, as geopy does, will not take a coordinate that is not a
    number, and finds an address for any other. *)
Definition finite_only : Geolocator :=
  fun _ c _ =>
    match c with
    | (CNum _, CNum _) => Returns (Some {| address := "123 Example Rd" |})
    | _ => Raises (ValueError "Point coordinates must be finite")
    end.

(** A row without a latitude. *)
Definition no_latitude : Series :=
  [("name", CStr "Site B"); ("longitude", CNum 130.84)].

(** Three captures: two zones, two years. *)
Definition three_captures : list Capture.capture :=
  [Capture.mkCapture (Capture.Text "Shoal Bay")
                     (Some (Capture.mkDate 2019 3 14));
   Capture.mkCapture (Capture.Text "Shoal Bay")
                     (Some (Capture.mkDate 2020 7 2));
   Capture.mkCapture (Capture.Text "Litchfield")
                     (Some (Capture.mkDate 2020 11 30))].

(** Three captures of a file that numbers its zones 2019 and 2020. *)
Definition numbered_captures : list Capture.capture :=
  [Capture.mkCapture (Capture.Number 2020) (Some (Capture.mkDate 2020 1 15));
   Capture.mkCapture (Capture.Number 2019) (Some (Capture.mkDate 2019 6 1));
   Capture.mkCapture (Capture.Number 2020) (Some (Capture.mkDate 2020 9 30))].

(** Capture files: with the two columns the script reads, with numbered
    zones, and with coordinates of its own. *)
Definition three_captures_file : CaptureMap.csv_file :=
  {| CaptureMap.csv_columns := ["ZONE_NAME"; "DATE_CAPTURED"];
     CaptureMap.csv_rows := three_captures |}.

Definition numbered_file : CaptureMap.csv_file :=
  {| CaptureMap.csv_columns := ["ZONE_NAME"; "DATE_CAPTURED"];
     CaptureMap.csv_rows := numbered_captures |}.


(** A service that times out twice before it answers, one that always
    times out, and one that fails in a way no script expects. *)
Definition slow_then_found : Geolocator :=
  fun n _ _ =>
    match n with
    | O => Raises GeocoderTimedOut
    | S O => Raises GeocoderTimedOut
    | _ => Returns (Some {| address := "123 Example Rd" |})
    end.

Definition always_timing_out : Geolocator :=
  fun _ _ _ => Raises GeocoderTimedOut.

Definition over_quota : Geolocator :=
  fun _ _ _ => Raises (OtherError "GeocoderQuotaExceeded").

(** A service that always finds the same address, and one that is down. *)
Definition always_found : Geolocator :=
  fun _ _ _ => Returns (Some {| address := "123 Example Rd" |}).

Definition always_down : Geolocator :=
  fun _ _ _ => Raises (GeocoderUnavailable "503").
(** * Properties *)

Local Open Scope list_scope.

(** ** Traces *)


Lemma ncalls_app (a b : list event) :
  ncalls (a ++ b) = (ncalls a + ncalls b)%nat.
Proof.
  unfold ncalls. now rewrite filter_app, length_app.
Qed.

Lemma slept_app (a b : list event) : slept (a ++ b) = slept a + slept b.
Proof.
  induction a as [|e a IH]; simpl; [reflexivity|].
  rewrite IH. lia.
Qed.

Lemma skipn_length_app {A} (a b : list A) : skipn (length a) (a ++ b) = b.
Proof.
  induction a; simpl; auto.
Qed.

Lemma log_nil (w : world) : log [] w = w.
Proof.
  destruct w. unfold log. simpl. now rewrite app_nil_r.
Qed.

Lemma log_log (a b : list event) (w : world) :
  log b (log a w) = log (a ++ b) w.
Proof.
  unfold log. simpl. now rewrite app_assoc.
Qed.

Lemma during_log {A} (m : M A) (w : world) (r : result A) (evs : list event) :
  m w = (r, log evs w) -> during m w = evs.
Proof.
  intros E. unfold during. rewrite E. simpl. apply skipn_length_app.
Qed.

(** ** The retry helper *)

Section Retry.

Variable geolocator : Geolocator.
Variable coordinates : cell * cell.
Variable timeout : Z.

(** One pass through the loop body, by the answer of the service. *)
Lemma attempt_body_eq (attempt : Z) (w : world) :
  attempt_body geolocator coordinates timeout attempt w =
  match geolocator (ncalls (trace w)) coordinates timeout with
  | Returns location =>
      (Ok (Return location), log [EvReverse coordinates timeout] w)
  | Raises GeocoderTimedOut =>
      (Ok Continue,
       log [EvReverse coordinates timeout;
            EvPrint (MsgTimedOut (attempt + 1));
            EvSleep Backoff (2 ^ attempt)] w)
  | Raises (GeocoderUnavailable msg) =>
      (Ok Break,
       log [EvReverse coordinates timeout; EvPrint (MsgUnavailable msg)] w)
  | Raises e => (Raise e, log [EvReverse coordinates timeout] w)
  end.
Proof.
  unfold attempt_body, try_except, bind, reverse, print, sleep, emit, ret, log.
  destruct (geolocator _ _ _) as [l|[]]; simpl; try reflexivity.
  - now rewrite <- !app_assoc.
  - now rewrite <- !app_assoc.
Qed.

Local Abbreviation retry_loop := (retry_loop geolocator coordinates timeout).

(** What a run of the loop adds to the world: events only, at most one
    request per attempt, and no more waiting than the attempts allow. *)
Lemma retry_loop_log (attempts : list Z) (w : world) :
  exists evs,
    snd (retry_loop attempts w) = log evs w /\
    (ncalls evs <= length attempts)%nat /\
    0 <= slept evs <= fold_right Z.add 0 (map (fun a => 2 ^ a) attempts).
Proof.
  revert w. induction attempts as [|a rest IH]; intros w.
  - exists []. cbn. rewrite log_nil. repeat split; try reflexivity; try lia.
  - unfold retry_loop. simpl. unfold bind at 1. rewrite attempt_body_eq.
    assert (P : 0 <= 2 ^ a) by (apply Z.pow_nonneg; lia).
    assert (S0 : 0 <= fold_right Z.add 0 (map (fun a => 2 ^ a) rest)).
    { clear. induction rest as [|x l IHl]; simpl; [lia|].
      assert (0 <= 2 ^ x) by (apply Z.pow_nonneg; lia). lia. }
    destruct (geolocator _ _ _) as [l|e].
    + eexists. split; [reflexivity|]. cbn. lia.
    + destruct e; try (eexists; split; [reflexivity|]; cbn; lia).
      destruct (IH (log [EvReverse coordinates timeout;
                         EvPrint (MsgTimedOut (a + 1));
                         EvSleep Backoff (2 ^ a)] w)) as (evs & E & C & S).
      fold (retry_loop rest). eexists. split.
      * rewrite E, log_log. reflexivity.
      * rewrite ncalls_app, slept_app. cbn. lia.
Qed.

Lemma retry_snd (retries : Z) (w : world) :
  snd (reverse_geocode_with_retry geolocator coordinates retries timeout w) =
  snd (retry_loop (range retries) w).
Proof.
  unfold reverse_geocode_with_retry, bind. fold (retry_loop (range retries)).
  destruct (retry_loop (range retries) w) as [[[l|]|e] w1]; reflexivity.
Qed.

Lemma range_length (n : Z) : Z.of_nat (length (range n)) = Z.max 0 n.
Proof.
  unfold range. rewrite length_map, length_seq. lia.
Qed.

(** A run only ever adds events; the map is left alone. *)
Lemma retry_log (retries : Z) (w : world) :
  snd (reverse_geocode_with_retry geolocator coordinates retries timeout w) =
  log (during (reverse_geocode_with_retry geolocator coordinates retries timeout) w) w.
Proof.
  rewrite retry_snd.
  destruct (retry_loop_log (range retries) w) as (evs & E & _).
  unfold during. rewrite retry_snd, E. simpl. now rewrite skipn_length_app.
Qed.

(** The budget in closed form: 2^retries - 1, and 0 without retries. *)
Lemma backoff_budget_closed (retries : Z) :
  backoff_budget retries = 2 ^ Z.max 0 retries - 1.
Proof.
  unfold backoff_budget, range.
  replace (Z.max 0 retries) with (Z.of_nat (Z.to_nat retries)) by lia.
  induction (Z.to_nat retries) as [|n IH].
  - reflexivity.
  - rewrite seq_S, !map_app, fold_right_app.
    cbn [fold_right map Nat.add].
    assert (F : forall l a,
               fold_right Z.add a l = fold_right Z.add 0 l + a).
    { clear. induction l as [|x l IHl]; intros a; simpl; [lia|].
      rewrite IHl. lia. }
    rewrite F, IH, Nat2Z.inj_succ, Z.pow_succ_r by lia. lia.
Qed.

(** C1. Whatever the coordinates, the number of retries and the answers of
    the service, a run of [reverse_geocode_with_retry] sends at most
    [retries] requests (none when [retries] is not positive), and the sleep
    arguments it hands out add up to at most
    2^0 + 2^1 + ... + 2^(retries-1). *)
Theorem retry_attempts_and_backoff_bounded (retries : Z) (w : world) :
  let run := during (reverse_geocode_with_retry geolocator coordinates
                                                retries timeout) w in
  Z.of_nat (ncalls run) <= Z.max 0 retries /\
  slept run <= backoff_budget retries.
Proof.
  intros run. subst run. unfold during. rewrite retry_snd.
  destruct (retry_loop_log (range retries) w) as (evs & E & C & S).
  rewrite E. simpl. rewrite skipn_length_app.
  rewrite <- range_length. unfold backoff_budget. lia.
Qed.

Lemma ncalls_log (evs : list event) (w : world) :
  ncalls (trace (log evs w)) = (ncalls (trace w) + ncalls evs)%nat.
Proof.
  unfold log. simpl. apply ncalls_app.
Qed.

(** Once the service says it is unavailable at the [k]-th request of a loop
    (counting from 0), the loop has sent its last request. *)
Lemma retry_loop_unavailable (attempts : list Z) (w : world) (k : nat)
    (msg : string) :
  geolocator (ncalls (trace w) + k)%nat coordinates timeout
    = Raises (GeocoderUnavailable msg) ->
  exists r evs,
    retry_loop attempts w = (r, log evs w) /\
    (ncalls evs <= k + 1)%nat /\
    (ncalls evs = k + 1 -> r = Ok None)%nat.
Proof.
  revert w k. induction attempts as [|a rest IH]; intros w k G.
  - exists (Ok None), []. rewrite log_nil. cbn. repeat split; lia.
  - unfold retry_loop. simpl. unfold bind at 1. rewrite attempt_body_eq.
    destruct k as [|k].
    + rewrite Nat.add_0_r in G. rewrite G.
      do 2 eexists. split; [reflexivity|]. cbn. split; [lia|reflexivity].
    + destruct (geolocator (ncalls (trace w)) coordinates timeout)
        as [l|e] eqn:G0.
      * do 2 eexists. split; [reflexivity|]. cbn. lia.
      * destruct e;
          try (do 2 eexists; split; [reflexivity|]; cbn; lia).
        fold (retry_loop rest).
        set (w1 := log [EvReverse coordinates timeout;
                        EvPrint (MsgTimedOut (a + 1));
                        EvSleep Backoff (2 ^ a)] w).
        destruct (IH w1 k) as (r & evs & E & C & R).
        { subst w1. rewrite ncalls_log. cbn.
          replace (ncalls (trace w) + 1 + k)%nat
            with (ncalls (trace w) + S k)%nat by lia.
          exact G. }
        exists r. eexists. split.
        { rewrite E. subst w1. rewrite log_log. reflexivity. }
        rewrite ncalls_app. cbn. split; [lia|].
        intros H. apply R. lia.
Qed.

(** C2. In every run of [reverse_geocode_with_retry], whatever [retries] is:
    if the service answers the request of attempt [k] (the loop variable,
    counted from 0) with service-unavailable, the run sends no request
    beyond that one, so no attempt after [k] occurs; and a run that got as
    far as attempt [k] ends there with the failure result. *)
Theorem unavailable_ends_the_run (retries : Z) (w : world) (k : nat)
    (msg : string) :
  geolocator (ncalls (trace w) + k)%nat coordinates timeout
    = Raises (GeocoderUnavailable msg) ->
  let m := reverse_geocode_with_retry geolocator coordinates retries timeout in
  (ncalls (during m w) <= k + 1)%nat /\
  (ncalls (during m w) = k + 1 -> fst (m w) = Ok None)%nat.
Proof.
  intros G m.
  destruct (retry_loop_unavailable (range retries) w k msg G)
    as (r & evs & E & C & R).
  assert (D : during m w = evs).
  { unfold during. subst m. rewrite retry_snd, E. simpl.
    apply skipn_length_app. }
  rewrite D. split; [exact C|].
  intros H. specialize (R H). subst m r.
  unfold reverse_geocode_with_retry, bind.
  fold (retry_loop (range retries)). rewrite E. reflexivity.
Qed.

(** C10. With [retries] zero or negative, [reverse_geocode_with_retry]
    returns [None] and leaves the world as it found it: no request to the
    service, no sleep, nothing at all. *)
Theorem no_retries_no_effect (retries : Z) (w : world) :
  retries <= 0 ->
  reverse_geocode_with_retry geolocator coordinates retries timeout w
    = (Ok None, w).
Proof.
  intros H. unfold reverse_geocode_with_retry, range.
  replace (Z.to_nat retries) with 0%nat by lia. reflexivity.
Qed.

End Retry.


Lemma unavailable_ends_the_run_witness :
  let m := reverse_geocode_with_retry flaky_then_down darwin 5 10 in
  (ncalls (during m fresh) <= 1 + 1)%nat /\
  (ncalls (during m fresh) = 1 + 1 -> fst (m fresh) = Ok None)%nat.
Proof.
  apply (unavailable_ends_the_run flaky_then_down darwin 10 5 fresh 1 "503").
  reflexivity.
Defined.

Lemma no_retries_no_effect_witness :
  reverse_geocode_with_retry flaky_then_down darwin (-2) 10 fresh
    = (Ok None, fresh).
Proof.
  apply (no_retries_no_effect flaky_then_down darwin 10 (-2) fresh). lia.
Defined.

(** ** Worlds that only grow *)

Lemma adds_nil (m : Map) : adds [] m = m.
Proof.
  destruct m. unfold adds. simpl. now rewrite app_nil_r.
Qed.

Lemma adds_adds (a b : list annotation) (m : Map) :
  adds b (adds a m) = adds (a ++ b) m.
Proof.
  unfold adds. simpl. now rewrite app_assoc.
Qed.

Lemma extend_nil (w : world) : extend [] [] w = w.
Proof.
  destruct w. unfold extend. simpl. now rewrite app_nil_r, adds_nil.
Qed.

Lemma extend_extend (e1 e2 : list event) (a1 a2 : list annotation) (w : world) :
  extend e2 a2 (extend e1 a1 w) = extend (e1 ++ e2) (a1 ++ a2) w.
Proof.
  unfold extend. simpl. now rewrite app_assoc, adds_adds.
Qed.

Lemma log_extend (evs : list event) (w : world) : log evs w = extend evs [] w.
Proof.
  unfold log, extend. now rewrite adds_nil.
Qed.

Lemma emit_extend (e : event) (w : world) : emit e w = (Ok tt, extend [e] [] w).
Proof.
  unfold emit, extend. now rewrite adds_nil.
Qed.

Lemma add_to_extend (a : annotation) (w : world) :
  update_map (add_to a) w = (Ok tt, extend [] [a] w).
Proof.
  unfold update_map, extend. now rewrite app_nil_r.
Qed.

Lemma during_extend {A} (m : M A) (w : world) (r : result A)
    (evs : list event) (anns : list annotation) :
  m w = (r, extend evs anns w) -> during m w = evs.
Proof.
  intros E. unfold during. rewrite E. simpl. apply skipn_length_app.
Qed.

Lemma skeleton_app (a b : list event) :
  skeleton (a ++ b) = skeleton a ++ skeleton b.
Proof.
  apply flat_map_app.
Qed.

(** ** The retry helper inside a row *)

Section RetryInRow.

Variable geolocator : Geolocator.
Variable coordinates : cell * cell.
Variable timeout : Z.

Lemma retry_loop_quiet (attempts : list Z) (w : world) :
  exists r evs,
    retry_loop geolocator coordinates timeout attempts w = (r, log evs w) /\
    skeleton evs = [] /\
    (tame geolocator -> exists o, r = Ok o).
Proof.
  revert w. induction attempts as [|a rest IH]; intros w.
  - exists (Ok None), []. rewrite log_nil. cbn. eauto.
  - unfold retry_loop. simpl. unfold bind at 1. rewrite attempt_body_eq.
    pose proof (fun T : tame geolocator =>
                  T (ncalls (trace w)) coordinates timeout) as T.
    destruct (geolocator _ _ _) as [l|e].
    + do 2 eexists. split; [reflexivity|]. cbn. eauto.
    + destruct e;
        try (do 2 eexists; split; [reflexivity|]; cbn; split; [reflexivity|];
             intros H; try (exfalso; exact (T H)); eauto).
      fold (retry_loop geolocator coordinates timeout rest).
      destruct (IH (log [EvReverse coordinates timeout;
                         EvPrint (MsgTimedOut (a + 1));
                         EvSleep Backoff (2 ^ a)] w)) as (r & evs & E & S & O).
      exists r. eexists. split.
      * rewrite E, log_log. reflexivity.
      * rewrite skeleton_app, S. cbn. auto.
Qed.

Lemma retry_quiet (retries : Z) (w : world) :
  exists r evs,
    reverse_geocode_with_retry geolocator coordinates retries timeout w
      = (r, log evs w) /\
    skeleton evs = [] /\
    (tame geolocator -> exists l, r = Ok l).
Proof.
  destruct (retry_loop_quiet (range retries) w) as (r & evs & E & S & O).
  unfold reverse_geocode_with_retry, bind. rewrite E.
  destruct r as [[l|]|e].
  - exists (Ok l), evs. cbn. eauto.
  - exists (Ok None), evs. cbn. eauto.
  - exists (Raise e), evs. repeat split; auto.
    intros T. destruct (O T) as (o & Ho). discriminate.
Qed.

End RetryInRow.

(** ** The row loops *)

Lemma getitem_raise (row : Series) (key : string) (e : exn) :
  getitem row key = Raise e -> e = KeyError key.
Proof.
  induction row as [|[k v] rest IH]; simpl.
  - intros H. now inversion H.
  - destruct (String.eqb k key); [discriminate|exact IH].
Qed.

Lemma has_field_ok (row : Series) (key : string) (v : cell) :
  getitem row key = Ok v -> has_field row key = true /\ field row key = v.
Proof.
  intros H. unfold has_field, field. now rewrite H.
Qed.

Lemma has_field_raise (row : Series) (key : string) (e : exn) :
  getitem row key = Raise e -> has_field row key = false.
Proof.
  intros H. unfold has_field. now rewrite H.
Qed.

(** A row that lacks a field: the body prints its diagnostic and is done. *)
Ltac skip_row H :=
  pose proof (getitem_raise _ _ _ H); subst;
  eexists (Ok tt), [_], []; split;
  [ unfold on_key_error, Highlighted.on_error, print; cbv beta iota; rewrite emit_extend; reflexivity
  | unfold complete; rewrite ?(has_field_raise _ _ _ H);
    repeat match goal with
           | G : getitem _ _ = Ok _ |- _ =>
               rewrite (proj1 (has_field_ok _ _ _ G)); clear G
           end;
    cbn; repeat split; intros; try reflexivity; discriminate ].

Lemma combined_row_spec (g : Geolocator) :
  row_spec g (Combined.process_row g) one_marker.
Proof.
  intros row w.
  unfold Combined.process_row, try_except, bind at 1, lift.
  destruct (getitem row "name") as [name|e] eqn:Hn; [|skip_row Hn].
  unfold bind at 1.
  destruct (getitem row "latitude") as [lat|e] eqn:Hlat; [|skip_row Hlat].
  unfold bind at 1.
  destruct (getitem row "longitude") as [lon|e] eqn:Hlon; [|skip_row Hlon].
  assert (C : complete row = true).
  { unfold complete.
    now rewrite (proj1 (has_field_ok _ _ _ Hn)),
                (proj1 (has_field_ok _ _ _ Hlat)),
                (proj1 (has_field_ok _ _ _ Hlon)). }
  assert (XY : coords_of row = (lat, lon)).
  { unfold coords_of.
    now rewrite (proj2 (has_field_ok _ _ _ Hlat)),
                (proj2 (has_field_ok _ _ _ Hlon)). }
  unfold bind at 1.
  destruct (retry_quiet g (lat, lon) default_timeout default_retries w)
    as (r & evs & E & S & T).
  rewrite E. rewrite log_extend.
  destruct r as [location|e].
  - unfold bind, Combined.add_marker_to_map, print.
    rewrite add_to_extend, emit_extend, !extend_extend.
    exists (Ok tt). do 2 eexists. split; [reflexivity|].
    rewrite !app_nil_r, skeleton_app, S. cbn.
    repeat split; try congruence.
    unfold one_marker. rewrite XY. eexists. reflexivity.
  - assert (NT : tame g -> False).
    { intros H. destruct (T H). discriminate. }
    destruct e; cbn;
      try (exists (Raise e); do 2 eexists; split; [reflexivity|];
           repeat split; try congruence; try (intros H; destruct (NT H))).
    all: try (do 3 eexists; split; [reflexivity|];
              repeat split; try congruence; intros H; destruct (NT H)).
    unfold print. rewrite emit_extend, extend_extend.
    exists (Ok tt). do 2 eexists. split; [reflexivity|].
    rewrite skeleton_app, S. cbn.
    repeat split; try congruence; intros H; destruct (NT H).
Qed.

Lemma highlighted_row_spec (g : Geolocator) :
  row_spec g (Highlighted.process_row g) two_circles.
Proof.
  intros row w.
  unfold Highlighted.process_row, try_except, bind at 1, lift.
  destruct (getitem row "name") as [name|e] eqn:Hn; [|skip_row Hn].
  unfold bind at 1.
  destruct (getitem row "latitude") as [lat|e] eqn:Hlat; [|skip_row Hlat].
  unfold bind at 1.
  destruct (getitem row "longitude") as [lon|e] eqn:Hlon; [|skip_row Hlon].
  assert (C : complete row = true).
  { unfold complete.
    now rewrite (proj1 (has_field_ok _ _ _ Hn)),
                (proj1 (has_field_ok _ _ _ Hlat)),
                (proj1 (has_field_ok _ _ _ Hlon)). }
  assert (XY : coords_of row = (lat, lon)).
  { unfold coords_of.
    now rewrite (proj2 (has_field_ok _ _ _ Hlat)),
                (proj2 (has_field_ok _ _ _ Hlon)). }
  unfold bind at 1.
  destruct (retry_quiet g (lat, lon) default_timeout default_retries w)
    as (r & evs & E & S & T).
  rewrite E. rewrite log_extend.
  destruct r as [location|e].
  - unfold bind, Highlighted.add_circle_to_map, bind, print.
    rewrite add_to_extend. cbv beta iota.
    rewrite add_to_extend. cbv beta iota.
    rewrite emit_extend, !extend_extend.
    exists (Ok tt). do 2 eexists. split; [reflexivity|].
    rewrite !app_nil_r, skeleton_app, S. cbn.
    repeat split; try congruence.
    unfold two_circles. rewrite XY. reflexivity.
  - assert (NT : tame g -> False).
    { intros H. destruct (T H). discriminate. }
    destruct e; cbn;
      try (exists (Raise e); do 2 eexists; split; [reflexivity|];
           repeat split; try congruence; try (intros H; destruct (NT H))).
    all: try (do 3 eexists; split; [reflexivity|];
              repeat split; try congruence; intros H; destruct (NT H)).
    all: unfold print; rewrite emit_extend, extend_extend;
      exists (Ok tt); do 2 eexists; (split; [reflexivity|]);
      rewrite skeleton_app, S; cbn;
      repeat split; try congruence; intros H; destruct (NT H).
Qed.

(** ** Cutting a frame into chunks *)

Lemma ceil_div_spec (n b : Z) :
  0 < b -> (ceil_div n b - 1) * b < n <= ceil_div n b * b.
Proof.
  intros Hb. unfold ceil_div.
  pose proof (Z.div_mod (n + b - 1) b ltac:(lia)) as D.
  pose proof (Z.mod_pos_bound (n + b - 1) b Hb) as R.
  nia.
Qed.

Lemma range_len_ceil (n b : Z) :
  0 <= n -> 0 < b -> range_len 0 n b = ceil_div n b.
Proof.
  intros Hn Hb. unfold range_len, ceil_div.
  destruct (0 <? n) eqn:E.
  - apply Z.ltb_lt in E.
    replace (n + b - 1) with (n - 1 - 0 + 1 * b) by lia.
    rewrite Z.div_add by lia. lia.
  - apply Z.ltb_ge in E. assert (n = 0) by lia. subst.
    symmetry. apply Z.div_small. lia.
Qed.

Lemma range3_positive (n b : Z) : 0 < b -> range3 0 n b = Ok (range_up 0 n b).
Proof.
  intros Hb. unfold range3.
  destruct (b =? 0) eqn:E0; [apply Z.eqb_eq in E0; lia|].
  destruct (b <? 0) eqn:E1; [apply Z.ltb_lt in E1; lia|].
  reflexivity.
Qed.

Lemma firstn_past {A} (n m : nat) (l : list A) :
  (length l <= m)%nat -> (length l <= n)%nat -> firstn n l = firstn m l.
Proof.
  intros H1 H2. now rewrite !firstn_all2.
Qed.

(** Pieces of [b] items, cut at 0, b, 2b, ..., put back together. *)
Lemma pieces_concat {A} (b : nat) (k : nat) (l : list A) :
  (0 < b)%nat -> (length l <= k * b)%nat ->
  concat (map (fun i => firstn b (skipn (i * b) l)) (seq 0 k)) = l.
Proof.
  intros Hb. revert l. induction k as [|k IH]; intros l Hl.
  - simpl in *. destruct l; [reflexivity|simpl in Hl; lia].
  - simpl. rewrite <- seq_shift, map_map.
    transitivity (firstn b l ++ skipn b l); [|apply firstn_skipn].
    f_equal.
    transitivity
      (concat (map (fun i => firstn b (skipn (i * b) (skipn b l))) (seq 0 k))).
    + f_equal. apply map_ext. intros i.
      rewrite skipn_skipn. do 2 f_equal. lia.
    + apply IH. rewrite length_skipn. simpl in Hl. lia.
Qed.

Lemma chunk_eq (df : DataFrame) (b : Z) (i : nat) :
  0 < b ->
  data (iloc df (0 + Z.of_nat i * b)
                (Z.min (0 + Z.of_nat i * b + b) (len df)))
  = firstn (Z.to_nat b) (skipn (i * Z.to_nat b) (data df)).
Proof.
  intros Hb. unfold iloc, len. simpl.
  replace (Z.to_nat (Z.of_nat i * b)) with (i * Z.to_nat b)%nat by nia.
  set (rest := skipn (i * Z.to_nat b) (data df)).
  assert (L : length rest = (length (data df) - i * Z.to_nat b)%nat)
    by apply length_skipn.
  destruct (Z.le_ge_cases (Z.of_nat i * b + b) (Z.of_nat (length (data df))))
    as [H|H].
  - rewrite Z.min_l by lia. f_equal. lia.
  - rewrite Z.min_r by lia. apply firstn_past; nia.
Qed.

Lemma chunks_eq (df : DataFrame) (b : Z) :
  0 < b ->
  chunks df b =
  map (fun i => firstn (Z.to_nat b) (skipn (i * Z.to_nat b) (data df)))
      (seq 0 (Z.to_nat (ceil_div (len df) b))).
Proof.
  intros Hb. unfold chunks, range_up.
  rewrite range_len_ceil by (unfold len; lia).
  rewrite map_map. apply map_ext. intros i. now apply chunk_eq.
Qed.

Lemma chunks_concat (df : DataFrame) (b : Z) :
  0 < b -> concat (chunks df b) = data df.
Proof.
  intros Hb. rewrite chunks_eq by assumption.
  apply pieces_concat; [lia|].
  pose proof (ceil_div_spec (len df) b Hb) as S. unfold len in *.
  assert (0 <= ceil_div (Z.of_nat (length (data df))) b) by nia.
  nia.
Qed.

Lemma chunks_length (df : DataFrame) (b : Z) :
  0 < b -> Z.of_nat (length (chunks df b)) = ceil_div (len df) b.
Proof.
  intros Hb. rewrite chunks_eq by assumption.
  rewrite length_map, length_seq.
  pose proof (ceil_div_spec (len df) b Hb). unfold len in *.
  assert (0 <= ceil_div (Z.of_nat (length (data df))) b) by nia.
  lia.
Qed.

(** Every chunk holds at least one row and at most [b]. *)
Lemma chunks_sizes (df : DataFrame) (b : Z) :
  0 < b ->
  Forall (fun c => 0 < Z.of_nat (length c) <= b) (chunks df b).
Proof.
  intros Hb. rewrite chunks_eq by assumption.
  apply Forall_forall. intros c Hc.
  apply in_map_iff in Hc. destruct Hc as (i & <- & Hi).
  apply in_seq in Hi.
  pose proof (ceil_div_spec (len df) b Hb) as S. unfold len in *.
  rewrite length_firstn, length_skipn. nia.
Qed.

(** ** The batch driver, for any row loop that meets [row_spec] *)

Section DriverFacts.

Variable g : Geolocator.
Variable body : Series -> M unit.
Variable good : Series -> list annotation -> Prop.
Variable file : string.
Hypothesis body_spec : row_spec g body good.

(** With a tame service no row lets an exception through. *)
Lemma body_tame (row : Series) (w : world) :
  tame g -> fst (body row w) = Ok tt.
Proof.
  intros T.
  destruct (body_spec row w) as (r & evs & anns & E & _ & G & B).
  rewrite E. simpl. destruct (complete row).
  - now destruct (G T eq_refl).
  - now destruct (B eq_refl).
Qed.

Local Abbreviation outcome := (outcome g good).

Lemma outcome_nil : outcome [] [] (Ok tt) [] [].
Proof.
  repeat split. exists []. split; [constructor|reflexivity].
Qed.

Lemma outcome_raise (rows : list Series) (skel : list mark) (e : exn)
    (evs : list event) (anns : list annotation) :
  (tame g -> False) -> outcome rows skel (Raise e) evs anns.
Proof.
  intros NT. repeat split; try discriminate; intros T; destruct (NT T).
Qed.

Lemma outcome_app (rows1 rows2 : list Series) (skel1 skel2 : list mark)
    (r : result unit) (e1 e2 : list event) (a1 a2 : list annotation) :
  outcome rows1 skel1 (Ok tt) e1 a1 ->
  outcome rows2 skel2 r e2 a2 ->
  outcome (rows1 ++ rows2) (skel1 ++ skel2) r (e1 ++ e2) (a1 ++ a2).
Proof.
  intros (S1 & _ & G1) (S2 & T2 & G2). repeat split.
  - intros H. now rewrite skeleton_app, S1, (S2 H).
  - exact T2.
  - intros T C. rewrite forallb_app in C.
    apply andb_prop in C. destruct C as [C1 C2].
    destruct (G1 T C1) as (per1 & F1 & Ha1).
    destruct (G2 T C2) as (per2 & F2 & Ha2).
    exists (per1 ++ per2). split.
    + now apply Forall2_app.
    + now rewrite concat_app, Ha1, Ha2.
Qed.

Lemma body_outcome (row : Series) (w : world) :
  exists r evs anns,
    body row w = (r, extend evs anns w) /\
    outcome [row] [RowDone] r evs anns.
Proof.
  pose proof (body_tame row w) as BT.
  destruct (body_spec row w) as (r & evs & anns & E & S & G & _).
  exists r, evs, anns. split; [exact E|].
  rewrite E in BT. simpl in BT. repeat split; auto.
  intros T C. simpl in C. rewrite andb_true_r in C.
  destruct (G T C) as (_ & Ga).
  exists [anns]. split.
  - now repeat constructor.
  - simpl. now rewrite app_nil_r.
Qed.

Lemma rows_run (rows : list Series) (w : world) :
  exists r evs anns,
    for_ rows body w = (r, extend evs anns w) /\
    outcome rows (rows_done rows) r evs anns.
Proof.
  revert w. induction rows as [|row rest IH]; intros w.
  - exists (Ok tt), [], []. rewrite extend_nil. split; [reflexivity|].
    apply outcome_nil.
  - simpl. unfold bind.
    destruct (body_outcome row w) as (r1 & e1 & a1 & E1 & O1).
    rewrite E1. destruct r1 as [[]|e].
    + destruct (IH (extend e1 a1 w)) as (r2 & e2 & a2 & E2 & O2).
      rewrite E2, extend_extend. exists r2. do 2 eexists.
      split; [reflexivity|].
      apply (outcome_app [row] rest [RowDone] (rows_done rest)); assumption.
    + exists (Raise e). do 2 eexists. split; [reflexivity|].
      apply outcome_raise. intros T.
      destruct O1 as (_ & T1 & _). specialize (T1 T). discriminate.
Qed.

Lemma batch_run (df : DataFrame) (batch_size start : Z) (w : world) :
  exists r evs anns,
    batch_with body df batch_size start w = (r, extend evs anns w) /\
    outcome (batch_rows df batch_size start)
            (batch_marks df batch_size start) r evs anns.
Proof.
  unfold batch_with. fold (batch_rows df batch_size start).
  destruct (rows_run (batch_rows df batch_size start) w)
    as (r & evs & anns & E & O).
  unfold bind. rewrite E. destruct r as [[]|e].
  - unfold sleep. rewrite emit_extend, extend_extend.
    exists (Ok tt). do 2 eexists. split; [reflexivity|].
    rewrite <- (app_nil_r (batch_rows df batch_size start)).
    apply outcome_app; [exact O|].
    repeat split. exists []. split; [constructor|reflexivity].
  - exists (Raise e). do 2 eexists. split; [reflexivity|].
    apply outcome_raise. intros T.
    destruct O as (_ & T1 & _). specialize (T1 T). discriminate.
Qed.

Lemma batches_run (df : DataFrame) (batch_size : Z) (starts : list Z)
    (w : world) :
  exists r evs anns,
    for_ starts (batch_with body df batch_size) w = (r, extend evs anns w) /\
    outcome (flat_map (batch_rows df batch_size) starts)
            (flat_map (batch_marks df batch_size) starts) r evs anns.
Proof.
  revert w. induction starts as [|s rest IH]; intros w.
  - exists (Ok tt), [], []. rewrite extend_nil. split; [reflexivity|].
    apply outcome_nil.
  - simpl. unfold bind.
    destruct (batch_run df batch_size s w) as (r1 & e1 & a1 & E1 & O1).
    rewrite E1. destruct r1 as [[]|e].
    + destruct (IH (extend e1 a1 w)) as (r2 & e2 & a2 & E2 & O2).
      rewrite E2, extend_extend. exists r2. do 2 eexists.
      split; [reflexivity|]. now apply outcome_app.
    + exists (Raise e). do 2 eexists. split; [reflexivity|].
      apply outcome_raise. intros T.
      destruct O1 as (_ & T1 & _). specialize (T1 T). discriminate.
Qed.

(** The rows of all batches, in order, are the rows of the frame. *)
Lemma all_batch_rows (df : DataFrame) (batch_size : Z) :
  0 < batch_size ->
  flat_map (batch_rows df batch_size) (range_up 0 (len df) batch_size)
  = iterrows df.
Proof.
  intros Hb. unfold iterrows.
  rewrite <- (chunks_concat df batch_size Hb) at 1.
  unfold chunks. rewrite flat_map_concat_map, concat_map, map_map.
  f_equal.
Qed.

(** The milestones of the batch loop, chunk by chunk. *)
Lemma all_batch_marks (df : DataFrame) (batch_size : Z) :
  flat_map (batch_marks df batch_size) (range_up 0 (len df) batch_size)
  = chunk_marks (chunks df batch_size).
Proof.
  unfold chunk_marks, chunks.
  rewrite flat_map_concat_map, flat_map_concat_map, map_map.
  f_equal. apply map_ext. intros s.
  unfold batch_marks, rows_done, batch_rows, iterrows.
  now rewrite length_map.
Qed.

(** The whole driver: where it ends and what it leaves behind. *)
Lemma drive_run (df : DataFrame) (batch_size : Z) (w : world) :
  0 < batch_size ->
  exists r evs anns,
    drive_with body file df batch_size w
      = (r, {| trace := trace w ++ evs; map_obj := adds anns create_map |}) /\
    outcome (iterrows df)
            (chunk_marks (chunks df batch_size)
             ++ [Saved file (adds anns create_map)]) r evs anns.
Proof.
  intros Hb. unfold drive_with, bind at 1, update_map.
  unfold bind at 1, lift. rewrite (range3_positive _ _ Hb).
  set (w0 := {| trace := trace w; map_obj := create_map |}).
  destruct (batches_run df batch_size (range_up 0 (len df) batch_size) w0)
    as (r & evs & anns & E & O).
  rewrite all_batch_rows in O by assumption. rewrite all_batch_marks in O.
  unfold bind at 1. rewrite E. destruct r as [[]|e].
  - exists (Ok tt), (evs ++ [EvSave file (adds anns create_map);
                             EvPrint (MsgSaved file)]), anns.
    split.
    + unfold bind, save, print, emit. simpl. now rewrite <- !app_assoc.
    + destruct O as (S & T & G). repeat split; auto.
      intros _. rewrite skeleton_app, S by reflexivity. reflexivity.
  - exists (Raise e), evs, anns. split; [reflexivity|].
    apply outcome_raise. intros T.
    destruct O as (_ & T1 & _). specialize (T1 T). discriminate.
Qed.

End DriverFacts.

(** ** Every fifth row *)

Lemma picks_in_range {A} (l : list A) (idxs : list Z) :
  Forall (fun i => (Z.to_nat i < length l)%nat) idxs ->
  map Some (flat_map (pick l) idxs) = map (fun i => nth_error l (Z.to_nat i)) idxs.
Proof.
  induction 1 as [|i rest Hi _ IH]; simpl; [reflexivity|].
  rewrite map_app, IH. unfold pick.
  destruct (nth_error l (Z.to_nat i)) eqn:E; [reflexivity|].
  apply nth_error_None in E. lia.
Qed.

Lemma sampled_rows (df : DataFrame) :
  map Some (data (iloc_step df 5)) =
  map (fun j => nth_error (data df) (5 * j))
      (seq 0 (Z.to_nat (ceil_div (len df) 5))).
Proof.
  unfold iloc_step. simpl.
  rewrite picks_in_range.
  - unfold range_up. rewrite range_len_ceil by (unfold len; lia).
    rewrite map_map. apply map_ext. intros j. f_equal. lia.
  - unfold range_up. rewrite range_len_ceil by (unfold len; lia).
    apply Forall_forall. intros i Hi.
    apply in_map_iff in Hi. destruct Hi as (j & <- & Hj).
    apply in_seq in Hj.
    pose proof (ceil_div_spec (len df) 5 ltac:(lia)). unfold len in *. lia.
Qed.

Lemma sampled_len (df : DataFrame) :
  len (iloc_step df 5) = ceil_div (len df) 5.
Proof.
  unfold len at 1.
  rewrite <- (length_map Some), sampled_rows, length_map, length_seq.
  pose proof (ceil_div_spec (len df) 5 ltac:(lia)). unfold len in *. lia.
Qed.

(** The sampled frame holds rows 0, 5, 10, ... of the frame, and no other. *)
Lemma sampled_nth (df : DataFrame) (j : nat) :
  nth_error (data (iloc_step df 5)) j = nth_error (data df) (5 * j).
Proof.
  pose proof (sampled_rows df) as E.
  pose proof (sampled_len df) as L.
  pose proof (ceil_div_spec (len df) 5 ltac:(lia)) as C.
  unfold len in *.
  assert (N : nth_error (map Some (data (iloc_step df 5))) j =
              nth_error (map (fun j => nth_error (data df) (5 * j))
                             (seq 0 (Z.to_nat (ceil_div (len df) 5)))) j)
    by (unfold len; now rewrite E).
  rewrite !nth_error_map in N.
  destruct (Nat.lt_ge_cases j (Z.to_nat (ceil_div (len df) 5))) as [H|H].
  - rewrite nth_error_seq in N.
    destruct (j <? Z.to_nat (ceil_div (len df) 5))%nat eqn:B;
      [|apply Nat.ltb_ge in B; lia].
    cbn [option_map Nat.add] in N.
    destruct (nth_error (data (iloc_step df 5)) j);
      cbn [option_map] in N; congruence.
  - unfold len in H.
    transitivity (@None (list cell)); [|symmetry];
      apply nth_error_None; lia.
Qed.

Lemma sampled_subset (df : DataFrame) (row : Series) :
  In row (iterrows (iloc_step df 5)) -> In row (iterrows df).
Proof.
  unfold iterrows, iloc_step. simpl. intros H.
  apply in_map_iff in H. destruct H as (vals & <- & H).
  apply in_map_iff. exists vals. split; [reflexivity|].
  apply in_flat_map in H. destruct H as (i & _ & H). unfold pick in H.
  destruct (nth_error (data df) (Z.to_nat i)) eqn:E; simpl in H;
    [|contradiction].
  destruct H as [<-|[]]. eapply nth_error_In, E.
Qed.

(** ** The two scripts *)

Lemma batch_sleeps_skeleton (evs : list event) :
  batch_sleeps evs = pauses_of (skeleton evs).
Proof.
  unfold batch_sleeps, pauses_of, skeleton.
  induction evs as [|e evs IH]; simpl; [reflexivity|].
  rewrite flat_map_app, <- IH.
  destruct e as [c t|[] s|[]|f d]; reflexivity.
Qed.

Lemma pauses_of_chunk_marks (cs : list (list (list cell))) (tail : list mark) :
  pauses_of (chunk_marks cs ++ tail) = repeat 2 (length cs) ++ pauses_of tail.
Proof.
  unfold pauses_of, chunk_marks. rewrite flat_map_app. f_equal.
  induction cs as [|c cs IH]; simpl; [reflexivity|].
  rewrite flat_map_app, IH. f_equal.
  rewrite flat_map_app. simpl.
  induction (length c); simpl; auto.
Qed.

Lemma combined_csv_run (g : Geolocator) (df : DataFrame) (batch_size : Z)
    (w : world) :
  0 < batch_size ->
  exists r evs anns,
    Combined.process_csv g df batch_size w
      = (r, {| trace := trace w ++ header df ++ evs;
               map_obj := adds anns create_map |}) /\
    outcome g one_marker (iterrows df)
            (chunk_marks (chunks df batch_size)
             ++ [Saved "combined_map.html" (adds anns create_map)])
            r evs anns.
Proof.
  intros Hb.
  set (w3 := {| trace := ((trace w ++ [EvPrint (MsgColumns (columns df))])
                          ++ [EvPrint MsgFirstRows])
                         ++ [EvPrint (MsgHead (head df))];
                map_obj := map_obj w |}).
  change (Combined.process_csv g df batch_size w)
    with (drive_with (Combined.process_row g) "combined_map.html"
                     df batch_size w3).
  destruct (drive_run g _ _ "combined_map.html" (combined_row_spec g)
                      df batch_size w3 Hb) as (r & evs & anns & E & O).
  exists r, evs, anns. split; [|exact O].
  rewrite E. subst w3. unfold header. simpl. now rewrite <- !app_assoc.
Qed.

Lemma highlighted_csv_run (g : Geolocator) (df : DataFrame) (batch_size : Z)
    (w : world) :
  0 < batch_size ->
  exists r evs anns,
    Highlighted.process_csv g df batch_size w
      = (r, {| trace := trace w ++ header df ++ evs;
               map_obj := adds anns create_map |}) /\
    outcome g two_circles (iterrows (iloc_step df 5))
            (chunk_marks (chunks (iloc_step df 5) batch_size)
             ++ [Saved "highlighted_map.html" (adds anns create_map)])
            r evs anns.
Proof.
  intros Hb.
  set (w3 := {| trace := ((trace w ++ [EvPrint (MsgColumns (columns df))])
                          ++ [EvPrint MsgFirstRows])
                         ++ [EvPrint (MsgHead (head df))];
                map_obj := map_obj w |}).
  change (Highlighted.process_csv g df batch_size w)
    with (drive_with (Highlighted.process_row g) "highlighted_map.html"
                     (iloc_step df 5) batch_size w3).
  destruct (drive_run g _ _ "highlighted_map.html" (highlighted_row_spec g)
                      (iloc_step df 5) batch_size w3 Hb)
    as (r & evs & anns & E & O).
  exists r, evs, anns. split; [|exact O].
  rewrite E. subst w3. unfold header. simpl. now rewrite <- !app_assoc.
Qed.

Lemma during_run {A} (m : M A) (w : world) (r : result A)
    (evs : list event) (doc : Map) :
  m w = (r, {| trace := trace w ++ evs; map_obj := doc |}) ->
  during m w = evs.
Proof.
  intros E. unfold during. rewrite E. simpl. apply skipn_length_app.
Qed.

(** With a tame service both drivers run to their end. *)
Lemma tame_runs_end (g : Geolocator) (df : DataFrame) (batch_size : Z)
    (w : world) :
  tame g -> 0 < batch_size ->
  fst (Combined.process_csv g df batch_size w) = Ok tt /\
  fst (Highlighted.process_csv g df batch_size w) = Ok tt.
Proof.
  intros T Hb. split.
  - destruct (combined_csv_run g df batch_size w Hb)
      as (r & evs & anns & E & _ & R & _).
    rewrite E. simpl. auto.
  - destruct (highlighted_csv_run g df batch_size w Hb)
      as (r & evs & anns & E & _ & R & _).
    rewrite E. simpl. auto.
Qed.

Lemma emit_log (e : event) (w : world) : emit e w = (Ok tt, log [e] w).
Proof.
  reflexivity.
Qed.

(** The first missing field is the one whose lookup fails, after the lookups
    before it went through. *)
Lemma first_missing_cases (row : Series) (key : string) :
  first_missing row = Some key ->
  (key = "name" /\ getitem row "name" = Raise (KeyError "name")) \/
  (key = "latitude" /\ (exists n, getitem row "name" = Ok n) /\
   getitem row "latitude" = Raise (KeyError "latitude")) \/
  (key = "longitude" /\ (exists n, getitem row "name" = Ok n) /\
   (exists x, getitem row "latitude" = Ok x) /\
   getitem row "longitude" = Raise (KeyError "longitude")).
Proof.
  unfold first_missing, has_field.
  destruct (getitem row "name") as [n|e] eqn:Hn; simpl.
  - destruct (getitem row "latitude") as [x|e] eqn:Hx; simpl.
    + destruct (getitem row "longitude") as [y|e] eqn:Hy; simpl.
      * discriminate.
      * intros [= <-]. right. right.
        rewrite (getitem_raise _ _ _ Hy). eauto 6.
    + intros [= <-]. right. left.
      rewrite (getitem_raise _ _ _ Hx). eauto.
  - intros [= <-]. left. rewrite (getitem_raise _ _ _ Hn). auto.
Qed.

Lemma combined_row_skipped (g : Geolocator) (row : Series) (key : string)
    (w : world) :
  first_missing row = Some key ->
  Combined.process_row g row w
    = (Ok tt, log [EvPrint (MsgColumnNotFound (KeyError key))] w).
Proof.
  intros H. unfold Combined.process_row, try_except, bind at 1, lift.
  destruct (first_missing_cases row key H)
    as [(-> & Hn)|[(-> & (n & Hn) & Hx)|(-> & (n & Hn) & (x & Hx) & Hy)]];
    rewrite Hn; [reflexivity|unfold bind at 1; rewrite Hx..];
    [reflexivity|unfold bind at 1; rewrite Hy; reflexivity].
Qed.

Lemma highlighted_row_skipped (g : Geolocator) (row : Series) (key : string)
    (w : world) :
  first_missing row = Some key ->
  Highlighted.process_row g row w
    = (Ok tt, log [EvPrint (MsgColumnNotFound (KeyError key))] w).
Proof.
  intros H. unfold Highlighted.process_row, try_except, bind at 1, lift.
  destruct (first_missing_cases row key H)
    as [(-> & Hn)|[(-> & (n & Hn) & Hx)|(-> & (n & Hn) & (x & Hx) & Hy)]];
    rewrite Hn; [reflexivity|unfold bind at 1; rewrite Hx..];
    [reflexivity|unfold bind at 1; rewrite Hy; reflexivity].
Qed.

Lemma incomplete_first_missing (row : Series) :
  complete row = false ->
  exists key, first_missing row = Some key /\ has_field row key = false.
Proof.
  unfold complete, first_missing. intros H.
  destruct (has_field row "name") eqn:Hn; simpl; [|eauto].
  destruct (has_field row "latitude") eqn:Hx; simpl; [|eauto].
  destruct (has_field row "longitude") eqn:Hy; simpl; [|eauto].
  discriminate.
Qed.

(** A row that lacks one of [name], [latitude], [longitude], in either
    script: the body of the row loop ends normally after one diagnostic
    line about the missing field, having sent nothing to the service and
    added nothing to the map, and the loop goes on with the rows that
    follow, from that very world. *)
Lemma incomplete_row_is_skipped (g : Geolocator) (row : Series)
    (rest : list Series) (w : world) :
  complete row = false ->
  exists key,
    has_field row key = false /\
    let skipped := log [EvPrint (MsgColumnNotFound (KeyError key))] w in
    (Combined.process_row g row w = (Ok tt, skipped) /\
     for_ (row :: rest) (Combined.process_row g) w
       = for_ rest (Combined.process_row g) skipped) /\
    (Highlighted.process_row g row w = (Ok tt, skipped) /\
     for_ (row :: rest) (Highlighted.process_row g) w
       = for_ rest (Highlighted.process_row g) skipped) /\
    map_obj skipped = map_obj w /\
    ncalls (trace skipped) = ncalls (trace w).
Proof.
  intros I.
  destruct (incomplete_first_missing row I) as (key & H & F).
  exists key. split; [exact F|]. intros skipped.
  pose proof (combined_row_skipped g row key w H) as C.
  pose proof (highlighted_row_skipped g row key w H) as Hh.
  repeat split; auto.
  - simpl. unfold bind. now rewrite C.
  - simpl. unfold bind. now rewrite Hh.
  - subst skipped. rewrite ncalls_log. cbn. lia.
Qed.

(** ** What ends up on the map *)

Lemma markers_of_rows (rows : list Series) (per : list (list annotation)) :
  Forall2 one_marker rows per ->
  map location_of (concat per) = map coords_of rows /\
  forallb is_marker (concat per) = true.
Proof.
  induction 1 as [|row anns rows per (a & ->) _ (IH1 & IH2)]; simpl.
  - auto.
  - now rewrite IH1, IH2.
Qed.

Lemma circles_of_rows (rows : list Series) (per : list (list annotation)) :
  Forall2 two_circles rows per ->
  concat per = flat_map (fun row => circles_at (coords_of row)) rows.
Proof.
  induction 1 as [|row anns rows per -> _ IH]; simpl.
  - reflexivity.
  - now rewrite IH.
Qed.

Lemma saved_in_skeleton (evs : list event) (f : string) (d : Map) :
  In (Saved f d) (skeleton evs) -> In (EvSave f d) evs.
Proof.
  unfold skeleton. intros H. apply in_flat_map in H.
  destruct H as (e & He & Hm).
  destruct e as [c t|[] s|[]|f' d']; simpl in Hm;
    try contradiction; destruct Hm as [Hm|[]]; try discriminate.
  now inversion Hm; subst.
Qed.

(** The combined map of a frame of complete rows, with a tame service. *)
Lemma combined_map_of (g : Geolocator) (df : DataFrame) (batch_size : Z)
    (w : world) :
  tame g -> 0 < batch_size -> forallb complete (iterrows df) = true ->
  let w' := snd (Combined.process_csv g df batch_size w) in
  fst (Combined.process_csv g df batch_size w) = Ok tt /\
  map location_of (children (map_obj w')) = map coords_of (iterrows df) /\
  forallb is_marker (children (map_obj w')) = true /\
  In (EvSave "combined_map.html" (map_obj w')) (trace w').
Proof.
  intros T Hb C.
  destruct (combined_csv_run g df batch_size w Hb)
    as (r & evs & anns & E & S & R & G).
  rewrite E. simpl. specialize (R T). subst r.
  destruct (G T C) as (per & F & ->).
  destruct (markers_of_rows _ _ F) as (L & K).
  repeat split; auto.
  apply in_or_app. right. do 3 right.
  apply saved_in_skeleton. rewrite S by reflexivity.
  apply in_or_app. right. now left.
Qed.

(** The highlighted map of a frame whose sampled rows are complete, with a
    tame service. *)
Lemma highlighted_map_of (g : Geolocator) (df : DataFrame) (batch_size : Z)
    (w : world) :
  tame g -> 0 < batch_size ->
  forallb complete (iterrows (iloc_step df 5)) = true ->
  let w' := snd (Highlighted.process_csv g df batch_size w) in
  fst (Highlighted.process_csv g df batch_size w) = Ok tt /\
  children (map_obj w')
    = flat_map (fun row => circles_at (coords_of row))
               (iterrows (iloc_step df 5)) /\
  In (EvSave "highlighted_map.html" (map_obj w')) (trace w').
Proof.
  intros T Hb C.
  destruct (highlighted_csv_run g df batch_size w Hb)
    as (r & evs & anns & E & S & R & G).
  rewrite E. simpl. specialize (R T). subst r.
  destruct (G T C) as (per & F & ->).
  rewrite (circles_of_rows _ _ F).
  repeat split; auto.
  apply in_or_app. right. do 3 right.
  apply saved_in_skeleton. rewrite S by reflexivity.
  apply in_or_app. right. left. now rewrite (circles_of_rows _ _ F).
Qed.

Lemma sampled_complete (df : DataFrame) :
  forallb complete (iterrows df) = true ->
  forallb complete (iterrows (iloc_step df 5)) = true.
Proof.
  rewrite !forallb_forall. intros H row Hr.
  apply H. now apply sampled_subset.
Qed.

Lemma circles_count (rows : list Series) :
  length (flat_map (fun row => circles_at (coords_of row)) rows)
  = (2 * length rows)%nat.
Proof.
  induction rows as [|row rows IH]; simpl; [reflexivity|].
  rewrite IH. lia.
Qed.

(** C6, as the scripts have it. With a tame service and a frame whose rows
    all carry the three fields, rows with equal coordinates included: the
    combined-map script leaves exactly one marker per row of the frame, in
    the order of the rows and at the coordinates of each, and that is the
    document it saves; the highlighted-map script leaves two circles for
    each row of its sample of every fifth row.  Nothing is merged or
    dropped in either. *)
Theorem one_marker_per_record_two_circles_per_sampled
    (g : Geolocator) (df : DataFrame) (batch_size : Z) (w : world) :
  tame g -> 0 < batch_size -> forallb complete (iterrows df) = true ->
  let wc := snd (Combined.process_csv g df batch_size w) in
  let wh := snd (Highlighted.process_csv g df batch_size w) in
  (fst (Combined.process_csv g df batch_size w) = Ok tt /\
   length (children (map_obj wc)) = length (data df) /\
   map location_of (children (map_obj wc)) = map coords_of (iterrows df) /\
   forallb is_marker (children (map_obj wc)) = true /\
   In (EvSave "combined_map.html" (map_obj wc)) (trace wc)) /\
  (fst (Highlighted.process_csv g df batch_size w) = Ok tt /\
   length (children (map_obj wh))
     = (2 * length (data (iloc_step df 5)))%nat /\
   children (map_obj wh)
     = flat_map (fun row => circles_at (coords_of row))
                (iterrows (iloc_step df 5)) /\
   In (EvSave "highlighted_map.html" (map_obj wh)) (trace wh)).
Proof.
  intros T Hb C wc wh.
  destruct (combined_map_of g df batch_size w T Hb C) as (R & L & K & S).
  destruct (highlighted_map_of g df batch_size w T Hb (sampled_complete df C))
    as (R' & L' & S').
  fold wc in L, K, S. fold wh in L', S'.
  repeat split; auto.
  - rewrite <- (length_map location_of), L. unfold iterrows.
    now rewrite !length_map.
  - rewrite L', circles_count. unfold iterrows. now rewrite length_map.
Qed.

(** C9. The highlighted-map script works on rows 0, 5, 10, ... of the frame
    and on no other row; when the run is fully successful (a tame service,
    the sampled rows complete) each of those rows gets its two circles, of
    radius 200 and 500, at its coordinates, and the map holds exactly
    2 * ceil(N / 5) circles. *)
Theorem every_fifth_row_gets_two_circles
    (g : Geolocator) (df : DataFrame) (batch_size : Z) (w : world) :
  tame g -> 0 < batch_size ->
  forallb complete (iterrows (iloc_step df 5)) = true ->
  let w' := snd (Highlighted.process_csv g df batch_size w) in
  (forall j, nth_error (data (iloc_step df 5)) j
             = nth_error (data df) (5 * j)) /\
  fst (Highlighted.process_csv g df batch_size w) = Ok tt /\
  children (map_obj w')
    = flat_map (fun row => circles_at (coords_of row))
               (iterrows (iloc_step df 5)) /\
  Z.of_nat (length (children (map_obj w'))) = 2 * ceil_div (len df) 5.
Proof.
  intros T Hb C w'.
  destruct (highlighted_map_of g df batch_size w T Hb C) as (R & L & _).
  fold w' in L. repeat split; auto.
  - apply sampled_nth.
  - rewrite L, circles_count. unfold iterrows. rewrite length_map.
    rewrite <- sampled_len. unfold len. lia.
Qed.

Lemma always_found_tame : tame always_found.
Proof.
  intros n c t. exact I.
Qed.

Lemma one_marker_per_record_two_circles_per_sampled_witness :
  let wc := snd (Combined.process_csv always_found six_sites 4 fresh) in
  let wh := snd (Highlighted.process_csv always_found six_sites 4 fresh) in
  (fst (Combined.process_csv always_found six_sites 4 fresh) = Ok tt /\
   length (children (map_obj wc)) = length (data six_sites) /\
   map location_of (children (map_obj wc))
     = map coords_of (iterrows six_sites) /\
   forallb is_marker (children (map_obj wc)) = true /\
   In (EvSave "combined_map.html" (map_obj wc)) (trace wc)) /\
  (fst (Highlighted.process_csv always_found six_sites 4 fresh) = Ok tt /\
   length (children (map_obj wh))
     = (2 * length (data (iloc_step six_sites 5)))%nat /\
   children (map_obj wh)
     = flat_map (fun row => circles_at (coords_of row))
                (iterrows (iloc_step six_sites 5)) /\
   In (EvSave "highlighted_map.html" (map_obj wh)) (trace wh)).
Proof.
  apply (one_marker_per_record_two_circles_per_sampled
           always_found six_sites 4 fresh).
  - intros n c t. exact I.
  - reflexivity.
  - reflexivity.
Defined.

(** C6 as the specification words it fails on the highlighted-map script:
    one record in, two annotations out. *)
Lemma highlighted_one_record_two_annotations :
  length (children (map_obj
            (snd (Highlighted.process_csv always_found site_a_frame
                                          Highlighted.default_batch_size
                                          fresh))))
  <> length (data site_a_frame).
Proof.
  vm_compute. discriminate.
Qed.

Lemma every_fifth_row_gets_two_circles_witness :
  let w' := snd (Highlighted.process_csv always_found six_sites 100 fresh) in
  (forall j, nth_error (data (iloc_step six_sites 5)) j
             = nth_error (data six_sites) (5 * j)) /\
  fst (Highlighted.process_csv always_found six_sites 100 fresh) = Ok tt /\
  children (map_obj w')
    = flat_map (fun row => circles_at (coords_of row))
               (iterrows (iloc_step six_sites 5)) /\
  Z.of_nat (length (children (map_obj w'))) = 2 * ceil_div (len six_sites) 5.
Proof.
  apply (every_fifth_row_gets_two_circles always_found six_sites 100 fresh).
  - intros n c t. exact I.
  - reflexivity.
  - reflexivity.
Defined.

(** C3, as the scripts have it. For a positive batch size B the batch loop
    cuts the N rows it is given into exactly ceil(N / B) contiguous chunks
    of 1 to B rows, and a run that ends normally deals with the rows chunk
    by chunk and pauses 2 time-units after every chunk, the last one
    included: ceil(N / B) pauses in all, one between any two consecutive
    chunks and one after the last, before the map is saved.  In the
    combined-map script the rows are those of the frame; in the
    highlighted-map script they are the ceil(N / 5) sampled rows.  A run
    with a tame service does end normally. *)
Theorem batches_and_pauses
    (g : Geolocator) (df : DataFrame) (batch_size : Z) (w : world) :
  0 < batch_size ->
  let cs := chunks df batch_size in
  let cs5 := chunks (iloc_step df 5) batch_size in
  let combined := Combined.process_csv g df batch_size in
  let highlighted := Highlighted.process_csv g df batch_size in
  (Z.of_nat (length cs) = ceil_div (len df) batch_size /\
   concat cs = data df /\
   Forall (fun c => 0 < Z.of_nat (length c) <= batch_size) cs) /\
  (fst (combined w) = Ok tt ->
   skeleton (during combined w)
     = chunk_marks cs ++ [Saved "combined_map.html" (map_obj (snd (combined w)))] /\
   batch_sleeps (during combined w) = repeat 2 (length cs)) /\
  (Z.of_nat (length cs5) = ceil_div (ceil_div (len df) 5) batch_size /\
   concat cs5 = data (iloc_step df 5) /\
   Forall (fun c => 0 < Z.of_nat (length c) <= batch_size) cs5) /\
  (fst (highlighted w) = Ok tt ->
   skeleton (during highlighted w)
     = chunk_marks cs5
       ++ [Saved "highlighted_map.html" (map_obj (snd (highlighted w)))] /\
   batch_sleeps (during highlighted w) = repeat 2 (length cs5)) /\
  (tame g -> fst (combined w) = Ok tt /\ fst (highlighted w) = Ok tt).
Proof.
  intros Hb cs cs5 combined highlighted.
  split; [|split; [|split; [|split]]].
  - repeat split.
    + now apply chunks_length.
    + now apply chunks_concat.
    + now apply chunks_sizes.
  - subst combined. intros R.
    destruct (combined_csv_run g df batch_size w Hb)
      as (r & evs & anns & E & S & _).
    rewrite E in R. simpl in R. subst r.
    rewrite batch_sleeps_skeleton.
    rewrite (during_run _ _ _ _ _ E), E.
    unfold header. rewrite !skeleton_app, S by reflexivity.
    cbn [skeleton flat_map mark_of app snd map_obj].
    split; [reflexivity|].
    rewrite pauses_of_chunk_marks. cbn. now rewrite app_nil_r.
  - repeat split.
    + rewrite <- sampled_len. now apply chunks_length.
    + now apply chunks_concat.
    + now apply chunks_sizes.
  - subst highlighted. intros R.
    destruct (highlighted_csv_run g df batch_size w Hb)
      as (r & evs & anns & E & S & _).
    rewrite E in R. simpl in R. subst r.
    rewrite batch_sleeps_skeleton.
    rewrite (during_run _ _ _ _ _ E), E.
    unfold header. rewrite !skeleton_app, S by reflexivity.
    cbn [skeleton flat_map mark_of app snd map_obj].
    split; [reflexivity|].
    rewrite pauses_of_chunk_marks. cbn. now rewrite app_nil_r.
  - intros T. now apply tame_runs_end.
Qed.

Lemma batches_and_pauses_witness :
  let cs := chunks six_sites 4 in
  let cs5 := chunks (iloc_step six_sites 5) 4 in
  let combined := Combined.process_csv always_found six_sites 4 in
  let highlighted := Highlighted.process_csv always_found six_sites 4 in
  (Z.of_nat (length cs) = ceil_div (len six_sites) 4 /\
   concat cs = data six_sites /\
   Forall (fun c => 0 < Z.of_nat (length c) <= 4) cs) /\
  (fst (combined fresh) = Ok tt ->
   skeleton (during combined fresh)
     = chunk_marks cs
       ++ [Saved "combined_map.html" (map_obj (snd (combined fresh)))] /\
   batch_sleeps (during combined fresh) = repeat 2 (length cs)) /\
  (Z.of_nat (length cs5) = ceil_div (ceil_div (len six_sites) 5) 4 /\
   concat cs5 = data (iloc_step six_sites 5) /\
   Forall (fun c => 0 < Z.of_nat (length c) <= 4) cs5) /\
  (fst (highlighted fresh) = Ok tt ->
   skeleton (during highlighted fresh)
     = chunk_marks cs5
       ++ [Saved "highlighted_map.html" (map_obj (snd (highlighted fresh)))] /\
   batch_sleeps (during highlighted fresh) = repeat 2 (length cs5)) /\
  (tame always_found ->
   fst (combined fresh) = Ok tt /\ fst (highlighted fresh) = Ok tt).
Proof.
  apply (batches_and_pauses always_found six_sites 4 fresh).
  reflexivity.
Defined.

(** C3 as the specification words it fails on the scripts.  Six records in
    batches of four: the combined-map script makes two chunks and pauses
    twice, not ceil(6 / 4) - 1 = 1 times; the highlighted-map script makes
    one chunk, of its two sampled rows, not ceil(6 / 4) = 2.  And a batch
    size of zero is a [ValueError] before any row is read. *)
Lemma two_chunks_two_pauses :
  (batch_sleeps (during (Combined.process_csv always_found six_sites 4) fresh)
     = [2; 2] /\
   Z.of_nat (length (batch_sleeps
                       (during (Combined.process_csv always_found six_sites 4)
                               fresh)))
     <> ceil_div (len six_sites) 4 - 1) /\
  (pauses_of (skeleton (during (Highlighted.process_csv always_found
                                                        six_sites 4) fresh))
     = [2] /\
   Z.of_nat (length (chunks (iloc_step six_sites 5) 4))
     <> ceil_div (len six_sites) 4) /\
  fst (Combined.process_csv always_found six_sites 0 fresh)
    = Raise (ValueError "range() arg 3 must not be zero").
Proof.
  repeat split; try (vm_compute; reflexivity); vm_compute; discriminate.
Qed.

(** A batch size that is not positive: zero stops the run at the [range],
    a negative one makes the loop empty, so the map is saved blank. *)
Lemma nonpositive_batch_size (g : Geolocator) (df : DataFrame) (w : world) :
  fst (Combined.process_csv g df 0 w)
    = Raise (ValueError "range() arg 3 must not be zero") /\
  forall b, b < 0 ->
    fst (Combined.process_csv g df b w) = Ok tt /\
    children (map_obj (snd (Combined.process_csv g df b w))) = [].
Proof.
  split.
  - reflexivity.
  - intros b Hb. unfold Combined.process_csv, bind, print, emit, update_map, lift,
      range3, save, emit.
    destruct (b =? 0) eqn:E0; [apply Z.eqb_eq in E0; lia|].
    destruct (b <? 0) eqn:E1; [|apply Z.ltb_ge in E1; lia].
    split; reflexivity.
Qed.

(** ** One record, one lookup *)

Section OneLookup.

Variable g : Geolocator.

(** The first answer of the service is a location (or no result). *)
Lemma retry_first_answer (c : cell * cell) (w : world)
    (location : option Location) :
  g (ncalls (trace w)) c default_timeout = Returns location ->
  reverse_geocode_with_retry g c default_retries default_timeout w
    = (Ok location, log [EvReverse c default_timeout] w).
Proof.
  intros G. unfold reverse_geocode_with_retry, retry_loop. simpl.
  unfold bind at 1. unfold bind at 1. rewrite attempt_body_eq, G.
  now destruct location.
Qed.

(** [k] timeouts, then unavailable, with attempts to spare. *)
Lemma retry_loop_down (c : cell * cell) (t : Z) (attempts : list Z)
    (w : world) (k : nat) (msg : string) :
  (k < length attempts)%nat ->
  (forall j, (j < k)%nat ->
             g (ncalls (trace w) + j)%nat c t = Raises GeocoderTimedOut) ->
  g (ncalls (trace w) + k)%nat c t = Raises (GeocoderUnavailable msg) ->
  exists evs,
    retry_loop g c t attempts w = (Ok None, log evs w) /\
    ncalls evs = (k + 1)%nat /\ skeleton evs = [].
Proof.
  revert w k. induction attempts as [|a rest IH]; intros w k L Ht Hd.
  - simpl in L. lia.
  - unfold retry_loop. simpl. unfold bind at 1. rewrite attempt_body_eq.
    destruct k as [|k].
    + rewrite Nat.add_0_r in Hd. rewrite Hd.
      eexists. split; [reflexivity|]. cbn. auto.
    + rewrite <- (Nat.add_0_r (ncalls (trace w))), (Ht 0%nat) by lia.
      fold (retry_loop g c t rest).
      set (w1 := log [EvReverse c t; EvPrint (MsgTimedOut (a + 1));
                      EvSleep Backoff (2 ^ a)] w).
      assert (N : ncalls (trace w1) = (ncalls (trace w) + 1)%nat).
      { subst w1. rewrite ncalls_log. reflexivity. }
      destruct (IH w1 k) as (evs & E & C & S).
      * simpl in L. lia.
      * intros j Hj. rewrite N.
        replace (ncalls (trace w) + 1 + j)%nat
          with (ncalls (trace w) + S j)%nat by lia.
        apply Ht. lia.
      * rewrite N.
        replace (ncalls (trace w) + 1 + k)%nat
          with (ncalls (trace w) + S k)%nat by lia.
        exact Hd.
      * eexists. split.
        -- rewrite E. subst w1. rewrite log_log. reflexivity.
        -- rewrite ncalls_app, skeleton_app, C, S. cbn. split; [lia|auto].
Qed.

(** A complete row whose lookup ended with a result or with none. *)
Lemma combined_row_annotated (row : Series) (w : world)
    (location : option Location) (evs : list event) :
  complete row = true ->
  reverse_geocode_with_retry g (coords_of row) default_retries
                             default_timeout w
    = (Ok location, log evs w) ->
  Combined.process_row g row w
    = (Ok tt,
       extend (evs ++ [EvPrint (MsgMarkerAdded (field row "name"))])
              [marker_at (coords_of row)
                         match location with
                         | Some l => address l
                         | None => "Address not found"%string
                         end] w).
Proof.
  unfold complete, has_field, coords_of, field. intros C E.
  unfold Combined.process_row, try_except, bind at 1, lift.
  destruct (getitem row "name") as [name|]; [|discriminate].
  unfold bind at 1.
  destruct (getitem row "latitude") as [lat|]; [|discriminate].
  unfold bind at 1.
  destruct (getitem row "longitude") as [lon|]; [|discriminate].
  unfold bind at 1. rewrite E.
  unfold bind, Combined.add_marker_to_map, print.
  rewrite log_extend, add_to_extend, emit_extend, !extend_extend.
  now rewrite !app_nil_r.
Qed.

End OneLookup.

Lemma children_extend (evs : list event) (anns : list annotation) (w : world) :
  children (map_obj (extend evs anns w)) = children (map_obj w) ++ anns.
Proof.
  reflexivity.
Qed.

(** C7, as the script has it. For a row of the combined-map script with its
    three fields: when the service, after [k] timeouts (k = 0, 1 or 2),
    answers service-unavailable, the lookup gives up there with [None], the
    row still gets its marker at its coordinates, and the popup of that
    marker reads "Address: Address not found": the marker does carry a
    label, with the placeholder where the address would be. *)
Theorem unavailable_row_gets_placeholder_marker
    (g : Geolocator) (row : Series) (w : world) (k : nat) (msg : string) :
  complete row = true ->
  (k < 3)%nat ->
  (forall j, (j < k)%nat ->
     g (ncalls (trace w) + j)%nat (coords_of row) default_timeout
       = Raises GeocoderTimedOut) ->
  g (ncalls (trace w) + k)%nat (coords_of row) default_timeout
    = Raises (GeocoderUnavailable msg) ->
  let marker := marker_at (coords_of row) "Address not found" in
  fst (reverse_geocode_with_retry g (coords_of row) default_retries
                                  default_timeout w) = Ok None /\
  fst (Combined.process_row g row w) = Ok tt /\
  children (map_obj (snd (Combined.process_row g row w)))
    = children (map_obj w) ++ [marker] /\
  location_of marker = coords_of row /\
  label_of marker = Some "Address: Address not found"%string /\
  ncalls (during (Combined.process_row g row) w) = (k + 1)%nat.
Proof.
  intros C K Ht Hd marker.
  destruct (retry_loop_down g (coords_of row) default_timeout
              (range default_retries) w k msg K Ht Hd) as (evs & E & N & _).
  assert (R : reverse_geocode_with_retry g (coords_of row) default_retries
                default_timeout w = (Ok None, log evs w)).
  { unfold reverse_geocode_with_retry, bind. now rewrite E. }
  pose proof (combined_row_annotated g row w None evs C R) as P.
  rewrite R, (during_extend _ _ _ _ _ P), P. simpl fst. simpl snd.
  rewrite children_extend, ncalls_app, N.
  repeat split. cbn. lia.
Qed.

Lemma unavailable_row_gets_placeholder_marker_witness :
  let marker := marker_at (coords_of site_a) "Address not found" in
  fst (reverse_geocode_with_retry flaky_then_down (coords_of site_a)
         default_retries default_timeout fresh) = Ok None /\
  fst (Combined.process_row flaky_then_down site_a fresh) = Ok tt /\
  children (map_obj (snd (Combined.process_row flaky_then_down site_a fresh)))
    = children (map_obj fresh) ++ [marker] /\
  location_of marker = coords_of site_a /\
  label_of marker = Some "Address: Address not found"%string /\
  ncalls (during (Combined.process_row flaky_then_down site_a) fresh)
    = (1 + 1)%nat.
Proof.
  apply (unavailable_row_gets_placeholder_marker
           flaky_then_down site_a fresh 1 "503").
  - reflexivity.
  - lia.
  - intros j Hj. assert (j = 0%nat) by lia. subst j. reflexivity.
  - reflexivity.
Defined.

(** C7 as the specification words it has the annotation carry no label;
    with the service down the marker of Site A has one. *)
Lemma marker_of_unavailable_lookup_has_a_label :
  ~ (forall a,
       In a (children (map_obj
                         (snd (Combined.process_row always_down site_a fresh))))
       -> label_of a = None).
Proof.
  intros H.
  specialize (H (marker_at (coords_of site_a) "Address not found")).
  assert (I : In (marker_at (coords_of site_a) "Address not found")
                 (children (map_obj
                    (snd (Combined.process_row always_down site_a fresh)))))
    by (vm_compute; auto).
  specialize (H I). discriminate.
Qed.

(** C8. The row {name: "Site A", latitude: -12.46, longitude: 130.84},
    alone in its frame, with a service whose answer to the lookup is the
    address "123 Example Rd": the combined-map script ends normally and its
    map holds exactly one annotation, a marker at (-12.46, 130.84) whose
    popup text is "Address: 123 Example Rd". *)
Theorem site_a_example (g : Geolocator) (w : world) (location : Location) :
  g (ncalls (trace w)) (CNum (-12.46), CNum 130.84) default_timeout
    = Returns (Some location) ->
  address location = "123 Example Rd"%string ->
  let run := Combined.process_csv g site_a_frame
                                  Combined.default_batch_size w in
  fst run = Ok tt /\
  children (map_obj (snd run))
    = [Marker (CNum (-12.46), CNum 130.84)
              {| html := "Address: 123 Example Rd"; max_width := 300 |}].
Proof.
  intros G A run. subst run.
  unfold Combined.process_csv, Combined.default_batch_size.
  cbn -[Combined.process_row].
  change (Pos.to_nat 1) with 1%nat.
  cbn -[Combined.process_row].
  set (w3 := {| trace := _; map_obj := create_map |}).
  assert (N : ncalls (trace w3) = ncalls (trace w)).
  { subst w3. cbn [trace]. rewrite !ncalls_app. cbn. lia. }
  assert (R : reverse_geocode_with_retry g (coords_of site_a) default_retries
                default_timeout w3
              = (Ok (Some location),
                 log [EvReverse (coords_of site_a) default_timeout] w3)).
  { apply retry_first_answer. rewrite N. exact G. }
  pose proof (combined_row_annotated g site_a w3 (Some location) _
                                     eq_refl R) as P.
  assert (B : exists evs,
             Combined.process_batch g site_a_frame 100 0 w3
             = (Ok tt,
                extend evs [marker_at (coords_of site_a) (address location)]
                       w3)).
  { unfold Combined.process_batch.
    change (iterrows (iloc site_a_frame 0
                           (Z.min (0 + 100) (len site_a_frame))))
      with [site_a].
    simpl for_. unfold bind. rewrite P. cbv beta iota.
    unfold ret, sleep. cbv beta iota.
    rewrite emit_extend, !extend_extend. eexists. reflexivity. }
  destruct B as (evs & B). unfold bind. rewrite B.
  cbn. rewrite A. auto.
Qed.

Lemma site_a_example_witness :
  let run := Combined.process_csv always_found site_a_frame
                                  Combined.default_batch_size fresh in
  fst run = Ok tt /\
  children (map_obj (snd run))
    = [Marker (CNum (-12.46), CNum 130.84)
              {| html := "Address: 123 Example Rd"; max_width := 300 |}].
Proof.
  apply (site_a_example always_found fresh
                        {| address := "123 Example Rd" |}).
  - reflexivity.
  - reflexivity.
Defined.

(** ** The capture-data script *)

Module YearSums.
Import Capture.
Import Stdlib.Sorting.Sorted.

Lemma string_compare_refl (s : string) : String.compare s s = Eq.
Proof.
  pose proof (String.compare_antisym s s) as H.
  destruct (String.compare s s); simpl in H; congruence.
Qed.

Lemma string_compare_lt (a b : string) :
  String.compare a b = Lt <-> OrderedTypeEx.String_as_OT.lt a b.
Proof.
  rewrite <- OrderedTypeEx.String_as_OT.cmp_lt. reflexivity.
Qed.

Lemma zone_compare_refl (z : zone) : zone_compare z z = Eq.
Proof.
  destruct z as [s|q|]; simpl.
  - apply string_compare_refl.
  - apply Qeq_alt. reflexivity.
  - reflexivity.
Qed.

Lemma zone_compare_antisym (a b : zone) :
  zone_compare b a = CompOpp (zone_compare a b).
Proof.
  destruct a as [s|p|], b as [t|q|]; simpl; try reflexivity.
  - apply String.compare_antisym.
  - symmetry. apply Qcompare_antisym.
Qed.

Lemma before_trans (a b c : zone) : before a b -> before b c -> before a c.
Proof.
  unfold before.
  destruct a as [s|p|], b as [t|q|], c as [u|r|]; simpl;
    try discriminate; try reflexivity.
  - rewrite !string_compare_lt. apply OrderedTypeEx.String_as_OT.lt_trans.
  - rewrite <- !Qlt_alt. apply Qlt_trans.
Qed.

Lemma before_after (a b : zone) : zone_compare a b = Gt -> before b a.
Proof.
  unfold before. intros H. now rewrite zone_compare_antisym, H.
Qed.

Lemma same_zone_refl (z : zone) : same_zone z z = true.
Proof.
  unfold same_zone. now rewrite zone_compare_refl.
Qed.

Lemma same_zone_sym (a b : zone) : same_zone a b = same_zone b a.
Proof.
  unfold same_zone. rewrite (zone_compare_antisym a b).
  destruct (zone_compare a b); reflexivity.
Qed.

Lemma same_zone_trans (a b c : zone) :
  same_zone a b = true -> same_zone b c = true -> same_zone a c = true.
Proof.
  unfold same_zone.
  destruct a as [s|p|], b as [t|q|], c as [u|r|]; simpl;
    try discriminate; try reflexivity.
  - destruct (String.compare s t) eqn:E; try discriminate.
    apply String.compare_eq_iff in E. now subst.
  - destruct (p ?= q)%Q eqn:E1; try discriminate.
    destruct (q ?= r)%Q eqn:E2; try discriminate.
    apply Qeq_alt in E1, E2. intros _ _.
    assert (E : (p == r)%Q) by (now rewrite E1).
    apply Qeq_alt in E. now rewrite E.
Qed.

Lemma before_not_same (a b : zone) : before a b -> same_zone a b = false.
Proof.
  unfold before, same_zone. now intros ->.
Qed.

(** What goes into a sorted list is in it, up to the spelling of a
    number, and what was in it stays. *)
Lemma insert_zone_in (z x : zone) (zs : list zone) :
  In x (insert_zone z zs) -> x = z \/ In x zs.
Proof.
  induction zs as [|a zs IH]; simpl.
  - intuition.
  - destruct (zone_compare z a); simpl; intuition.
Qed.

Lemma insert_zone_keeps (z x : zone) (zs : list zone) :
  In x zs -> In x (insert_zone z zs).
Proof.
  induction zs as [|a zs IH]; simpl; [contradiction|].
  destruct (zone_compare z a); simpl; intuition.
Qed.

Lemma insert_zone_has (z : zone) (zs : list zone) :
  exists x, In x (insert_zone z zs) /\ same_zone z x = true.
Proof.
  induction zs as [|a zs (x & I & E)]; simpl.
  - exists z. split; [now left|apply same_zone_refl].
  - destruct (zone_compare z a) eqn:C.
    + exists a. split; [now left|]. unfold same_zone. now rewrite C.
    + exists z. split; [now left|apply same_zone_refl].
    + exists x. split; [now right|exact E].
Qed.

Lemma insert_zone_sorted (z : zone) (zs : list zone) :
  StronglySorted before zs -> StronglySorted before (insert_zone z zs).
Proof.
  induction 1 as [|a zs S IH F]; simpl.
  - repeat constructor.
  - destruct (zone_compare z a) eqn:C.
    + now constructor.
    + constructor; [now constructor|]. constructor; [exact C|].
      eapply Forall_impl; [|exact F]. intros b. now apply before_trans.
    + constructor; [exact IH|].
      apply Forall_forall. intros x Hx. apply insert_zone_in in Hx.
      destruct Hx as [->|Hx].
      * now apply before_after.
      * rewrite Forall_forall in F. auto.
Qed.

Lemma zones_sorted (df : list capture) : StronglySorted before (zones df).
Proof.
  unfold zones. induction (map ZONE_NAME (filter grouped df)) as [|z zs IH];
    simpl.
  - constructor.
  - now apply insert_zone_sorted.
Qed.

(** Every zone of a row that [groupby] keeps has its column. *)
Lemma zones_cover (df : list capture) (r : capture) :
  In r df -> grouped r = true ->
  exists x, In x (zones df) /\ same_zone (ZONE_NAME r) x = true.
Proof.
  intros I G.
  assert (J : In (ZONE_NAME r) (map ZONE_NAME (filter grouped df))).
  { apply in_map, filter_In. now split. }
  unfold zones. revert J.
  induction (map ZONE_NAME (filter grouped df)) as [|z zs IH]; simpl.
  - contradiction.
  - intros [->|J].
    + apply insert_zone_has.
    + destruct (IH J) as (x & Hx & E). exists x.
      split; [now apply insert_zone_keeps|exact E].
Qed.

Lemma insert_year_in (y x : Z) (ys : list Z) :
  In x (insert_year y ys) <-> x = y \/ In x ys.
Proof.
  induction ys as [|a ys IH]; simpl.
  - intuition.
  - destruct (y <? a); [simpl; intuition|].
    destruct (Z.eqb_spec y a) as [->|_]; simpl; intuition.
Qed.

(** The years of the index are the years of the rows that [groupby]
    keeps. *)
Lemma years_in (df : list capture) (y : Z) :
  In y (years df) <->
  exists r, In r df /\ grouped r = true /\ YEAR r = Some y.
Proof.
  unfold years.
  assert (E : forall l,
             In y (fold_right insert_year [] l) <-> In y l).
  { induction l as [|a l IH]; simpl; [reflexivity|].
    rewrite insert_year_in, IH. intuition. }
  rewrite E, in_flat_map. split.
  - intros (r & I & H). apply filter_In in I. destruct I as (I & G).
    exists r. destruct (YEAR r) as [x|]; [|destruct H].
    destruct H as [->|[]]. auto.
  - intros (r & I & G & Y). exists r. split.
    + apply filter_In. now split.
    + rewrite Y. now left.
Qed.

(** In a list sorted by [before], a zone is met once or not at all. *)
Lemma hits_sorted (z0 : zone) (zs : list zone) :
  StronglySorted before zs ->
  ((exists x, In x zs /\ same_zone z0 x = true) ->
   total (map (hit z0) zs) = 1) /\
  ((forall x, In x zs -> same_zone z0 x = false) ->
   total (map (hit z0) zs) = 0).
Proof.
  induction 1 as [|a zs S (IH1 & IH0) F]; simpl.
  - split; [intros (x & [] & _)|reflexivity].
  - unfold hit at 1 3. destruct (same_zone z0 a) eqn:E.
    + assert (N : forall x, In x zs -> same_zone z0 x = false).
      { intros x I. rewrite Forall_forall in F.
        destruct (same_zone z0 x) eqn:E'; [|reflexivity].
        rewrite same_zone_sym in E.
        pose proof (same_zone_trans _ _ _ E E') as T.
        now rewrite (before_not_same _ _ (F x I)) in T. }
      rewrite (IH0 N). split; [reflexivity|].
      intros H. specialize (H a (or_introl eq_refl)). congruence.
    + split.
      * intros (x & [->|I] & Hx); [congruence|].
        rewrite IH1; [reflexivity|eauto].
      * intros H. rewrite IH0; [reflexivity|]. intros x I. apply H. now right.
Qed.

Lemma total_add (f h : zone -> Z) (zs : list zone) :
  total (map (fun z => f z + h z) zs) = total (map f zs) + total (map h zs).
Proof.
  unfold total. induction zs as [|z zs IH]; simpl; [reflexivity|].
  rewrite IH. lia.
Qed.

Lemma total_zero (zs : list zone) : total (map (fun _ => 0) zs) = 0.
Proof.
  unfold total. induction zs as [|z zs IH]; simpl; auto.
Qed.

(** The counts of one year, summed over a sorted list that has every zone
    of the frame, are the captures of that year. *)
Lemma row_of_counts (df : list capture) (y : Z) (zs : list zone) :
  StronglySorted before zs ->
  (forall r, In r df -> grouped r = true ->
             exists x, In x zs /\ same_zone (ZONE_NAME r) x = true) ->
  total (map (group_size df y) zs) = captures_in_year df y.
Proof.
  intros S. induction df as [|r df IH]; intros C.
  - unfold group_size, captures_in_year. simpl. apply total_zero.
  - assert (E : forall z,
               group_size (r :: df) y z
               = (if grouped r && in_year r y then hit (ZONE_NAME r) z else 0)
                 + group_size df y z).
    { intros z. unfold group_size, hit. cbn [filter].
      destruct (grouped r && in_year r y); cbn [andb];
        [destruct (same_zone (ZONE_NAME r) z)|];
        cbn [length]; rewrite ?Nat2Z.inj_succ; lia. }
    rewrite (map_ext _ _ E), total_add, IH
      by (intros r' H; apply C; now right).
    unfold captures_in_year. cbn [filter].
    destruct (grouped r && in_year r y) eqn:G.
    + destruct (hits_sorted (ZONE_NAME r) zs S) as (H1 & _).
      match goal with
      | |- total (map ?f zs) + _ = _ => change f with (hit (ZONE_NAME r))
      end.
      rewrite H1.
      * cbn [length]. rewrite Nat2Z.inj_succ. lia.
      * apply C; [now left|]. now apply andb_prop in G.
    + rewrite total_zero. lia.
Qed.

Lemma sum_of_year (df : list capture) (y : Z) :
  fold_right Z.add 0 (map (group_size df y) (zones df))
  = captures_in_year df y.
Proof.
  fold (total (map (group_size df y) (zones df))).
  apply row_of_counts; [apply zones_sorted|].
  intros r I G. now apply zones_cover.
Qed.

(** A series labelled by year, looked up at any label. *)
Lemma loc_years (ys : list Z) (f : Z -> option Z) (l : label) :
  loc (map (fun y => (year_label y, f y)) ys) l
  = match l with
    | LNum q => match find (fun y => Qeq_bool (inject_Z y) q) ys with
                | Some y => f y
                | None => None
                end
    | _ => None
    end.
Proof.
  induction ys as [|a ys IH]; simpl.
  - now destruct l.
  - destruct l as [q|s|]; simpl; try exact IH.
    destruct (Qeq_bool (inject_Z a) q); [reflexivity|exact IH].
Qed.

(** The series that line 60 re-indexes, at any label. *)
Lemma year_sums (df : list capture) (l : label) :
  loc (sum_axis1 (yearly_totals df)) l
  = match l with
    | LNum q =>
        option_map (captures_in_year df)
                   (find (fun y => Qeq_bool (inject_Z y) q) (years df))
    | _ => None
    end.
Proof.
  unfold sum_axis1, yearly_totals. cbn [index table_columns value].
  rewrite loc_years. destruct l as [q|s|]; try reflexivity.
  destruct (find _ (years df)) as [y|]; [|reflexivity].
  simpl. now rewrite sum_of_year.
Qed.

Lemma same_number (a b : Z) : Qeq_bool (inject_Z a) (inject_Z b) = (a =? b).
Proof.
  apply eq_true_iff_eq.
  now rewrite Qeq_bool_iff, inject_Z_injective, Z.eqb_eq.
Qed.

Lemma find_year (ys : list Z) (y : Z) :
  find (fun a => Qeq_bool (inject_Z a) (inject_Z y)) ys
  = if existsb (Z.eqb y) ys then Some y else None.
Proof.
  induction ys as [|a ys IH]; simpl; [reflexivity|].
  rewrite same_number, (Z.eqb_sym y a).
  destruct (Z.eqb_spec a y) as [->|_]; simpl; [reflexivity|exact IH].
Qed.

(** X14. The series that line 60 re-indexes, [yearly_totals.sum(axis=1)],
    is labelled by year: at a year of the data it holds the number of
    captures of that year in all zones together, and it has no entry for
    any other year.  It is a total per year, not per zone.  The captures
    counted are those [groupby] keeps, which have a zone and a date. *)
Theorem sums_are_per_year (df : list capture) (y : Z) :
  loc (sum_axis1 (yearly_totals df)) (year_label y)
  = if existsb (fun r => grouped r && in_year r y) df
    then Some (captures_in_year df y)
    else None.
Proof.
  rewrite year_sums. unfold year_label. rewrite find_year.
  assert (E : existsb (Z.eqb y) (years df)
              = existsb (fun r => grouped r && in_year r y) df).
  { apply eq_true_iff_eq. rewrite !existsb_exists. split.
    - intros (x & I & H). apply Z.eqb_eq in H. subst x.
      apply years_in in I. destruct I as (r & I & G & Y).
      exists r. split; [exact I|].
      unfold in_year. rewrite G, Y. apply Z.eqb_refl.
    - intros (r & I & H). apply andb_prop in H. destruct H as (G & H).
      unfold in_year in H. destruct (YEAR r) as [x|] eqn:Y; [|discriminate].
      apply Z.eqb_eq in H. subst x. exists y. split.
      + apply years_in. eauto.
      + apply Z.eqb_refl. }
  rewrite E. now destruct (existsb _ df).
Qed.

End YearSums.

Module CaptureFacts.
Import Capture.

(** The year found in the index under a number is the year of a capture
    that has that number for its year. *)
Lemma year_found (df : list capture) (q : Q) :
  find (fun y => Qeq_bool (inject_Z y) q) (years df)
  = match find (names_year q) df with
    | Some r => YEAR r
    | None => None
    end.
Proof.
  destruct (find (fun y => Qeq_bool (inject_Z y) q) (years df)) as [y|] eqn:F.
  - apply find_some in F. destruct F as (I & E).
    apply YearSums.years_in in I. destruct I as (r0 & I0 & G0 & Y0).
    destruct (find (names_year q) df) as [r1|] eqn:F1.
    + apply find_some in F1. destruct F1 as (_ & N1).
      unfold names_year in N1. apply andb_prop in N1. destruct N1 as (_ & N1).
      destruct (YEAR r1) as [y1|]; [|discriminate]. f_equal.
      apply Qeq_bool_iff in E, N1.
      apply inject_Z_injective. now rewrite E, N1.
    + exfalso. pose proof (find_none _ _ F1 r0 I0) as N.
      unfold names_year in N. now rewrite G0, Y0, E in N.
  - destruct (find (names_year q) df) as [r1|] eqn:F1; [|reflexivity].
    exfalso. apply find_some in F1. destruct F1 as (I1 & N1).
    unfold names_year in N1. apply andb_prop in N1. destruct N1 as (G1 & N1).
    destruct (YEAR r1) as [y1|] eqn:Y1; [|discriminate].
    assert (I : In y1 (years df)) by (apply YearSums.years_in; eauto).
    pose proof (find_none _ _ F y1 I) as N. cbv beta in N. congruence.
Qed.

Lemma year_total_eq (df : list capture) :
  YEAR_TOTAL df
  = map (fun r => option_map (captures_in_year df)
                             (year_named df (ZONE_NAME r))) df.
Proof.
  unfold YEAR_TOTAL, values, reindex. rewrite !map_map.
  apply map_ext. intros r. cbn [snd]. rewrite YearSums.year_sums.
  destruct (ZONE_NAME r) as [s|q|]; try reflexivity.
  cbn [zone_label year_named]. now rewrite year_found.
Qed.

(** Two spellings of one number name the same year. *)
Lemma year_named_same (df : list capture) (a b : zone) :
  same_zone a b = true -> year_named df a = year_named df b.
Proof.
  unfold same_zone.
  destruct a as [s|p|], b as [t|q|]; simpl; try discriminate;
    try reflexivity.
  destruct (p ?= q)%Q eqn:E; try discriminate. intros _.
  apply Qeq_alt in E.
  assert (X : find (names_year p) df = find (names_year q) df).
  { induction df as [|r df IH]; simpl; [reflexivity|].
    assert (B : names_year p r = names_year q r).
    { unfold names_year. f_equal. destruct (YEAR r) as [y|]; [|reflexivity].
      apply eq_true_iff_eq. rewrite !Qeq_bool_iff. now rewrite E. }
    now rewrite B, IH. }
  now rewrite X.
Qed.

Lemma zone_year_count_positive (df : list capture) (r : capture) :
  In r df -> grouped r = true ->
  exists n, zone_year_count df r = Some n /\ 0 < n.
Proof.
  intros I G. unfold zone_year_count.
  assert (D : exists y, YEAR r = Some y).
  { unfold grouped in G. unfold YEAR.
    destruct (ZONE_NAME r), (DATE_CAPTURED r); try discriminate;
      simpl; eauto. }
  destruct D as (y & Y). rewrite Y. simpl. eexists. split; [reflexivity|].
  unfold group_size.
  assert (J : In r (filter (fun r0 => grouped r0 && in_year r0 y
                                      && same_zone (ZONE_NAME r0) (ZONE_NAME r))
                           df)).
  { apply filter_In. split; [exact I|].
    unfold in_year. now rewrite G, Y, Z.eqb_refl, YearSums.same_zone_refl. }
  destruct (filter _ df); [destruct J|]. simpl. lia.
Qed.

(** C4, as the script has it.  In a capture file with at least one capture
    that has both its zone and its date, the [YEAR_TOTAL] that line 60
    gives a row is the total of a year, all zones together, looked up
    under the row's zone name: it is the total of the year that the zone
    name is the number of, and NaN when the zone name is no such number.
    So it goes by the zone name alone, whatever the year of the row: two
    rows of one zone get the same value.  A zone name that is text (or is
    left empty) gives NaN, which is not the count of captures of the row's
    own zone and year: that count is at least 1 for every row that has
    both. *)
Theorem year_total_goes_by_zone_name
    (df : list capture) (i : nat) (r : capture) :
  nth_error df i = Some r ->
  existsb grouped df = true ->
  nth_error (YEAR_TOTAL df) i
    = Some (option_map (captures_in_year df) (year_named df (ZONE_NAME r))) /\
  (forall j r', nth_error df j = Some r' ->
                same_zone (ZONE_NAME r') (ZONE_NAME r) = true ->
                nth_error (YEAR_TOTAL df) j = nth_error (YEAR_TOTAL df) i) /\
  (forall y, year_named df (ZONE_NAME r) = Some y ->
             exists q, ZONE_NAME r = Number q /\ (inject_Z y == q)%Q /\
                       0 < captures_in_year df y) /\
  ((forall q, ZONE_NAME r <> Number q) ->
   nth_error (YEAR_TOTAL df) i = Some None /\
   (grouped r = true ->
    nth_error (YEAR_TOTAL df) i <> Some (zone_year_count df r))) /\
  (grouped r = true ->
   exists n, zone_year_count df r = Some n /\ 0 < n).
Proof.
  intros H _.
  assert (V : forall j r', nth_error df j = Some r' ->
                nth_error (YEAR_TOTAL df) j
                = Some (option_map (captures_in_year df)
                                   (year_named df (ZONE_NAME r')))).
  { intros j r' Hj. rewrite year_total_eq, nth_error_map, Hj. reflexivity. }
  assert (P : grouped r = true ->
              exists n, zone_year_count df r = Some n /\ 0 < n).
  { intros G. apply zone_year_count_positive; [|exact G].
    eapply nth_error_In, H. }
  split; [exact (V i r H)|]. split; [|split; [|split]].
  - intros j r' Hj E.
    now rewrite (V j r' Hj), (V i r H), (year_named_same df _ _ E).
  - intros y Y. destruct (ZONE_NAME r) as [s|q|]; try discriminate.
    cbn [year_named] in Y.
    destruct (find (names_year q) df) as [r1|] eqn:F; [|discriminate].
    apply find_some in F. destruct F as (I & N).
    exists q. split; [reflexivity|].
    pose proof N as N'. unfold names_year in N'. rewrite Y in N'.
    apply andb_prop in N'. destruct N' as (G & E).
    split; [now apply Qeq_bool_iff|].
    unfold captures_in_year.
    assert (J : In r1 (filter (fun r0 => grouped r0 && in_year r0 y) df)).
    { apply filter_In. split; [exact I|].
      unfold in_year. now rewrite G, Y, Z.eqb_refl. }
    destruct (filter _ df); [destruct J|]. simpl. lia.
  - intros N.
    assert (E : nth_error (YEAR_TOTAL df) i = Some None).
    { rewrite (V i r H).
      destruct (ZONE_NAME r) as [s|q|]; [reflexivity| |reflexivity].
      now destruct (N q). }
    split; [exact E|].
    intros G. destruct (P G) as (n & -> & _). rewrite E. discriminate.
  - exact P.
Qed.

End CaptureFacts.

Lemma year_total_goes_by_zone_name_witness :
  let df := three_captures in
  let r := Capture.mkCapture (Capture.Text "Shoal Bay")
                             (Some (Capture.mkDate 2020 7 2)) in
  nth_error (Capture.YEAR_TOTAL df) 1
    = Some (option_map (captures_in_year df)
                       (year_named df (Capture.ZONE_NAME r))) /\
  (forall j r', nth_error df j = Some r' ->
                Capture.same_zone (Capture.ZONE_NAME r') (Capture.ZONE_NAME r)
                = true ->
                nth_error (Capture.YEAR_TOTAL df) j
                = nth_error (Capture.YEAR_TOTAL df) 1) /\
  (forall y, year_named df (Capture.ZONE_NAME r) = Some y ->
             exists q, Capture.ZONE_NAME r = Capture.Number q /\
                       (inject_Z y == q)%Q /\
                       0 < captures_in_year df y) /\
  ((forall q, Capture.ZONE_NAME r <> Capture.Number q) ->
   nth_error (Capture.YEAR_TOTAL df) 1 = Some None /\
   (Capture.grouped r = true ->
    nth_error (Capture.YEAR_TOTAL df) 1
    <> Some (Capture.zone_year_count df r))) /\
  (Capture.grouped r = true ->
   exists n, Capture.zone_year_count df r = Some n /\ 0 < n).
Proof.
  apply (CaptureFacts.year_total_goes_by_zone_name three_captures 1).
  - reflexivity.
  - reflexivity.
Defined.

(** C4 as the specification words it fails on a file that numbers its
    zones.  With the zones 2020, 2019, 2020 captured in those very years,
    the rows get 2, 1 and 2: not one value for all rows, and for each row
    the very count of captures of its zone and year. *)
Lemma numbered_zones_get_the_total_of_a_year :
  Capture.YEAR_TOTAL numbered_captures = [Some 2; Some 1; Some 2] /\
  map (Capture.zone_year_count numbered_captures) numbered_captures
    = Capture.YEAR_TOTAL numbered_captures /\
  nth_error (Capture.YEAR_TOTAL numbered_captures) 0
    <> nth_error (Capture.YEAR_TOTAL numbered_captures) 1.
Proof.
  split; [|split].
  - vm_compute. reflexivity.
  - vm_compute. reflexivity.
  - vm_compute. discriminate.
Qed.

(** * Further properties of the scripts *)

(** ** The helper, attempt by attempt *)

Section RetryRuns.

Variable g : Geolocator.
Variable c : cell * cell.
Variable t : Z.

Lemma timed_out_attempts_S (first k : nat) :
  timed_out_attempts c t first (S k)
  = [EvReverse c t; EvPrint (MsgTimedOut (Z.of_nat first + 1));
     EvSleep Backoff (2 ^ Z.of_nat first)]
    ++ timed_out_attempts c t (S first) k.
Proof.
  reflexivity.
Qed.

Lemma timed_out_attempts_ncalls (first k : nat) :
  ncalls (timed_out_attempts c t first k) = k.
Proof.
  revert first. induction k as [|k IH]; intros first; [reflexivity|].
  rewrite timed_out_attempts_S, ncalls_app, IH. reflexivity.
Qed.

Lemma timed_out_attempts_slept (first k : nat) :
  slept (timed_out_attempts c t first k)
  = 2 ^ Z.of_nat (first + k) - 2 ^ Z.of_nat first.
Proof.
  revert first. induction k as [|k IH]; intros first.
  - rewrite Nat.add_0_r. cbn. lia.
  - rewrite timed_out_attempts_S, slept_app, IH.
    replace (S first + k)%nat with (first + S k)%nat by lia.
    cbn [slept fold_right seconds_of].
    rewrite Nat2Z.inj_succ, Z.pow_succ_r by lia. lia.
Qed.

(** While the service times out, the loop goes from one attempt to the
    next. *)
Lemma retry_loop_timeouts (first n k : nat) (w : world) :
  (k <= n)%nat ->
  (forall j, (j < k)%nat ->
             g (ncalls (trace w) + j)%nat c t = Raises GeocoderTimedOut) ->
  retry_loop g c t (map Z.of_nat (seq first n)) w
  = retry_loop g c t (map Z.of_nat (seq (first + k) (n - k)))
               (log (timed_out_attempts c t first k) w).
Proof.
  revert first n w. induction k as [|k IH]; intros first n w Hk Ht.
  - rewrite Nat.add_0_r, Nat.sub_0_r. cbn [timed_out_attempts seq flat_map].
    now rewrite log_nil.
  - destruct n as [|n]; [lia|].
    unfold retry_loop at 1. cbn [seq map for_each]. unfold bind at 1.
    rewrite attempt_body_eq.
    rewrite <- (Nat.add_0_r (ncalls (trace w))), (Ht 0%nat) by lia.
    fold (retry_loop g c t (map Z.of_nat (seq (S first) n))).
    rewrite (IH (S first) n) by
      (try lia; intros j Hj; rewrite ncalls_log; cbn;
       replace (ncalls (trace w) + 1 + j)%nat
         with (ncalls (trace w) + S j)%nat by lia;
       apply Ht; lia).
    rewrite log_log, timed_out_attempts_S.
    replace (S first + k)%nat with (first + S k)%nat by lia.
    reflexivity.
Qed.

Lemma range_seq (retries : Z) :
  range retries = map Z.of_nat (seq 0 (Z.to_nat retries)).
Proof.
  reflexivity.
Qed.

(** The loop after [k] timeouts, with attempt [k] still to come. *)
Lemma retry_loop_after (retries : Z) (k : nat) (w : world) :
  Z.of_nat k < retries ->
  (forall j, (j < k)%nat ->
             g (ncalls (trace w) + j)%nat c t = Raises GeocoderTimedOut) ->
  retry_loop g c t (range retries) w
  = bind (attempt_body g c t (Z.of_nat k))
         (fun ctl => match ctl with
                     | Continue =>
                         retry_loop g c t
                           (map Z.of_nat
                                (seq (S k) (Z.to_nat retries - S k)))
                     | Break => ret None
                     | Return a => ret (Some a)
                     end)
         (log (timed_out_attempts c t 0 k) w).
Proof.
  intros Hk Ht. rewrite range_seq.
  rewrite (retry_loop_timeouts 0 (Z.to_nat retries) k w) by (auto; lia).
  replace (Z.to_nat retries - k)%nat with (S (Z.to_nat retries - S k)) by lia.
  reflexivity.
Qed.

(** X1. [k] timeouts and then an answer, with [k] below [retries] and no
    more than 34, so that every wait is one [time.sleep] accepts: the
    helper returns that answer (a location, or [None] when the service found
    nothing, which is not retried), after [k] + 1 requests and the waits
    1, 2, ..., 2^(k-1), which add up to 2^k - 1. *)
Theorem answer_after_timeouts (retries : Z) (k : nat) (w : world)
    (location : option Location) :
  Z.of_nat k < retries ->
  (k <= most_timeouts)%nat ->
  (forall j, (j < k)%nat ->
             g (ncalls (trace w) + j)%nat c t = Raises GeocoderTimedOut) ->
  g (ncalls (trace w) + k)%nat c t = Returns location ->
  reverse_geocode_with_retry g c retries t w
    = (Ok location, log (timed_out_attempts c t 0 k ++ [EvReverse c t]) w) /\
  ncalls (timed_out_attempts c t 0 k ++ [EvReverse c t]) = (k + 1)%nat /\
  slept (timed_out_attempts c t 0 k ++ [EvReverse c t]) = 2 ^ Z.of_nat k - 1.
Proof.
  intros Hk _ Ht Ha. split; [|split].
  - unfold reverse_geocode_with_retry. unfold bind at 1.
    rewrite (retry_loop_after retries k w Hk Ht).
    unfold bind at 1. rewrite attempt_body_eq, ncalls_log,
      timed_out_attempts_ncalls, Ha, log_log.
    now destruct location.
  - rewrite ncalls_app, timed_out_attempts_ncalls. reflexivity.
  - rewrite slept_app, timed_out_attempts_slept. cbn. lia.
Qed.

(** X2. When every attempt times out, and [retries] is no more than 34, so
    that every wait is one [time.sleep] accepts: the helper gives up with
    [None] after exactly [retries] requests, and it has waited after each
    of them, the last one included: 2^retries - 1 in all, the whole of the
    budget. *)
Theorem all_attempts_time_out (retries : Z) (w : world) :
  retries <= Z.of_nat most_timeouts ->
  (forall j, Z.of_nat j < retries ->
             g (ncalls (trace w) + j)%nat c t = Raises GeocoderTimedOut) ->
  let evs := timed_out_attempts c t 0 (Z.to_nat retries) in
  reverse_geocode_with_retry g c retries t w = (Ok None, log evs w) /\
  ncalls evs = Z.to_nat retries /\
  slept evs = backoff_budget retries.
Proof.
  intros _ Ht evs. subst evs. split; [|split].
  - unfold reverse_geocode_with_retry. unfold bind at 1. rewrite range_seq.
    rewrite (retry_loop_timeouts 0 (Z.to_nat retries) (Z.to_nat retries) w)
      by (auto; intros j Hj; apply Ht; lia).
    rewrite Nat.sub_diag. reflexivity.
  - apply timed_out_attempts_ncalls.
  - rewrite timed_out_attempts_slept, backoff_budget_closed.
    cbn [Nat.add]. replace (Z.of_nat (Z.to_nat retries)) with (Z.max 0 retries)
      by lia.
    reflexivity.
Qed.

(** X3. An exception of the service that is neither a timeout nor
    service-unavailable is not caught: after [k] timeouts, with [k] below
    [retries] and no more than 34, it leaves the helper as it came, the
    request that raised it being the last event. *)
Theorem other_exception_propagates (retries : Z) (k : nat) (w : world)
    (e : exn) :
  Z.of_nat k < retries ->
  (k <= most_timeouts)%nat ->
  unhandled_by_helper e ->
  (forall j, (j < k)%nat ->
             g (ncalls (trace w) + j)%nat c t = Raises GeocoderTimedOut) ->
  g (ncalls (trace w) + k)%nat c t = Raises e ->
  reverse_geocode_with_retry g c retries t w
    = (Raise e, log (timed_out_attempts c t 0 k ++ [EvReverse c t]) w).
Proof.
  intros Hk _ He Ht Ha.
  unfold reverse_geocode_with_retry. unfold bind at 1.
  rewrite (retry_loop_after retries k w Hk Ht).
  unfold bind at 1. rewrite attempt_body_eq, ncalls_log,
    timed_out_attempts_ncalls, Ha.
  destruct e; simpl in He; try contradiction;
    cbv beta iota; rewrite log_log; reflexivity.
Qed.

Lemma retry_loop_helper_events (attempts : list Z) (w : world) :
  exists r evs,
    retry_loop g c t attempts w = (r, log evs w) /\
    Forall (helper_event c t) evs.
Proof.
  revert w. induction attempts as [|a rest IH]; intros w.
  - exists (Ok None), []. rewrite log_nil. split; [reflexivity|constructor].
  - unfold retry_loop. simpl. unfold bind at 1. rewrite attempt_body_eq.
    destruct (g _ _ _) as [l|e].
    + do 2 eexists. split; [reflexivity|]. repeat constructor.
    + destruct e;
        try (do 2 eexists; split; [reflexivity|]; repeat constructor).
      fold (retry_loop g c t rest).
      destruct (IH (log [EvReverse c t; EvPrint (MsgTimedOut (a + 1));
                         EvSleep Backoff (2 ^ a)] w)) as (r & evs & E & F).
      exists r. eexists. split.
      * rewrite E, log_log. reflexivity.
      * apply Forall_app. split; [repeat constructor|exact F].
Qed.

(** X4. Whatever the service does, all the helper adds to the world are
    requests with the caller's own coordinates and timeout, its two console
    lines and its backoff waits: it never touches the map, never pauses as
    the batch loop does, never writes a file. *)
Theorem helper_stays_in_its_lane (retries : Z) (w : world) :
  let m := reverse_geocode_with_retry g c retries t in
  snd (m w) = log (during m w) w /\
  Forall (helper_event c t) (during m w) /\
  map_obj (snd (m w)) = map_obj w /\
  batch_sleeps (during m w) = [] /\
  saves (during m w) = [].
Proof.
  intros m.
  destruct (retry_loop_helper_events (range retries) w) as (r & evs & E & F).
  assert (R : snd (m w) = log evs w).
  { subst m. rewrite retry_snd. unfold retry_loop in E.
    fold (retry_loop g c t (range retries)) in E. now rewrite E. }
  assert (D : during m w = evs).
  { unfold during. rewrite R. simpl. apply skipn_length_app. }
  rewrite D, R. repeat split; auto.
  - clear -F. induction F as [|e evs He _ IH]; [reflexivity|].
    unfold batch_sleeps in *. simpl. rewrite IH.
    destruct e as [c' t'|[] s|[]|f d]; simpl in He; try contradiction;
      reflexivity.
  - clear -F. induction F as [|e evs He _ IH]; [reflexivity|].
    unfold saves in *. simpl. rewrite IH.
    destruct e as [c' t'|[] s|[]|f d]; simpl in He; try contradiction;
      reflexivity.
Qed.

End RetryRuns.

Lemma answer_after_timeouts_witness :
  reverse_geocode_with_retry slow_then_found darwin 3 10 fresh
    = (Ok (Some {| address := "123 Example Rd" |}),
       log (timed_out_attempts darwin 10 0 2 ++ [EvReverse darwin 10]) fresh) /\
  ncalls (timed_out_attempts darwin 10 0 2 ++ [EvReverse darwin 10])
    = (2 + 1)%nat /\
  slept (timed_out_attempts darwin 10 0 2 ++ [EvReverse darwin 10])
    = 2 ^ Z.of_nat 2 - 1.
Proof.
  apply (answer_after_timeouts slow_then_found darwin 10 3 2 fresh).
  - lia.
  - unfold most_timeouts. lia.
  - intros [|[|j]] Hj; try reflexivity. lia.
  - reflexivity.
Defined.

Lemma all_attempts_time_out_witness :
  let evs := timed_out_attempts darwin 10 0 (Z.to_nat 3) in
  reverse_geocode_with_retry always_timing_out darwin 3 10 fresh
    = (Ok None, log evs fresh) /\
  ncalls evs = Z.to_nat 3 /\
  slept evs = backoff_budget 3.
Proof.
  apply (all_attempts_time_out always_timing_out darwin 10 3 fresh).
  - unfold most_timeouts. lia.
  - intros j Hj. reflexivity.
Defined.

Lemma other_exception_propagates_witness :
  reverse_geocode_with_retry over_quota darwin 3 10 fresh
    = (Raise (OtherError "GeocoderQuotaExceeded"),
       log (timed_out_attempts darwin 10 0 0 ++ [EvReverse darwin 10]) fresh).
Proof.
  apply (other_exception_propagates over_quota darwin 10 3 0 fresh).
  - lia.
  - unfold most_timeouts. lia.
  - exact I.
  - intros j Hj. lia.
  - reflexivity.
Defined.

(** ** The account of a row *)

Lemma log_inj (a b : list event) (w : world) : log a w = log b w -> a = b.
Proof.
  unfold log. intros H. injection H as H. now apply app_inv_head in H.
Qed.

Lemma helper_events_quiet (c : cell * cell) (t : Z) (evs : list event) :
  Forall (helper_event c t) evs -> saves evs = [] /\ batch_sleeps evs = [].
Proof.
  induction 1 as [|e evs He _ (IH1 & IH2)]; [split; reflexivity|].
  unfold saves, batch_sleeps in *. simpl. rewrite IH1, IH2.
  destruct e as [c' t'|[] s|[]|f d]; simpl in He; try contradiction;
    split; reflexivity.
Qed.

Lemma retry_loop_leak (g : Geolocator) (c : cell * cell) (t : Z)
    (attempts : list Z) (w w' : world) (e : exn) :
  retry_loop g c t attempts w = (Raise e, w') ->
  (exists n, g n c t = Raises e) /\ unhandled_by_helper e.
Proof.
  revert w. induction attempts as [|a rest IH]; intros w.
  - discriminate.
  - unfold retry_loop. simpl. unfold bind at 1. rewrite attempt_body_eq.
    destruct (g (ncalls (trace w)) c t) as [l|e0] eqn:G.
    + discriminate.
    + destruct e0; try discriminate;
        try (intros [= <- _]; split; [eexists; exact G|exact I]).
      apply IH.
Qed.

(** A loop with an attempt to make makes a request. *)
Lemma retry_loop_asks (g : Geolocator) (c : cell * cell) (t : Z)
    (a : Z) (rest : list Z) (w : world) :
  exists r evs,
    retry_loop g c t (a :: rest) w = (r, log evs w) /\
    (1 <= ncalls evs)%nat.
Proof.
  unfold retry_loop. simpl. unfold bind at 1. rewrite attempt_body_eq.
  destruct (g (ncalls (trace w)) c t) as [l|e].
  - do 2 eexists. split; [reflexivity|]. cbn. lia.
  - destruct e; try (do 2 eexists; split; [reflexivity|]; cbn; lia).
    fold (retry_loop g c t rest).
    destruct (retry_loop_log g c t rest
                (log [EvReverse c t; EvPrint (MsgTimedOut (a + 1));
                      EvSleep Backoff (2 ^ a)] w)) as (evs & E & _).
    destruct (retry_loop g c t rest _) as [r w'] eqn:R. simpl in E. subst w'.
    exists r. eexists. split.
    + rewrite log_log. reflexivity.
    + rewrite ncalls_app. cbn. lia.
Qed.

(** All that a lookup with the default arguments can cost. *)
Lemma retry_facts (g : Geolocator) (c : cell * cell) (w : world) :
  exists r evs,
    reverse_geocode_with_retry g c default_retries default_timeout w
      = (r, log evs w) /\
    saves evs = [] /\
    (ncalls evs <= 3)%nat /\
    0 <= slept evs <= 7 /\
    (tame g -> exists l, r = Ok l) /\
    (forall e, r = Raise e ->
       (exists n c t, g n c t = Raises e) /\ unhandled_by_helper e) /\
    (1 <= ncalls evs)%nat.
Proof.
  destruct (retry_quiet g c default_timeout default_retries w)
    as (r & evs & E & _ & T).
  exists r, evs. split; [exact E|].
  destruct (retry_loop_helper_events g c default_timeout
              (range default_retries) w) as (r1 & evs1 & E1 & F1).
  destruct (retry_loop_log g c default_timeout (range default_retries) w)
    as (evs2 & E2 & C2 & S2).
  pose proof (retry_snd g c default_timeout default_retries w) as R.
  rewrite E in R. simpl in R.
  assert (evs1 = evs) by (apply (log_inj _ _ w); rewrite R, E1; reflexivity).
  assert (evs2 = evs) by (apply (log_inj _ _ w); rewrite R, E2; reflexivity).
  subst evs1 evs2.
  destruct (helper_events_quiet _ _ _ F1) as (Sv & _).
  assert (L : length (range default_retries) = 3%nat) by reflexivity.
  assert (B : fold_right Z.add 0
                (map (fun a => 2 ^ a) (range default_retries)) = 7)
    by reflexivity.
  rewrite L in C2. rewrite B in S2.
  split; [exact Sv|split; [lia|split; [lia|split; [exact T|split]]]].
  - intros e ->. unfold reverse_geocode_with_retry, bind in E.
    rewrite E1 in E. destruct r1 as [[l|]|e1]; try discriminate.
    injection E as <-.
    destruct (retry_loop_leak g c default_timeout _ _ _ _ E1)
      as ((n & G) & U).
    split; [eauto|exact U].
  - destruct (retry_loop_asks g c default_timeout 0
                (map Z.of_nat (seq 1 2)) w) as (r3 & evs3 & E3 & A3).
    change (0 :: map Z.of_nat (seq 1 2)) with (range default_retries) in E3.
    rewrite E1 in E3.
    assert (Q : log evs w = log evs3 w) by congruence.
    apply log_inj in Q. now subst evs3.
Qed.

Section RowAccounts.

Variable g : Geolocator.

(** A complete row whose lookup raised: the row loop of the combined-map
    script takes a [KeyError] for a missing column and lets the rest
    through. *)
Lemma combined_row_raised (row : Series) (w : world) (e : exn)
    (evs : list event) :
  complete row = true ->
  reverse_geocode_with_retry g (coords_of row) default_retries
                             default_timeout w
    = (Raise e, log evs w) ->
  Combined.process_row g row w
    = match e with
      | KeyError _ =>
          (Ok tt, log (evs ++ [EvPrint (MsgColumnNotFound e)]) w)
      | _ => (Raise e, log evs w)
      end.
Proof.
  unfold complete, has_field, coords_of, field. intros C E.
  unfold Combined.process_row, try_except, bind at 1, lift.
  destruct (getitem row "name") as [name|]; [|discriminate].
  unfold bind at 1.
  destruct (getitem row "latitude") as [lat|]; [|discriminate].
  unfold bind at 1.
  destruct (getitem row "longitude") as [lon|]; [|discriminate].
  unfold bind at 1. rewrite E.
  destruct e; try reflexivity.
  unfold on_key_error, print. rewrite emit_log, log_log. reflexivity.
Qed.

(** The same in the highlighted-map script, which also takes an
    [IndexError]. *)
Lemma highlighted_row_raised (row : Series) (w : world) (e : exn)
    (evs : list event) :
  complete row = true ->
  reverse_geocode_with_retry g (coords_of row) default_retries
                             default_timeout w
    = (Raise e, log evs w) ->
  Highlighted.process_row g row w
    = match e with
      | KeyError _ =>
          (Ok tt, log (evs ++ [EvPrint (MsgColumnNotFound e)]) w)
      | IndexError _ =>
          (Ok tt, log (evs ++ [EvPrint (MsgIndexError e)]) w)
      | _ => (Raise e, log evs w)
      end.
Proof.
  unfold complete, has_field, coords_of, field. intros C E.
  unfold Highlighted.process_row, try_except, bind at 1, lift.
  destruct (getitem row "name") as [name|]; [|discriminate].
  unfold bind at 1.
  destruct (getitem row "latitude") as [lat|]; [|discriminate].
  unfold bind at 1.
  destruct (getitem row "longitude") as [lon|]; [|discriminate].
  unfold bind at 1. rewrite E.
  destruct e; try reflexivity;
    unfold Highlighted.on_error, print; rewrite emit_log, log_log;
    reflexivity.
Qed.

Lemma highlighted_row_annotated (row : Series) (w : world)
    (location : option Location) (evs : list event) :
  complete row = true ->
  reverse_geocode_with_retry g (coords_of row) default_retries
                             default_timeout w
    = (Ok location, log evs w) ->
  Highlighted.process_row g row w
    = (Ok tt,
       extend (evs ++ [EvPrint (MsgCirclesAdded (field row "name"))])
              (circles_at (coords_of row)) w).
Proof.
  unfold complete, has_field, coords_of, field. intros C E.
  unfold Highlighted.process_row, try_except, bind at 1, lift.
  destruct (getitem row "name") as [name|]; [|discriminate].
  unfold bind at 1.
  destruct (getitem row "latitude") as [lat|]; [|discriminate].
  unfold bind at 1.
  destruct (getitem row "longitude") as [lon|]; [|discriminate].
  unfold bind at 1. rewrite E.
  unfold bind, Highlighted.add_circle_to_map, bind, print.
  rewrite log_extend, add_to_extend. cbv beta iota.
  rewrite add_to_extend. cbv beta iota.
  rewrite emit_extend, !extend_extend.
  now rewrite !app_nil_r.
Qed.

Lemma load_one (row : Series) :
  load [row] = if complete row then 1%nat else 0%nat.
Proof.
  unfold load. simpl. now destruct (complete row).
Qed.

Lemma combined_row_facts : row_facts g (Combined.process_row g) one_marker.
Proof.
  intros row w. rewrite load_one. unfold row_share.
  destruct (complete row) eqn:C.
  - destruct (retry_facts g (coords_of row) w)
      as (r & evs & E & Sv & N & S & T & K & A).
    destruct r as [location|e].
    + rewrite (combined_row_annotated g row w location evs C E).
      do 3 eexists. split; [reflexivity|].
      unfold saves in *. rewrite flat_map_app, ncalls_app, slept_app, Sv.
      cbn. repeat split; try lia; try discriminate. eexists. reflexivity.
    + rewrite (combined_row_raised row w e evs C E).
      assert (NT : tame g -> False)
        by (intros H; destruct (T H); discriminate).
      destruct (K e eq_refl) as (Kg & Ku).
      destruct e;
        (do 3 eexists; split; [rewrite log_extend; reflexivity|]);
        unfold saves in *;
        rewrite ?flat_map_app, ?ncalls_app, ?slept_app, ?Sv; cbn;
        (split; [auto|split; [lia|split; [lia|split; [|split; [|split]]]]]);
        try (intros H; destruct (NT H));
        try (intros; discriminate);
        try (intros e0 [= <-]; repeat split; auto; discriminate);
        try (intros _; lia).
  - destruct (incomplete_first_missing row C) as (key & H & _).
    rewrite (combined_row_skipped g row key w H), log_extend.
    do 3 eexists. split; [reflexivity|]. cbn.
    repeat split; try lia; discriminate.
Qed.

Lemma highlighted_row_facts :
  row_facts g (Highlighted.process_row g) two_circles.
Proof.
  intros row w. rewrite load_one. unfold row_share.
  destruct (complete row) eqn:C.
  - destruct (retry_facts g (coords_of row) w)
      as (r & evs & E & Sv & N & S & T & K & A).
    destruct r as [location|e].
    + rewrite (highlighted_row_annotated row w location evs C E).
      do 3 eexists. split; [reflexivity|].
      unfold saves in *. rewrite flat_map_app, ncalls_app, slept_app, Sv.
      cbn. repeat split; try lia; discriminate.
    + rewrite (highlighted_row_raised row w e evs C E).
      assert (NT : tame g -> False)
        by (intros H; destruct (T H); discriminate).
      destruct (K e eq_refl) as (Kg & Ku).
      destruct e;
        (do 3 eexists; split; [rewrite log_extend; reflexivity|]);
        unfold saves in *;
        rewrite ?flat_map_app, ?ncalls_app, ?slept_app, ?Sv; cbn;
        (split; [auto|split; [lia|split; [lia|split; [|split; [|split]]]]]);
        try (intros H; destruct (NT H));
        try (intros; discriminate);
        try (intros e0 [= <-]; repeat split; auto; discriminate);
        try (intros _; lia).
  - destruct (incomplete_first_missing row C) as (key & H & _).
    rewrite (highlighted_row_skipped g row key w H), log_extend.
    do 3 eexists. split; [reflexivity|]. cbn.
    repeat split; try lia; discriminate.
Qed.

End RowAccounts.

(** ** The account of a run *)

Lemma saves_app (a b : list event) : saves (a ++ b) = saves a ++ saves b.
Proof.
  apply flat_map_app.
Qed.

Lemma load_app (a b : list Series) : load (a ++ b) = (load a + load b)%nat.
Proof.
  unfold load. now rewrite filter_app, length_app.
Qed.

Lemma load_le (rows : list Series) : (load rows <= length rows)%nat.
Proof.
  apply filter_length_le.
Qed.

Section Accounts.

Variable g : Geolocator.
Variable body : Series -> M unit.
Variable good : Series -> list annotation -> Prop.
Variable file : string.
Hypothesis body_facts : row_facts g body good.

Local Abbreviation ledger := (ledger g good).

Lemma ledger_nil : ledger [] 0 (Ok tt) [] [].
Proof.
  repeat split; cbn; try lia; try discriminate.
  exists []. split; [constructor|reflexivity].
Qed.

Lemma ledger_app (rows1 rows2 : list Series) (p1 p2 : nat)
    (r : result unit) (e1 e2 : list event) (a1 a2 : list annotation) :
  ledger rows1 p1 (Ok tt) e1 a1 ->
  ledger rows2 p2 r e2 a2 ->
  ledger (rows1 ++ rows2) (p1 + p2) r (e1 ++ e2) (a1 ++ a2).
Proof.
  intros (Sv1 & N1 & S1 & G1 & Z1 & K1 & A1)
         (Sv2 & N2 & S2 & G2 & Z2 & K2 & A2).
  split; [|split; [|split; [|split; [|split; [|split]]]]].
  - now rewrite saves_app, Sv1, Sv2.
  - rewrite ncalls_app, load_app. lia.
  - rewrite slept_app, load_app. lia.
  - intros T. destruct (G1 T) as (_ & per1 & F1 & Ha1).
    destruct (G2 T) as (R2 & per2 & F2 & Ha2).
    split; [exact R2|]. exists (per1 ++ per2). split.
    + now apply Forall2_app.
    + now rewrite concat_app, Ha1, Ha2.
  - rewrite load_app. intros H.
    destruct (Z1 ltac:(lia)) as (_ & ->).
    destruct (Z2 ltac:(lia)) as (R2 & ->). auto.
  - exact K2.
  - intros R. rewrite ncalls_app, load_app.
    specialize (A1 eq_refl). specialize (A2 R). lia.
Qed.

(** A loop that stopped on an exception keeps the account it had. *)
Lemma ledger_stop (rows1 rows2 : list Series) (p1 p2 : nat) (e : exn)
    (evs : list event) (anns : list annotation) :
  ledger rows1 p1 (Raise e) evs anns ->
  ledger (rows1 ++ rows2) (p1 + p2) (Raise e) evs anns.
Proof.
  intros (Sv & N & S & G & Z & K & A).
  split; [exact Sv|split; [|split; [|split; [|split; [|split]]]]].
  - rewrite load_app. lia.
  - rewrite load_app. lia.
  - intros T. destruct (G T) as (R & _). discriminate.
  - rewrite load_app. intros H.
    destruct (Z ltac:(lia)) as (R & _). discriminate.
  - exact K.
  - discriminate.
Qed.

Lemma body_ledger (row : Series) (w : world) :
  exists r evs anns,
    body row w = (r, extend evs anns w) /\ ledger [row] 0 r evs anns.
Proof.
  destruct (body_facts row w)
    as (r & evs & anns & E & Sv & N & S & G & Z & K & A).
  exists r, evs, anns. split; [exact E|].
  split; [exact Sv|split; [exact N|split; [lia|split; [|split; auto]]]].
  intros T. destruct (G T) as (R & Sh). split; [exact R|].
  exists [anns]. split.
  - now repeat constructor.
  - simpl. now rewrite app_nil_r.
Qed.

Lemma rows_ledger (rows : list Series) (w : world) :
  exists r evs anns,
    for_ rows body w = (r, extend evs anns w) /\ ledger rows 0 r evs anns.
Proof.
  revert w. induction rows as [|row rest IH]; intros w.
  - exists (Ok tt), [], []. rewrite extend_nil. split; [reflexivity|].
    apply ledger_nil.
  - simpl. unfold bind.
    destruct (body_ledger row w) as (r1 & e1 & a1 & E1 & L1).
    rewrite E1. destruct r1 as [[]|e].
    + destruct (IH (extend e1 a1 w)) as (r2 & e2 & a2 & E2 & L2).
      rewrite E2, extend_extend. exists r2. do 2 eexists.
      split; [reflexivity|].
      apply (ledger_app [row] rest 0 0); assumption.
    + exists (Raise e). do 2 eexists. split; [reflexivity|].
      apply (ledger_stop [row] rest 0 0). exact L1.
Qed.

Lemma batch_ledger (df : DataFrame) (batch_size start : Z) (w : world) :
  exists r evs anns,
    batch_with body df batch_size start w = (r, extend evs anns w) /\
    ledger (batch_rows df batch_size start) 1 r evs anns.
Proof.
  unfold batch_with. fold (batch_rows df batch_size start).
  destruct (rows_ledger (batch_rows df batch_size start) w)
    as (r & evs & anns & E & L).
  unfold bind. rewrite E. destruct r as [[]|e].
  - unfold sleep. rewrite emit_extend, extend_extend.
    exists (Ok tt). do 2 eexists. split; [reflexivity|].
    rewrite <- (app_nil_r (batch_rows df batch_size start)).
    apply (ledger_app _ [] 0 1); [exact L|].
    repeat split; cbn; try lia; try discriminate.
    exists []. split; [constructor|reflexivity].
  - exists (Raise e). do 2 eexists. split; [reflexivity|].
    rewrite <- (app_nil_r (batch_rows df batch_size start)).
    apply (ledger_stop _ [] 0 1). exact L.
Qed.

Lemma batches_ledger (df : DataFrame) (batch_size : Z) (starts : list Z)
    (w : world) :
  exists r evs anns,
    for_ starts (batch_with body df batch_size) w = (r, extend evs anns w) /\
    ledger (flat_map (batch_rows df batch_size) starts) (length starts)
           r evs anns.
Proof.
  revert w. induction starts as [|s rest IH]; intros w.
  - exists (Ok tt), [], []. rewrite extend_nil. split; [reflexivity|].
    apply ledger_nil.
  - simpl. unfold bind.
    destruct (batch_ledger df batch_size s w) as (r1 & e1 & a1 & E1 & L1).
    rewrite E1. destruct r1 as [[]|e].
    + destruct (IH (extend e1 a1 w)) as (r2 & e2 & a2 & E2 & L2).
      rewrite E2, extend_extend. exists r2. do 2 eexists.
      split; [reflexivity|].
      apply (ledger_app _ _ 1 (length rest)); assumption.
    + exists (Raise e). do 2 eexists. split; [reflexivity|].
      apply (ledger_stop _ _ 1 (length rest)). exact L1.
Qed.

(** The driver from the blank map to its last line, or to the exception
    that stopped it. *)
Lemma drive_ledger (df : DataFrame) (batch_size : Z) (w : world) :
  0 < batch_size ->
  exists r evs anns,
    drive_with body file df batch_size w
      = (r, {| trace := trace w ++ evs
                        ++ closing file r (adds anns create_map);
               map_obj := adds anns create_map |}) /\
    ledger (iterrows df) (length (chunks df batch_size)) r evs anns.
Proof.
  intros Hb. unfold drive_with, bind at 1, update_map.
  unfold bind at 1, lift. rewrite (range3_positive _ _ Hb).
  set (w0 := {| trace := trace w; map_obj := create_map |}).
  destruct (batches_ledger df batch_size (range_up 0 (len df) batch_size) w0)
    as (r & evs & anns & E & L).
  rewrite all_batch_rows in L by assumption.
  replace (length (range_up 0 (len df) batch_size))
    with (length (chunks df batch_size)) in L
    by (unfold chunks; now rewrite length_map).
  unfold bind at 1. rewrite E.
  exists r, evs, anns. split; [|exact L].
  destruct r as [[]|e].
  - unfold bind, save, print, emit. simpl. now rewrite <- !app_assoc.
  - simpl. now rewrite app_nil_r.
Qed.

End Accounts.

(** ** Whole runs, whatever the service does *)

Lemma combined_csv_ledger (g : Geolocator) (df : DataFrame) (batch_size : Z)
    (w : world) :
  0 < batch_size ->
  exists r evs anns,
    Combined.process_csv g df batch_size w
      = (r, {| trace := trace w ++ header df ++ evs
                        ++ closing "combined_map.html" r
                                   (adds anns create_map);
               map_obj := adds anns create_map |}) /\
    ledger g one_marker (iterrows df) (length (chunks df batch_size))
           r evs anns.
Proof.
  intros Hb.
  set (w3 := {| trace := ((trace w ++ [EvPrint (MsgColumns (columns df))])
                          ++ [EvPrint MsgFirstRows])
                         ++ [EvPrint (MsgHead (head df))];
                map_obj := map_obj w |}).
  change (Combined.process_csv g df batch_size w)
    with (drive_with (Combined.process_row g) "combined_map.html"
                     df batch_size w3).
  destruct (drive_ledger g _ _ "combined_map.html" (combined_row_facts g)
                         df batch_size w3 Hb) as (r & evs & anns & E & L).
  exists r, evs, anns. split; [|exact L].
  rewrite E. subst w3. unfold header. simpl. now rewrite <- !app_assoc.
Qed.

Lemma highlighted_csv_ledger (g : Geolocator) (df : DataFrame)
    (batch_size : Z) (w : world) :
  0 < batch_size ->
  exists r evs anns,
    Highlighted.process_csv g df batch_size w
      = (r, {| trace := trace w ++ header df ++ evs
                        ++ closing "highlighted_map.html" r
                                   (adds anns create_map);
               map_obj := adds anns create_map |}) /\
    ledger g two_circles (iterrows (iloc_step df 5))
           (length (chunks (iloc_step df 5) batch_size)) r evs anns.
Proof.
  intros Hb.
  set (w3 := {| trace := ((trace w ++ [EvPrint (MsgColumns (columns df))])
                          ++ [EvPrint MsgFirstRows])
                         ++ [EvPrint (MsgHead (head df))];
                map_obj := map_obj w |}).
  change (Highlighted.process_csv g df batch_size w)
    with (drive_with (Highlighted.process_row g) "highlighted_map.html"
                     (iloc_step df 5) batch_size w3).
  destruct (drive_ledger g _ _ "highlighted_map.html"
                         (highlighted_row_facts g)
                         (iloc_step df 5) batch_size w3 Hb)
    as (r & evs & anns & E & L).
  exists r, evs, anns. split; [|exact L].
  rewrite E. subst w3. unfold header. simpl. now rewrite <- !app_assoc.
Qed.

Lemma closing_quiet (file : string) (r : result unit) (doc : Map) :
  ncalls (closing file r doc) = 0%nat /\ slept (closing file r doc) = 0.
Proof.
  destruct r; split; reflexivity.
Qed.

(** What the events of a run add up to, given the account of its loop. *)
Lemma run_totals (df : DataFrame) (file : string) (r : result unit)
    (evs : list event) (doc : Map) :
  ncalls (header df ++ evs ++ closing file r doc) = ncalls evs /\
  slept (header df ++ evs ++ closing file r doc) = slept evs /\
  (saves evs = [] ->
   saves (header df ++ evs ++ closing file r doc)
   = match r with Ok _ => [(file, doc)] | Raise _ => [] end).
Proof.
  destruct (closing_quiet file r doc) as (N & S).
  rewrite !ncalls_app, !slept_app, !saves_app, N, S.
  repeat split; try (cbn; lia).
  intros ->. now destruct r.
Qed.

Lemma iterrows_length (df : DataFrame) :
  length (iterrows df) = length (data df).
Proof.
  unfold iterrows. apply length_map.
Qed.

(** X5. Whatever the service answers and however the run ends, for a
    positive batch size: the combined-map script sends at most three
    requests for each row that has its three fields, so at most 3 N for a
    frame of N rows; the highlighted-map script at most three for each
    sampled row, so at most 3 ceil(N / 5). *)
Theorem requests_per_run (g : Geolocator) (df : DataFrame) (batch_size : Z)
    (w : world) :
  0 < batch_size ->
  (Z.of_nat (ncalls (during (Combined.process_csv g df batch_size) w))
     <= 3 * Z.of_nat (load (iterrows df)) /\
   Z.of_nat (load (iterrows df)) <= len df) /\
  (Z.of_nat (ncalls (during (Highlighted.process_csv g df batch_size) w))
     <= 3 * Z.of_nat (load (iterrows (iloc_step df 5))) /\
   Z.of_nat (load (iterrows (iloc_step df 5))) <= ceil_div (len df) 5).
Proof.
  intros Hb. split.
  - destruct (combined_csv_ledger g df batch_size w Hb)
      as (r & evs & anns & E & _ & N & _).
    rewrite (during_run _ _ _ _ _ E).
    destruct (run_totals df "combined_map.html" r evs (adds anns create_map))
      as (-> & _).
    pose proof (load_le (iterrows df)) as L. rewrite iterrows_length in L.
    unfold len. lia.
  - destruct (highlighted_csv_ledger g df batch_size w Hb)
      as (r & evs & anns & E & _ & N & _).
    rewrite (during_run _ _ _ _ _ E).
    destruct (run_totals df "highlighted_map.html" r evs
                         (adds anns create_map)) as (-> & _).
    pose proof (load_le (iterrows (iloc_step df 5))) as L.
    rewrite iterrows_length in L.
    rewrite <- sampled_len. unfold len. lia.
Qed.

(** X6. Whatever the service answers and however the run ends, for a
    positive batch size B: all the sleeping of a run of the combined-map
    script adds up to at most 7 time-units for each row that has its three
    fields (1 + 2 + 4, when all three attempts time out) and 2 for each of
    the ceil(N / B) batches; likewise for the highlighted-map script over
    its ceil(N / 5) sampled rows. *)
Theorem waiting_per_run (g : Geolocator) (df : DataFrame) (batch_size : Z)
    (w : world) :
  0 < batch_size ->
  0 <= slept (during (Combined.process_csv g df batch_size) w)
    <= 7 * Z.of_nat (load (iterrows df)) + 2 * ceil_div (len df) batch_size /\
  0 <= slept (during (Highlighted.process_csv g df batch_size) w)
    <= 7 * Z.of_nat (load (iterrows (iloc_step df 5)))
       + 2 * ceil_div (ceil_div (len df) 5) batch_size.
Proof.
  intros Hb. split.
  - destruct (combined_csv_ledger g df batch_size w Hb)
      as (r & evs & anns & E & _ & _ & S & _).
    rewrite (during_run _ _ _ _ _ E).
    destruct (run_totals df "combined_map.html" r evs (adds anns create_map))
      as (_ & -> & _).
    rewrite <- (chunks_length df batch_size Hb). lia.
  - destruct (highlighted_csv_ledger g df batch_size w Hb)
      as (r & evs & anns & E & _ & _ & S & _).
    rewrite (during_run _ _ _ _ _ E).
    destruct (run_totals df "highlighted_map.html" r evs
                         (adds anns create_map)) as (_ & -> & _).
    rewrite <- sampled_len, <- (chunks_length (iloc_step df 5) batch_size Hb).
    lia.
Qed.

(** X7. For a positive batch size, each script writes its file at most
    once: a run that ends normally has written it exactly once, with the
    map as the run leaves it; a run that an exception stops has written
    nothing at all. *)
Theorem file_written_once_or_never (g : Geolocator) (df : DataFrame)
    (batch_size : Z) (w : world) :
  0 < batch_size ->
  let combined := Combined.process_csv g df batch_size in
  let highlighted := Highlighted.process_csv g df batch_size in
  saves (during combined w)
    = match fst (combined w) with
      | Ok _ => [("combined_map.html", map_obj (snd (combined w)))]
      | Raise _ => []
      end /\
  saves (during highlighted w)
    = match fst (highlighted w) with
      | Ok _ => [("highlighted_map.html", map_obj (snd (highlighted w)))]
      | Raise _ => []
      end.
Proof.
  intros Hb combined highlighted. split.
  - subst combined.
    destruct (combined_csv_ledger g df batch_size w Hb)
      as (r & evs & anns & E & Sv & _).
    rewrite (during_run _ _ _ _ _ E), E.
    destruct (run_totals df "combined_map.html" r evs (adds anns create_map))
      as (_ & _ & ->); auto.
  - subst highlighted.
    destruct (highlighted_csv_ledger g df batch_size w Hb)
      as (r & evs & anns & E & Sv & _).
    rewrite (during_run _ _ _ _ _ E), E.
    destruct (run_totals df "highlighted_map.html" r evs
                         (adds anns create_map)) as (_ & _ & ->); auto.
Qed.

Lemma requests_per_run_witness :
  (Z.of_nat (ncalls (during (Combined.process_csv slow_then_found six_sites 4)
                            fresh))
     <= 3 * Z.of_nat (load (iterrows six_sites)) /\
   Z.of_nat (load (iterrows six_sites)) <= len six_sites) /\
  (Z.of_nat (ncalls (during (Highlighted.process_csv slow_then_found
                                                     six_sites 4) fresh))
     <= 3 * Z.of_nat (load (iterrows (iloc_step six_sites 5))) /\
   Z.of_nat (load (iterrows (iloc_step six_sites 5)))
     <= ceil_div (len six_sites) 5).
Proof.
  apply (requests_per_run slow_then_found six_sites 4 fresh). reflexivity.
Defined.

Lemma waiting_per_run_witness :
  0 <= slept (during (Combined.process_csv always_timing_out six_sites 4)
                     fresh)
    <= 7 * Z.of_nat (load (iterrows six_sites))
       + 2 * ceil_div (len six_sites) 4 /\
  0 <= slept (during (Highlighted.process_csv always_timing_out six_sites 4)
                     fresh)
    <= 7 * Z.of_nat (load (iterrows (iloc_step six_sites 5)))
       + 2 * ceil_div (ceil_div (len six_sites) 5) 4.
Proof.
  apply (waiting_per_run always_timing_out six_sites 4 fresh). reflexivity.
Defined.

Lemma file_written_once_or_never_witness :
  let combined := Combined.process_csv over_quota six_sites 4 in
  let highlighted := Highlighted.process_csv always_found six_sites 4 in
  saves (during combined fresh)
    = match fst (combined fresh) with
      | Ok _ => [("combined_map.html", map_obj (snd (combined fresh)))]
      | Raise _ => []
      end /\
  saves (during highlighted fresh)
    = match fst (highlighted fresh) with
      | Ok _ => [("highlighted_map.html", map_obj (snd (highlighted fresh)))]
      | Raise _ => []
      end.
Proof.
  split.
  - apply (file_written_once_or_never over_quota six_sites 4 fresh).
    reflexivity.
  - apply (file_written_once_or_never always_found six_sites 4 fresh).
    reflexivity.
Defined.

(** ** Frames with rows of both kinds *)

Lemma markers_of_shares (rows : list Series) (per : list (list annotation)) :
  Forall2 (row_share one_marker) rows per ->
  map location_of (concat per) = map coords_of (filter complete rows) /\
  forallb is_marker (concat per) = true.
Proof.
  induction 1 as [|row anns rows per Sh _ (IH1 & IH2)]; simpl; [auto|].
  unfold row_share in Sh. destruct (complete row).
  - destruct Sh as (a & ->). simpl. now rewrite IH1, IH2.
  - subst anns. auto.
Qed.

Lemma circles_of_shares (rows : list Series) (per : list (list annotation)) :
  Forall2 (row_share two_circles) rows per ->
  concat per
  = flat_map (fun row => circles_at (coords_of row)) (filter complete rows).
Proof.
  induction 1 as [|row anns rows per Sh _ IH]; simpl; [auto|].
  unfold row_share in Sh. destruct (complete row).
  - rewrite Sh, IH. reflexivity.
  - subst anns. exact IH.
Qed.

(** X9. With a tame service and a positive batch size, for any frame at
    all: both scripts end normally; the combined map holds one marker for
    each row of the frame that has its three fields, at its coordinates and
    in the order of the rows, and nothing for the other rows; the
    highlighted map holds the two circles of each sampled row that has its
    three fields, and nothing else. *)
Theorem tame_run_annotates_the_complete_rows (g : Geolocator)
    (df : DataFrame) (batch_size : Z) (w : world) :
  tame g -> 0 < batch_size ->
  let wc := snd (Combined.process_csv g df batch_size w) in
  let wh := snd (Highlighted.process_csv g df batch_size w) in
  (fst (Combined.process_csv g df batch_size w) = Ok tt /\
   map location_of (children (map_obj wc))
     = map coords_of (filter complete (iterrows df)) /\
   forallb is_marker (children (map_obj wc)) = true) /\
  (fst (Highlighted.process_csv g df batch_size w) = Ok tt /\
   children (map_obj wh)
     = flat_map (fun row => circles_at (coords_of row))
                (filter complete (iterrows (iloc_step df 5)))).
Proof.
  intros T Hb wc wh. split.
  - subst wc.
    destruct (combined_csv_ledger g df batch_size w Hb)
      as (r & evs & anns & E & _ & _ & _ & G & _).
    rewrite E. simpl. destruct (G T) as (-> & per & F & ->).
    destruct (markers_of_shares _ _ F). auto.
  - subst wh.
    destruct (highlighted_csv_ledger g df batch_size w Hb)
      as (r & evs & anns & E & _ & _ & _ & G & _).
    rewrite E. simpl. destruct (G T) as (-> & per & F & ->).
    rewrite (circles_of_shares _ _ F). auto.
Qed.

Lemma getitem_absent (row : Series) (key : string) :
  ~ In key (map fst row) -> getitem row key = Raise (KeyError key).
Proof.
  induction row as [|[k v] rest IH]; simpl; intros H; [reflexivity|].
  destruct (String.eqb_spec k key) as [->|_].
  - exfalso. auto.
  - apply IH. auto.
Qed.

Lemma missing_column_rows (df : DataFrame) (key : string) :
  In key ["name"; "latitude"; "longitude"]%string ->
  ~ In key (columns df) ->
  load (iterrows df) = 0%nat.
Proof.
  intros K H. unfold load, iterrows.
  induction (data df) as [|vals rest IH]; simpl; [reflexivity|].
  assert (A : getitem (combine (columns df) vals) key = Raise (KeyError key)).
  { apply getitem_absent. intros I. apply H.
    apply in_map_iff in I. destruct I as ([k v] & <- & I).
    now apply in_combine_l in I. }
  assert (C : complete (combine (columns df) vals) = false).
  { unfold complete, has_field.
    destruct K as [<-|[<-|[<-|[]]]]; rewrite A;
      repeat match goal with
             | |- context [getitem ?r ?k] => destruct (getitem r k)
             end; reflexivity. }
  rewrite C. exact IH.
Qed.

(** X10. A frame that has no column called [name], or none called
    [latitude], or none called [longitude]: for a positive batch size and
    whatever the service would answer, each script ends normally without
    a single request, and the file it writes holds the blank map. *)
Theorem missing_column_blank_map (g : Geolocator) (df : DataFrame)
    (batch_size : Z) (w : world) (key : string) :
  In key ["name"; "latitude"; "longitude"]%string ->
  ~ In key (columns df) ->
  0 < batch_size ->
  let combined := Combined.process_csv g df batch_size in
  let highlighted := Highlighted.process_csv g df batch_size in
  (fst (combined w) = Ok tt /\
   ncalls (during combined w) = 0%nat /\
   saves (during combined w) = [("combined_map.html", create_map)]) /\
  (fst (highlighted w) = Ok tt /\
   ncalls (during highlighted w) = 0%nat /\
   saves (during highlighted w) = [("highlighted_map.html", create_map)]).
Proof.
  intros K H Hb combined highlighted. split.
  - subst combined.
    destruct (combined_csv_ledger g df batch_size w Hb)
      as (r & evs & anns & E & Sv & N & _ & _ & Z0 & _).
    rewrite (missing_column_rows df key K H) in N.
    destruct (Z0 (missing_column_rows df key K H)) as (-> & ->).
    rewrite (during_run _ _ _ _ _ E), E.
    destruct (run_totals df "combined_map.html" (Ok tt) evs
                         (adds [] create_map)) as (-> & _ & ->); auto.
    rewrite adds_nil. repeat split. lia.
  - subst highlighted.
    assert (H5 : ~ In key (columns (iloc_step df 5))) by exact H.
    destruct (highlighted_csv_ledger g df batch_size w Hb)
      as (r & evs & anns & E & Sv & N & _ & _ & Z0 & _).
    rewrite (missing_column_rows _ key K H5) in N.
    destruct (Z0 (missing_column_rows _ key K H5)) as (-> & ->).
    rewrite (during_run _ _ _ _ _ E), E.
    destruct (run_totals df "highlighted_map.html" (Ok tt) evs
                         (adds [] create_map)) as (-> & _ & ->); auto.
    rewrite adds_nil. repeat split. lia.
Qed.

Lemma tame_run_annotates_the_complete_rows_witness :
  let wc := snd (Combined.process_csv flaky_then_down six_sites 4 fresh) in
  let wh := snd (Highlighted.process_csv flaky_then_down six_sites 4 fresh) in
  (fst (Combined.process_csv flaky_then_down six_sites 4 fresh) = Ok tt /\
   map location_of (children (map_obj wc))
     = map coords_of (filter complete (iterrows six_sites)) /\
   forallb is_marker (children (map_obj wc)) = true) /\
  (fst (Highlighted.process_csv flaky_then_down six_sites 4 fresh) = Ok tt /\
   children (map_obj wh)
     = flat_map (fun row => circles_at (coords_of row))
                (filter complete (iterrows (iloc_step six_sites 5)))).
Proof.
  apply (tame_run_annotates_the_complete_rows flaky_then_down six_sites 4
                                              fresh).
  - intros [|n] c t; exact I.
  - reflexivity.
Defined.

Lemma missing_column_blank_map_witness :
  let combined := Combined.process_csv over_quota no_latitude_frame 100 in
  let highlighted := Highlighted.process_csv over_quota no_latitude_frame 100 in
  (fst (combined fresh) = Ok tt /\
   ncalls (during combined fresh) = 0%nat /\
   saves (during combined fresh) = [("combined_map.html", create_map)]) /\
  (fst (highlighted fresh) = Ok tt /\
   ncalls (during highlighted fresh) = 0%nat /\
   saves (during highlighted fresh) = [("highlighted_map.html", create_map)]).
Proof.
  apply (missing_column_blank_map over_quota no_latitude_frame 100 fresh
                                  "latitude").
  - simpl. auto.
  - simpl. intros [H|[H|[]]]; discriminate.
  - reflexivity.
Defined.

(** ** Exceptions of the service inside a row *)

(** The first request of a lookup raises what the helper does not catch. *)
Lemma retry_first_raise (g : Geolocator) (c : cell * cell) (w : world)
    (e : exn) :
  unhandled_by_helper e ->
  g (ncalls (trace w)) c default_timeout = Raises e ->
  reverse_geocode_with_retry g c default_retries default_timeout w
    = (Raise e, log [EvReverse c default_timeout] w).
Proof.
  intros U G. unfold reverse_geocode_with_retry, retry_loop. simpl.
  unfold bind at 1. unfold bind at 1. rewrite attempt_body_eq, G.
  destruct e; simpl in U; try contradiction; reflexivity.
Qed.

(** X11. The [except KeyError] of the row loops also covers the lookup: when
    the service itself raises a [KeyError] on the request of a row that has
    its three fields, both scripts report a missing column, add nothing to
    the map and end the row normally, so the run goes on. *)
Theorem key_error_of_the_service_is_taken_for_a_missing_column
    (g : Geolocator) (row : Series) (w : world) (key : string) :
  complete row = true ->
  g (ncalls (trace w)) (coords_of row) default_timeout
    = Raises (KeyError key) ->
  let after := log [EvReverse (coords_of row) default_timeout;
                    EvPrint (MsgColumnNotFound (KeyError key))] w in
  Combined.process_row g row w = (Ok tt, after) /\
  Highlighted.process_row g row w = (Ok tt, after) /\
  map_obj after = map_obj w.
Proof.
  intros C G after.
  pose proof (retry_first_raise g (coords_of row) w (KeyError key) I G) as R.
  rewrite (combined_row_raised g row w _ _ C R).
  rewrite (highlighted_row_raised g row w _ _ C R).
  repeat split.
Qed.

(** X12. An [IndexError] of the service is where the two row loops part:
    the highlighted-map script has a clause for it, prints its line and
    goes on to the next row; the combined-map script has none, so the
    exception leaves the row loop.  Neither adds anything to the map. *)
Theorem index_error_of_the_service_parts_the_scripts
    (g : Geolocator) (row : Series) (w : world) (msg : string) :
  complete row = true ->
  g (ncalls (trace w)) (coords_of row) default_timeout
    = Raises (IndexError msg) ->
  let asked := log [EvReverse (coords_of row) default_timeout] w in
  Combined.process_row g row w = (Raise (IndexError msg), asked) /\
  Highlighted.process_row g row w
    = (Ok tt, log [EvPrint (MsgIndexError (IndexError msg))] asked) /\
  map_obj asked = map_obj w.
Proof.
  intros C G asked.
  pose proof (retry_first_raise g (coords_of row) w (IndexError msg) I G) as R.
  rewrite (combined_row_raised g row w _ _ C R).
  rewrite (highlighted_row_raised g row w _ _ C R).
  subst asked. rewrite log_log. repeat split.
Qed.

Lemma key_error_of_the_service_is_taken_for_a_missing_column_witness :
  let after := log [EvReverse (coords_of site_a) default_timeout;
                    EvPrint (MsgColumnNotFound (KeyError "display_name"))]
                   fresh in
  Combined.process_row key_error_inside site_a fresh = (Ok tt, after) /\
  Highlighted.process_row key_error_inside site_a fresh = (Ok tt, after) /\
  map_obj after = map_obj fresh.
Proof.
  apply (key_error_of_the_service_is_taken_for_a_missing_column
           key_error_inside site_a fresh "display_name").
  - reflexivity.
  - reflexivity.
Defined.

Lemma index_error_of_the_service_parts_the_scripts_witness :
  let asked := log [EvReverse (coords_of site_a) default_timeout] fresh in
  Combined.process_row index_error_inside site_a fresh
    = (Raise (IndexError "list index out of range"), asked) /\
  Highlighted.process_row index_error_inside site_a fresh
    = (Ok tt,
       log [EvPrint (MsgIndexError (IndexError "list index out of range"))]
           asked) /\
  map_obj asked = map_obj fresh.
Proof.
  apply (index_error_of_the_service_parts_the_scripts
           index_error_inside site_a fresh "list index out of range").
  - reflexivity.
  - reflexivity.
Defined.

(** ** The capture map *)

Module CaptureMapFacts.
Import CaptureMap.

(** The nine zone names are all different: a zone has at most one row in
    the table. *)
Lemma zone_rows (name : string) :
  filter (fun z => String.eqb (ZONE z) name) coordinates_data
  = match zone_of name with
    | Some z => [z]
    | None => []
    end.
Proof.
  unfold zone_of, coordinates_data.
  cbn [filter find ZONE].
  repeat match goal with
         | |- context [String.eqb ?a name] =>
             destruct (String.eqb_spec a name) as [<-|_]; [reflexivity|]
         end.
  reflexivity.
Qed.

Lemma combine_map {A B} (l : list A) (f : A -> B) :
  combine l (map f l) = map (fun a => (a, f a)) l.
Proof.
  induction l as [|a l IH]; simpl; [reflexivity|]. now rewrite IH.
Qed.

Lemma has_column_in (cols : list string) (c : string) :
  has_column cols c = true <-> In c cols.
Proof.
  unfold has_column. rewrite existsb_exists. split.
  - intros (x & I & E). apply String.eqb_eq in E. now subst.
  - intros I. exists c. split; [exact I|apply String.eqb_refl].
Qed.

Lemma has_column_out (cols : list string) (c : string) :
  has_column cols c = false <-> ~ In c cols.
Proof.
  rewrite <- has_column_in. now destruct (has_column cols c).
Qed.

Lemma assign_in (c x : string) (cols : list string) :
  In x (assign c cols) <-> x = c \/ In x cols.
Proof.
  unfold assign. destruct (has_column cols c) eqn:H.
  - apply has_column_in in H. split; [auto|]. now intros [->|].
  - rewrite in_app_iff. simpl. intuition.
Qed.

(** The rows of [data_df], one for each row of the file. *)
Lemma data_rows_of (f : csv_file) :
  data_rows (data_df_of f)
  = map (fun r =>
           {| ZONE_NAME := Capture.ZONE_NAME r;
              DATE_CAPTURED := Capture.DATE_CAPTURED r;
              YEAR := Capture.YEAR r;
              YEAR_TOTAL := option_map (captures_in_year (csv_rows f))
                              (year_named (csv_rows f) (Capture.ZONE_NAME r)) |})
        (csv_rows f).
Proof.
  unfold data_df_of. cbn [data_rows].
  rewrite CaptureFacts.year_total_eq, combine_map, map_map. reflexivity.
Qed.

Lemma number_column_text (rows : list data_row) (d : data_row) (s : string) :
  In d rows -> ZONE_NAME d = Capture.Text s -> number_column rows = false.
Proof.
  intros I E. unfold number_column. destruct rows as [|d0 rows]; [reflexivity|].
  apply not_true_is_false. intros H.
  rewrite forallb_forall in H. specialize (H d I). now rewrite E in H.
Qed.

Lemma number_column_numbers (rows : list data_row) :
  rows <> [] ->
  (forall d s, In d rows -> ZONE_NAME d <> Capture.Text s) ->
  number_column rows = true.
Proof.
  intros N H. unfold number_column. destruct rows as [|d0 rows]; [congruence|].
  apply forallb_forall. intros d I. specialize (H d).
  destruct (ZONE_NAME d) as [s| |]; [|reflexivity|reflexivity].
  now destruct (H s I).
Qed.

(** The row loop, when no lookup fails and when one does. *)
Lemma loop_all_found (fmt : Z -> string) (cols : list string)
    (rows : list (data_row * zone_row)) (acc : list marker * list event) :
  missing_key cols = None ->
  fold_left (loop_body fmt cols) rows acc
  = (fst acc ++ map (marker_of fmt) rows, snd acc).
Proof.
  intros H. revert acc. induction rows as [|row rows IH]; intros acc; simpl.
  - rewrite app_nil_r. now destruct acc.
  - rewrite IH. unfold loop_body. rewrite H. simpl.
    now rewrite <- app_assoc.
Qed.


(** The columns of the frame that [create_map] merges. *)
Lemma merged_has_kept (cols : list string) (key : string) :
  In key cols -> has_column ["LATITUDE"; "LONGITUDE"]%string key = false ->
  has_column (merged_names cols) key = true.
Proof.
  intros I H. apply has_column_in. unfold merged_names.
  apply in_or_app. left. apply in_map_iff. exists key. now rewrite H.
Qed.

Lemma suffixed_is_not (cols : list string) (key : string) :
  key = "LATITUDE"%string \/ key = "LONGITUDE"%string ->
  ~ In key (map (fun c => if has_column ["LATITUDE"; "LONGITUDE"]%string c
                          then (c ++ "_x")%string else c) cols).
Proof.
  intros K I. apply in_map_iff in I. destruct I as (c & E & _).
  destruct (has_column _ c) eqn:H.
  - apply has_column_in in H.
    destruct H as [<-|[<-|[]]]; destruct K as [->| ->]; discriminate.
  - apply has_column_out in H. apply H. subst c.
    destruct K as [->| ->]; simpl; auto.
Qed.

Lemma merged_has_coordinate (cols : list string) (key : string) :
  key = "LATITUDE"%string \/ key = "LONGITUDE"%string ->
  has_column (merged_names cols) key = negb (has_column cols key).
Proof.
  intros K. apply eq_true_iff_eq.
  rewrite negb_true_iff, has_column_in, has_column_out.
  unfold merged_names. rewrite in_app_iff. split.
  - intros [I|I]; [now apply suffixed_is_not in I|].
    cbn [map In] in I. intros J. apply has_column_in in J.
    destruct K as [->| ->]; rewrite J in I;
      repeat match type of I with
             | context [has_column cols ?k] => destruct (has_column cols k)
             end;
      simpl in I; intuition discriminate.
  - intros N. right. apply has_column_out in N. cbn [map In].
    destruct K as [->| ->]; rewrite N; auto.
Qed.

Lemma data_has (cols : list string) (key : string) :
  key = "LATITUDE"%string \/ key = "LONGITUDE"%string ->
  has_column (assign "YEAR_TOTAL" (assign "YEAR" cols)) key
  = has_column cols key.
Proof.
  intros K. apply eq_true_iff_eq. rewrite !has_column_in, !assign_in.
  destruct K as [->| ->]; intuition discriminate.
Qed.

(** Which of the four lookups fails, by the header of the file. *)
Lemma missing_key_of (f : csv_file) :
  In "ZONE_NAME"%string (csv_columns f) ->
  missing_key (merged_names (data_columns (data_df_of f)))
  = if has_column (csv_columns f) "LATITUDE" then Some "LATITUDE"%string
    else if has_column (csv_columns f) "LONGITUDE" then Some "LONGITUDE"%string
    else None.
Proof.
  intros Z. unfold data_df_of. cbn [data_columns].
  unfold missing_key. cbn [find].
  rewrite (merged_has_kept _ "ZONE_NAME"),
          (merged_has_kept _ "YEAR_TOTAL"); try reflexivity.
  - cbn [negb].
    rewrite (merged_has_coordinate _ "LATITUDE"),
            (merged_has_coordinate _ "LONGITUDE") by auto.
    rewrite !data_has by auto.
    destruct (has_column (csv_columns f) "LATITUDE"); [reflexivity|].
    destruct (has_column (csv_columns f) "LONGITUDE"); reflexivity.
  - rewrite !assign_in. auto.
  - rewrite !assign_in. auto.
Qed.

(** The rows of the merged frame and their markers, when the total of a
    zone with a text name is NaN. *)
Lemma merged_rows_of (rows : list Capture.capture)
    (tot : Capture.zone -> option Z) :
  flat_map (fun d =>
              match ZONE_NAME d with
              | Capture.Text s =>
                  map (fun z => (d, z))
                      (filter (fun z => String.eqb (ZONE z) s)
                              coordinates_data)
              | _ => []
              end)
           (map (fun r =>
                   {| ZONE_NAME := Capture.ZONE_NAME r;
                      DATE_CAPTURED := Capture.DATE_CAPTURED r;
                      YEAR := Capture.YEAR r;
                      YEAR_TOTAL := tot (Capture.ZONE_NAME r) |}) rows)
  = flat_map (fun r =>
                match Capture.ZONE_NAME r with
                | Capture.Text s =>
                    match zone_of s with
                    | Some z =>
                        [({| ZONE_NAME := Capture.Text s;
                             DATE_CAPTURED := Capture.DATE_CAPTURED r;
                             YEAR := Capture.YEAR r;
                             YEAR_TOTAL := tot (Capture.Text s) |}, z)]
                    | None => []
                    end
                | _ => []
                end)
             rows.
Proof.
  induction rows as [|r rows IH]; [reflexivity|].
  cbn [map flat_map]. rewrite IH. f_equal. cbn [ZONE_NAME].
  destruct (Capture.ZONE_NAME r) as [s|q|]; try reflexivity.
  rewrite zone_rows. now destruct (zone_of s).
Qed.

Lemma map_flat_map {A B C} (f : B -> C) (g : A -> list B) (l : list A) :
  map f (flat_map g l) = flat_map (fun a => map f (g a)) l.
Proof.
  induction l as [|a l IH]; simpl; [reflexivity|].
  now rewrite map_app, IH.
Qed.

(** The script on a file that has the two columns it reads and a zone
    column of text: it gets to the end of [create_map]. *)
Lemma script_of_text_file (fmt : Z -> string) (f : csv_file) :
  In "DATE_CAPTURED"%string (csv_columns f) ->
  In "ZONE_NAME"%string (csv_columns f) ->
  (exists r s, In r (csv_rows f) /\ Capture.ZONE_NAME r = Capture.Text s) ->
  let cols := merged_names (data_columns (data_df_of f)) in
  let rows :=
    flat_map (fun r =>
                match Capture.ZONE_NAME r with
                | Capture.Text s =>
                    match zone_of s with
                    | Some z =>
                        [({| ZONE_NAME := Capture.Text s;
                             DATE_CAPTURED := Capture.DATE_CAPTURED r;
                             YEAR := Capture.YEAR r;
                             YEAR_TOTAL := None |}, z)]
                    | None => []
                    end
                | _ => []
                end)
             (csv_rows f) in
  let done := fold_left (loop_body fmt cols) rows ([], []) in
  script fmt f
  = (Ok tt,
     [EvCsvColumns (csv_columns f); EvColumns cols]
     ++ snd done
     ++ [EvSave "crocodile_capture_map.html" ((-12.4634)%Q, 130.8456%Q) 6
                (fst done);
         EvSaved "crocodile_capture_map.html"]).
Proof.
  intros Hd Hz (r & s & I & T) cols rows done.
  unfold script.
  rewrite (proj2 (has_column_in _ _) Hd), (proj2 (has_column_in _ _) Hz).
  cbn [negb]. unfold create_map, merge.
  assert (N : number_column (data_rows (data_df_of f)) = false).
  { rewrite data_rows_of.
    eapply number_column_text; [apply in_map, I|]. exact T. }
  rewrite N. cbn [andb merged_columns merged_rows fst snd].
  rewrite data_rows_of.
  rewrite (merged_rows_of (csv_rows f)
             (fun z => option_map (captures_in_year (csv_rows f))
                                  (year_named (csv_rows f) z))).
  reflexivity.
Qed.





(** X13. Of a capture file whose zone names are text, that has at least one
    capture with both its zone and its date, and that brings no LATITUDE or
    LONGITUDE column of its own: the script ends normally and saves its map
    once; the map has, in the order of the captures, one marker for each
    capture whose zone is one of the nine of the table, at the coordinates
    of that zone, and none for a capture from any other zone or without a
    zone.  Every marker is blue and its popup reads "Total Captures: nan":
    the red icon for more than 50 captures never shows. *)
Theorem capture_map_is_all_blue (fmt : Z -> string) (f : csv_file) :
  In "DATE_CAPTURED"%string (csv_columns f) ->
  In "ZONE_NAME"%string (csv_columns f) ->
  ~ In "LATITUDE"%string (csv_columns f) ->
  ~ In "LONGITUDE"%string (csv_columns f) ->
  (exists r s, In r (csv_rows f) /\ Capture.ZONE_NAME r = Capture.Text s) ->
  existsb Capture.grouped (csv_rows f) = true ->
  fst (script fmt f) = Ok tt /\
  saved_files (snd (script fmt f)) = ["crocodile_capture_map.html"%string] /\
  missing_keys (snd (script fmt f)) = [] /\
  saved_markers (snd (script fmt f))
  = flat_map
      (fun r =>
         match Capture.ZONE_NAME r with
         | Capture.Text s =>
             match zone_of s with
             | Some z =>
                 [{| location := (LATITUDE z, LONGITUDE z);
                     popup := "Zone: " ++ ZONE z
                              ++ "<br>Total Captures: nan";
                     icon_color := "blue" |}]
             | None => []
             end
         | _ => []
         end%string)
      (csv_rows f).
Proof.
  intros Hd Hz Hlat Hlon T _.
  rewrite (script_of_text_file fmt f Hd Hz T). cbn [fst snd].
  rewrite loop_all_found.
  - cbn [fst snd app]. split; [reflexivity|]. split; [reflexivity|].
    split; [reflexivity|].
    unfold saved_markers. cbn [flat_map]. rewrite app_nil_r.
    rewrite map_flat_map. apply flat_map_ext. intros r.
    destruct (Capture.ZONE_NAME r) as [s|q|]; try reflexivity.
    now destruct (zone_of s).
  - rewrite (missing_key_of f Hz).
    apply has_column_out in Hlat, Hlon. now rewrite Hlat, Hlon.
Qed.

(** X20. A capture file that numbers its zones (no zone name in it is text)
    stops the script: [pd.merge] will not join the numbers with the names
    of the table, the [ValueError] gets out of [create_map], and nothing is
    printed after the columns of the file and no map is saved. *)
Theorem numbered_zones_stop_the_capture_script (fmt : Z -> string)
    (f : csv_file) :
  In "DATE_CAPTURED"%string (csv_columns f) ->
  In "ZONE_NAME"%string (csv_columns f) ->
  (forall r s, In r (csv_rows f) -> Capture.ZONE_NAME r <> Capture.Text s) ->
  existsb Capture.grouped (csv_rows f) = true ->
  (exists msg, fst (script fmt f) = Raise (ValueError msg)) /\
  snd (script fmt f) = [EvCsvColumns (csv_columns f)] /\
  saved_files (snd (script fmt f)) = [].
Proof.
  intros Hd Hz N G.
  assert (E : script fmt f
              = (Raise (ValueError "You are trying to merge on number and object columns for key 'ZONE_NAME'"),
                 [EvCsvColumns (csv_columns f)])).
  { unfold script.
    rewrite (proj2 (has_column_in _ _) Hd), (proj2 (has_column_in _ _) Hz).
    cbn [negb]. unfold create_map, merge.
    rewrite number_column_numbers.
    - reflexivity.
    - rewrite data_rows_of. destruct (csv_rows f); [discriminate|].
      discriminate.
    - rewrite data_rows_of. intros d s I. apply in_map_iff in I.
      destruct I as (r & <- & I). cbn [ZONE_NAME]. now apply N. }
  rewrite E. cbn [fst snd]. split; [eauto|]. split; reflexivity.
Qed.


End CaptureMapFacts.

Lemma capture_map_is_all_blue_witness :
  let f := three_captures_file in
  let run := CaptureMap.script (fun _ => "2"%string) f in
  fst run = Ok tt /\
  CaptureMap.saved_files (snd run) = ["crocodile_capture_map.html"%string] /\
  CaptureMap.missing_keys (snd run) = [] /\
  CaptureMap.saved_markers (snd run)
  = flat_map
      (fun r =>
         match Capture.ZONE_NAME r with
         | Capture.Text s =>
             match CaptureMap.zone_of s with
             | Some z =>
                 [{| CaptureMap.location :=
                       (CaptureMap.LATITUDE z, CaptureMap.LONGITUDE z);
                     CaptureMap.popup := "Zone: " ++ CaptureMap.ZONE z
                                         ++ "<br>Total Captures: nan";
                     CaptureMap.icon_color := "blue" |}]
             | None => []
             end
         | _ => []
         end%string)
      (CaptureMap.csv_rows f).
Proof.
  apply (CaptureMapFacts.capture_map_is_all_blue (fun _ => "2"%string)
           three_captures_file).
  - simpl. auto.
  - simpl. auto.
  - simpl. intuition discriminate.
  - simpl. intuition discriminate.
  - exists (Capture.mkCapture (Capture.Text "Shoal Bay")
                              (Some (Capture.mkDate 2019 3 14))),
           "Shoal Bay"%string.
    split; [now left|reflexivity].
  - reflexivity.
Defined.

Lemma numbered_zones_stop_the_capture_script_witness :
  let run := CaptureMap.script (fun _ => "2"%string) numbered_file in
  (exists msg, fst run = Raise (ValueError msg)) /\
  snd run = [CaptureMap.EvCsvColumns (CaptureMap.csv_columns numbered_file)] /\
  CaptureMap.saved_files (snd run) = [].
Proof.
  apply (CaptureMapFacts.numbered_zones_stop_the_capture_script
           (fun _ => "2"%string) numbered_file).
  - simpl. auto.
  - simpl. auto.
  - intros r s I. simpl in I.
    destruct I as [<-|[<-|[<-|[]]]]; discriminate.
  - reflexivity.
Defined.


(** ** More on whole runs *)

(** X15. A run that ends normally has asked the service at least once for
    every row that has its three fields: in the combined-map script for
    every such row of the frame, in the highlighted-map script for every
    such sampled row, although nothing of the answer reaches its map. *)
Theorem completed_run_asked_for_every_row (g : Geolocator) (df : DataFrame)
    (batch_size : Z) (w : world) :
  0 < batch_size ->
  (fst (Combined.process_csv g df batch_size w) = Ok tt ->
   (load (iterrows df)
    <= ncalls (during (Combined.process_csv g df batch_size) w))%nat) /\
  (fst (Highlighted.process_csv g df batch_size w) = Ok tt ->
   (load (iterrows (iloc_step df 5))
    <= ncalls (during (Highlighted.process_csv g df batch_size) w))%nat).
Proof.
  intros Hb. split; intros R.
  - destruct (combined_csv_ledger g df batch_size w Hb)
      as (r & evs & anns & E & _ & _ & _ & _ & _ & _ & A).
    rewrite E in R. simpl in R.
    rewrite (during_run _ _ _ _ _ E).
    destruct (run_totals df "combined_map.html" r evs (adds anns create_map))
      as (-> & _). auto.
  - destruct (highlighted_csv_ledger g df batch_size w Hb)
      as (r & evs & anns & E & _ & _ & _ & _ & _ & _ & A).
    rewrite E in R. simpl in R.
    rewrite (during_run _ _ _ _ _ E).
    destruct (run_totals df "highlighted_map.html" r evs
                         (adds anns create_map)) as (-> & _). auto.
Qed.

Lemma completed_run_asked_for_every_row_witness :
  (fst (Combined.process_csv slow_then_found six_sites 4 fresh) = Ok tt ->
   (load (iterrows six_sites)
    <= ncalls (during (Combined.process_csv slow_then_found six_sites 4)
                      fresh))%nat) /\
  (fst (Highlighted.process_csv slow_then_found six_sites 4 fresh) = Ok tt ->
   (load (iterrows (iloc_step six_sites 5))
    <= ncalls (during (Highlighted.process_csv slow_then_found six_sites 4)
                      fresh))%nat).
Proof.
  apply (completed_run_asked_for_every_row slow_then_found six_sites 4 fresh).
  reflexivity.
Defined.

Lemma header_run (df : DataFrame) (w : world) (evs : list event) (doc : Map) :
  {| trace := (((trace w ++ [EvPrint (MsgColumns (columns df))])
                ++ [EvPrint MsgFirstRows])
               ++ [EvPrint (MsgHead (head df))]) ++ evs;
     map_obj := doc |}
  = {| trace := trace w ++ header df ++ evs; map_obj := doc |}.
Proof.
  unfold header. simpl. now rewrite <- !app_assoc.
Qed.

(** X16. A batch size that is not positive, in either script and whatever
    the frame and the service: no row is read and no request is sent.  With
    a batch size of 0 the run stops on a [ValueError] before anything is
    written; with a negative one it ends normally and writes the blank
    map. *)
Theorem nonpositive_batch_size_reads_no_row (g : Geolocator)
    (df : DataFrame) (batch_size : Z) (w : world) :
  batch_size <= 0 ->
  let combined := Combined.process_csv g df batch_size in
  let highlighted := Highlighted.process_csv g df batch_size in
  let stop := Raise (ValueError "range() arg 3 must not be zero") in
  (ncalls (during combined w) = 0%nat /\
   skeleton (during combined w)
     = map (fun p => Saved (fst p) (snd p)) (saves (during combined w)) /\
   fst (combined w) = (if batch_size =? 0 then stop else Ok tt) /\
   saves (during combined w)
     = (if batch_size =? 0 then []
        else [("combined_map.html", create_map)])) /\
  (ncalls (during highlighted w) = 0%nat /\
   skeleton (during highlighted w)
     = map (fun p => Saved (fst p) (snd p)) (saves (during highlighted w)) /\
   fst (highlighted w) = (if batch_size =? 0 then stop else Ok tt) /\
   saves (during highlighted w)
     = (if batch_size =? 0 then []
        else [("highlighted_map.html", create_map)])).
Proof.
  intros Hb combined highlighted stop.
  destruct (batch_size =? 0) eqn:E0.
  - assert (C : combined w
                = (stop, {| trace := trace w ++ header df ++ [];
                            map_obj := create_map |})).
    { subst combined. rewrite <- header_run.
      unfold Combined.process_csv, bind, print, emit, update_map, lift, range3.
      rewrite E0. simpl. now rewrite app_nil_r. }
    assert (H : highlighted w
                = (stop, {| trace := trace w ++ header df ++ [];
                            map_obj := create_map |})).
    { subst highlighted. rewrite <- header_run.
      unfold Highlighted.process_csv, bind, print, emit, update_map, lift,
        range3.
      rewrite E0. simpl. now rewrite app_nil_r. }
    rewrite (during_run _ _ _ _ _ C), (during_run _ _ _ _ _ H), C, H.
    repeat split.
  - apply Z.eqb_neq in E0.
    assert (L : (batch_size <? 0) = true) by (apply Z.ltb_lt; lia).
    assert (C : combined w
                = (Ok tt,
                   {| trace := trace w ++ header df
                               ++ [EvSave "combined_map.html" create_map;
                                   EvPrint (MsgSaved "combined_map.html")];
                      map_obj := create_map |})).
    { subst combined. rewrite <- header_run.
      unfold Combined.process_csv, bind, print, emit, update_map, lift, range3,
        save, emit.
      apply Z.eqb_neq in E0. rewrite E0, L. simpl.
      now rewrite <- !app_assoc. }
    assert (H : highlighted w
                = (Ok tt,
                   {| trace := trace w ++ header df
                               ++ [EvSave "highlighted_map.html" create_map;
                                   EvPrint (MsgSaved "highlighted_map.html")];
                      map_obj := create_map |})).
    { subst highlighted. rewrite <- header_run.
      unfold Highlighted.process_csv, bind, print, emit, update_map, lift,
        range3, save, emit.
      apply Z.eqb_neq in E0. rewrite E0, L. simpl.
      now rewrite <- !app_assoc. }
    rewrite (during_run _ _ _ _ _ C), (during_run _ _ _ _ _ H), C, H.
    repeat split.
Qed.

Lemma nonpositive_batch_size_reads_no_row_witness :
  let combined := Combined.process_csv always_found six_sites (-4) in
  let highlighted := Highlighted.process_csv always_found six_sites (-4) in
  let stop := Raise (ValueError "range() arg 3 must not be zero") in
  (ncalls (during combined fresh) = 0%nat /\
   skeleton (during combined fresh)
     = map (fun p => Saved (fst p) (snd p)) (saves (during combined fresh)) /\
   fst (combined fresh) = (if -4 =? 0 then stop else Ok tt) /\
   saves (during combined fresh)
     = (if -4 =? 0 then [] else [("combined_map.html", create_map)])) /\
  (ncalls (during highlighted fresh) = 0%nat /\
   skeleton (during highlighted fresh)
     = map (fun p => Saved (fst p) (snd p))
           (saves (during highlighted fresh)) /\
   fst (highlighted fresh) = (if -4 =? 0 then stop else Ok tt) /\
   saves (during highlighted fresh)
     = (if -4 =? 0 then [] else [("highlighted_map.html", create_map)])).
Proof.
  apply (nonpositive_batch_size_reads_no_row always_found six_sites (-4)
                                             fresh).
  lia.
Defined.

(** X17. For a positive batch size B, the chunk numbered i (from 0) of a
    frame of N rows holds min(B, N - i B) rows: every chunk but the last
    is full, and the last holds what is left. *)
Theorem chunk_sizes (df : DataFrame) (batch_size : Z) (i : nat)
    (c : list (list cell)) :
  0 < batch_size ->
  nth_error (chunks df batch_size) i = Some c ->
  Z.of_nat (length c) = Z.min batch_size (len df - Z.of_nat i * batch_size) /\
  c = firstn (Z.to_nat batch_size)
             (skipn (i * Z.to_nat batch_size) (data df)).
Proof.
  intros Hb H. rewrite chunks_eq in H by assumption.
  rewrite nth_error_map, nth_error_seq in H.
  destruct (i <? Z.to_nat (ceil_div (len df) batch_size))%nat eqn:B;
    [|discriminate].
  apply Nat.ltb_lt in B. cbn [option_map Nat.add] in H.
  injection H as <-. split; [|reflexivity].
  pose proof (ceil_div_spec (len df) batch_size Hb) as S. unfold len in *.
  rewrite length_firstn, length_skipn. nia.
Qed.

Lemma chunk_sizes_witness :
  Z.of_nat (length (skipn 4 (data six_sites)))
    = Z.min 4 (len six_sites - Z.of_nat 1 * 4) /\
  skipn 4 (data six_sites)
    = firstn (Z.to_nat 4) (skipn (1 * Z.to_nat 4) (data six_sites)).
Proof.
  apply (chunk_sizes six_sites 4 1 (skipn 4 (data six_sites))).
  - lia.
  - reflexivity.
Defined.

(** ** A row and the answer to its lookup *)

Section RowAnswers.

Variable g : Geolocator.
Variable row : Series.
Variable w : world.

(** The lookup of a row with the default arguments, after [k] timeouts. *)
Lemma lookup_answered (k : nat) (location : option Location) :
  (k < 3)%nat ->
  (forall j, (j < k)%nat ->
     g (ncalls (trace w) + j)%nat (coords_of row) default_timeout
       = Raises GeocoderTimedOut) ->
  g (ncalls (trace w) + k)%nat (coords_of row) default_timeout
    = Returns location ->
  reverse_geocode_with_retry g (coords_of row) default_retries
                             default_timeout w
  = (Ok location,
     log (timed_out_attempts (coords_of row) default_timeout 0 k
          ++ [EvReverse (coords_of row) default_timeout]) w).
Proof.
  intros Hk Ht Ha.
  unfold reverse_geocode_with_retry. unfold bind at 1.
  rewrite (retry_loop_after g (coords_of row) default_timeout
                            default_retries k w)
    by (auto; unfold default_retries; lia).
  unfold bind at 1. rewrite attempt_body_eq, ncalls_log,
    timed_out_attempts_ncalls, Ha, log_log.
  now destruct location.
Qed.

Lemma lookup_exhausted :
  (forall j, (j < 3)%nat ->
     g (ncalls (trace w) + j)%nat (coords_of row) default_timeout
       = Raises GeocoderTimedOut) ->
  reverse_geocode_with_retry g (coords_of row) default_retries
                             default_timeout w
  = (Ok None,
     log (timed_out_attempts (coords_of row) default_timeout 0 3) w).
Proof.
  intros Ht.
  unfold reverse_geocode_with_retry. unfold bind at 1. rewrite range_seq.
  change (Z.to_nat default_retries) with 3%nat.
  rewrite (retry_loop_timeouts g (coords_of row) default_timeout 0 3 3 w)
    by auto.
  reflexivity.
Qed.

(** X18. A row of the combined-map script that has its three fields, and a
    service that finds a location, at once or after one or two timeouts:
    the row gets one marker, at its coordinates, whose popup is "Address: "
    followed by the address the service gave, at the price of one request
    more than there were timeouts. *)
Theorem found_address_is_on_the_marker (k : nat) (location : Location) :
  complete row = true ->
  (k < 3)%nat ->
  (forall j, (j < k)%nat ->
     g (ncalls (trace w) + j)%nat (coords_of row) default_timeout
       = Raises GeocoderTimedOut) ->
  g (ncalls (trace w) + k)%nat (coords_of row) default_timeout
    = Returns (Some location) ->
  let marker :=
    Marker (coords_of row)
           {| html := "Address: " ++ address location; max_width := 300 |} in
  fst (Combined.process_row g row w) = Ok tt /\
  children (map_obj (snd (Combined.process_row g row w)))
    = children (map_obj w) ++ [marker] /\
  ncalls (during (Combined.process_row g row) w) = (k + 1)%nat.
Proof.
  intros C Hk Ht Ha marker.
  pose proof (lookup_answered k (Some location) Hk Ht Ha) as R.
  pose proof (combined_row_annotated g row w _ _ C R) as P.
  rewrite (during_extend _ _ _ _ _ P), P. simpl fst. simpl snd.
  rewrite children_extend, !ncalls_app, timed_out_attempts_ncalls.
  repeat split. cbn. lia.
Qed.

(** X19. A row of the combined-map script that has its three fields, and a
    lookup that comes back empty-handed without the service being
    unavailable: the service answered that it found nothing, at once or
    after one or two timeouts, or all three attempts timed out.  The row
    still gets its marker, with "Address: Address not found" for a popup;
    when all three attempts timed out that took three requests and 7
    time-units of waiting. *)
Theorem no_address_still_a_marker (k : nat) :
  complete row = true ->
  (k <= 3)%nat ->
  (forall j, (j < k)%nat ->
     g (ncalls (trace w) + j)%nat (coords_of row) default_timeout
       = Raises GeocoderTimedOut) ->
  (k < 3)%nat /\
    g (ncalls (trace w) + k)%nat (coords_of row) default_timeout
      = Returns None
  \/ k = 3%nat ->
  fst (Combined.process_row g row w) = Ok tt /\
  children (map_obj (snd (Combined.process_row g row w)))
    = children (map_obj w) ++ [marker_at (coords_of row) "Address not found"] /\
  ncalls (during (Combined.process_row g row) w) = Nat.min (k + 1) 3 /\
  slept (during (Combined.process_row g row) w) = 2 ^ Z.of_nat k - 1.
Proof.
  intros C Hk Ht [(K & Ha)| ->].
  - pose proof (lookup_answered k None K Ht Ha) as R.
    pose proof (combined_row_annotated g row w _ _ C R) as P.
    rewrite (during_extend _ _ _ _ _ P), P. simpl fst. simpl snd.
    rewrite children_extend, !ncalls_app, !slept_app,
      timed_out_attempts_ncalls, timed_out_attempts_slept.
    repeat split; cbn; lia.
  - pose proof (lookup_exhausted Ht) as R.
    pose proof (combined_row_annotated g row w _ _ C R) as P.
    rewrite (during_extend _ _ _ _ _ P), P. simpl fst. simpl snd.
    rewrite children_extend, !ncalls_app, !slept_app,
      timed_out_attempts_ncalls, timed_out_attempts_slept.
    repeat split.
Qed.

End RowAnswers.

Lemma found_address_is_on_the_marker_witness :
  let marker :=
    Marker (coords_of site_a)
           {| html := "Address: "
                      ++ address {| address := "123 Example Rd" |};
              max_width := 300 |} in
  fst (Combined.process_row slow_then_found site_a fresh) = Ok tt /\
  children (map_obj (snd (Combined.process_row slow_then_found site_a fresh)))
    = children (map_obj fresh) ++ [marker] /\
  ncalls (during (Combined.process_row slow_then_found site_a) fresh)
    = (2 + 1)%nat.
Proof.
  apply (found_address_is_on_the_marker slow_then_found site_a fresh 2
           {| address := "123 Example Rd" |}).
  - reflexivity.
  - lia.
  - intros [|[|j]] Hj; try reflexivity. lia.
  - reflexivity.
Defined.

Lemma no_address_still_a_marker_witness :
  fst (Combined.process_row always_timing_out site_a fresh) = Ok tt /\
  children (map_obj (snd (Combined.process_row always_timing_out site_a
                                               fresh)))
    = children (map_obj fresh)
      ++ [marker_at (coords_of site_a) "Address not found"] /\
  ncalls (during (Combined.process_row always_timing_out site_a) fresh)
    = Nat.min (3 + 1) 3 /\
  slept (during (Combined.process_row always_timing_out site_a) fresh)
    = 2 ^ Z.of_nat 3 - 1.
Proof.
  apply (no_address_still_a_marker always_timing_out site_a fresh 3).
  - reflexivity.
  - lia.
  - intros j Hj. reflexivity.
  - right. reflexivity.
Defined.

(** ** A missing column, and a cell left empty *)

(** In a frame without one of the three columns no row has its three
    fields. *)
Lemma missing_column_row (df : DataFrame) (key : string) (row : Series) :
  In key ["name"; "latitude"; "longitude"]%string ->
  ~ In key (columns df) ->
  In row (iterrows df) ->
  complete row = false.
Proof.
  intros K H I. unfold iterrows in I.
  apply in_map_iff in I. destruct I as (vals & <- & _).
  assert (A : getitem (combine (columns df) vals) key = Raise (KeyError key)).
  { apply getitem_absent. intros I. apply H.
    apply in_map_iff in I. destruct I as ([k v] & <- & I).
    now apply in_combine_l in I. }
  unfold complete, has_field.
  destruct K as [<-|[<-|[<-|[]]]]; rewrite A;
    repeat match goal with
           | |- context [getitem ?r ?k] => destruct (getitem r k)
           end; reflexivity.
Qed.

(** C5, as the scripts have it. When the dataset has no column [name], or
    none called [latitude], or none called [longitude], every one of its
    rows is missing that field: in either script the body of the row loop
    then ends normally after one diagnostic line, with no request sent and
    nothing added to the map, and the loop goes on with the rows that
    follow.  So, for a positive batch size and whatever the service would
    answer, the run deals with all the rows, chunk by chunk, ends normally
    and saves a map with no annotation. *)
Theorem missing_column_rows_are_skipped (g : Geolocator) (df : DataFrame)
    (batch_size : Z) (key : string) :
  In key ["name"; "latitude"; "longitude"]%string ->
  ~ In key (columns df) ->
  0 < batch_size ->
  (forall row rest w,
     In row (iterrows df) ->
     exists missing,
       has_field row missing = false /\
       let skipped :=
         log [EvPrint (MsgColumnNotFound (KeyError missing))] w in
       (Combined.process_row g row w = (Ok tt, skipped) /\
        for_ (row :: rest) (Combined.process_row g) w
          = for_ rest (Combined.process_row g) skipped) /\
       (Highlighted.process_row g row w = (Ok tt, skipped) /\
        for_ (row :: rest) (Highlighted.process_row g) w
          = for_ rest (Highlighted.process_row g) skipped) /\
       map_obj skipped = map_obj w /\
       ncalls (trace skipped) = ncalls (trace w)) /\
  (forall w,
     let combined := Combined.process_csv g df batch_size in
     fst (combined w) = Ok tt /\
     children (map_obj (snd (combined w))) = [] /\
     skeleton (during combined w)
       = chunk_marks (chunks df batch_size)
         ++ [Saved "combined_map.html" create_map]) /\
  (forall w,
     let highlighted := Highlighted.process_csv g df batch_size in
     fst (highlighted w) = Ok tt /\
     children (map_obj (snd (highlighted w))) = [] /\
     skeleton (during highlighted w)
       = chunk_marks (chunks (iloc_step df 5) batch_size)
         ++ [Saved "highlighted_map.html" create_map]).
Proof.
  intros K H Hb. split; [|split].
  - intros row rest w I.
    apply incomplete_row_is_skipped.
    now apply (missing_column_row df key).
  - intros w combined. subst combined.
    destruct (combined_csv_ledger g df batch_size w Hb)
      as (r & evs & anns & E & _ & _ & _ & _ & Z0 & _).
    destruct (Z0 (missing_column_rows df key K H)) as (-> & ->).
    destruct (combined_csv_run g df batch_size w Hb)
      as (r' & evs' & anns' & E' & S & _).
    assert (Q : r' = Ok tt /\ adds anns' create_map = adds [] create_map)
      by (rewrite E in E'; split; congruence).
    destruct Q as (-> & Q).
    rewrite (during_run _ _ _ _ _ E'), E'. simpl fst. simpl snd.
    unfold header. rewrite !skeleton_app, (S eq_refl), Q, adds_nil.
    cbn [map_obj children create_map]. auto.
  - intros w highlighted. subst highlighted.
    assert (H5 : ~ In key (columns (iloc_step df 5))) by exact H.
    destruct (highlighted_csv_ledger g df batch_size w Hb)
      as (r & evs & anns & E & _ & _ & _ & _ & Z0 & _).
    destruct (Z0 (missing_column_rows _ key K H5)) as (-> & ->).
    destruct (highlighted_csv_run g df batch_size w Hb)
      as (r' & evs' & anns' & E' & S & _).
    assert (Q : r' = Ok tt /\ adds anns' create_map = adds [] create_map)
      by (rewrite E in E'; split; congruence).
    destruct Q as (-> & Q).
    rewrite (during_run _ _ _ _ _ E'), E'. simpl fst. simpl snd.
    unfold header. rewrite !skeleton_app, (S eq_refl), Q, adds_nil.
    cbn [map_obj children create_map]. auto.
Qed.

Lemma missing_column_rows_are_skipped_witness :
  (forall row rest w,
     In row (iterrows no_latitude_frame) ->
     exists missing,
       has_field row missing = false /\
       let skipped :=
         log [EvPrint (MsgColumnNotFound (KeyError missing))] w in
       (Combined.process_row over_quota row w = (Ok tt, skipped) /\
        for_ (row :: rest) (Combined.process_row over_quota) w
          = for_ rest (Combined.process_row over_quota) skipped) /\
       (Highlighted.process_row over_quota row w = (Ok tt, skipped) /\
        for_ (row :: rest) (Highlighted.process_row over_quota) w
          = for_ rest (Highlighted.process_row over_quota) skipped) /\
       map_obj skipped = map_obj w /\
       ncalls (trace skipped) = ncalls (trace w)) /\
  (forall w,
     let combined := Combined.process_csv over_quota no_latitude_frame 100 in
     fst (combined w) = Ok tt /\
     children (map_obj (snd (combined w))) = [] /\
     skeleton (during combined w)
       = chunk_marks (chunks no_latitude_frame 100)
         ++ [Saved "combined_map.html" create_map]) /\
  (forall w,
     let highlighted :=
       Highlighted.process_csv over_quota no_latitude_frame 100 in
     fst (highlighted w) = Ok tt /\
     children (map_obj (snd (highlighted w))) = [] /\
     skeleton (during highlighted w)
       = chunk_marks (chunks (iloc_step no_latitude_frame 5) 100)
         ++ [Saved "highlighted_map.html" create_map]).
Proof.
  apply (missing_column_rows_are_skipped over_quota no_latitude_frame 100
                                         "latitude").
  - simpl. auto.
  - simpl. intros [H|[H|[]]]; discriminate.
  - reflexivity.
Defined.

(** C5 as the specification words it fails on a row that has the column but
    nothing in its cell.  A row without a name is annotated like any other:
    one row in, one marker out.  A row without a latitude reaches the
    lookup, and a service that refuses such coordinates stops the run
    there: the row after it is never dealt with and nothing is saved. *)
Lemma empty_cell_row_is_not_skipped :
  (map location_of
       (children (map_obj
          (snd (Combined.process_csv always_found nameless_frame
                                     Combined.default_batch_size fresh))))
     = [(CNum (-12.46), CNum 130.84)] /\
   children (map_obj
      (snd (Combined.process_csv always_found nameless_frame
                                 Combined.default_batch_size fresh)))
     <> []) /\
  (fst (Combined.process_csv finite_only blank_latitude_frame
                             Combined.default_batch_size fresh)
     = Raise (ValueError "Point coordinates must be finite") /\
   skeleton (during (Combined.process_csv finite_only blank_latitude_frame
                                          Combined.default_batch_size)
                    fresh) = [] /\
   fst (Combined.process_csv finite_only blank_latitude_frame
                             Combined.default_batch_size fresh)
     <> Ok tt).
Proof.
  repeat split; try (vm_compute; reflexivity); vm_compute; discriminate.
Qed.

(** ** A failure of the service on the first record *)

Lemma range_up_first (n b : Z) :
  0 < n -> 0 < b -> exists rest, range_up 0 n b = 0 :: rest.
Proof.
  intros Hn Hb. unfold range_up, range_len.
  destruct (0 <? n) eqn:E; [|apply Z.ltb_ge in E; lia].
  assert (D : 0 <= (n - 1 - 0) / b) by (apply Z.div_pos; lia).
  replace (Z.to_nat (1 + (n - 1 - 0) / b))
    with (S (Z.to_nat ((n - 1 - 0) / b))) by lia.
  cbn [seq map]. eexists. reflexivity.
Qed.

Lemma first_row_of_first_batch (df : DataFrame) (b : Z) (row : Series)
    (rest : list Series) :
  0 < b -> iterrows df = row :: rest ->
  exists rest', iterrows (iloc df 0 (Z.min (0 + b) (len df))) = row :: rest'.
Proof.
  intros Hb E. unfold iterrows, iloc, len in *. cbn [columns data].
  destruct (data df) as [|vals rows]; [discriminate|].
  cbn [map] in E. injection E as E _.
  cbn [length skipn Z.to_nat].
  assert (P : exists m,
             Z.to_nat (Z.min (0 + b) (Z.of_nat (S (length rows))) - 0) = S m).
  { exists (Z.to_nat (Z.min (0 + b) (Z.of_nat (S (length rows))) - 0) - 1)%nat.
    lia. }
  destruct P as (m & ->). cbn [firstn map]. rewrite E. eauto.
Qed.

Lemma first_row_of_the_sample (df : DataFrame) (row : Series)
    (rest : list Series) :
  iterrows df = row :: rest ->
  exists rest', iterrows (iloc_step df 5) = row :: rest'.
Proof.
  intros E. unfold iterrows, iloc_step in *. cbn [columns data].
  destruct (data df) as [|vals rows] eqn:D; [discriminate|].
  cbn [map] in E. injection E as E _.
  destruct (range_up_first (len df) 5) as (tl & ->); [|lia|].
  - unfold len. rewrite D. cbn [length]. lia.
  - cbn [flat_map]. unfold pick at 1. cbn [Z.to_nat nth_error app map].
    rewrite E. eauto.
Qed.

Section FirstRecord.

Variable body : Series -> M unit.
Variable file : string.

(** A driver whose row loop fails on the first row of the frame fails with
    it, on a fresh map and before anything else is done. *)
Lemma drive_first_row (df : DataFrame) (batch_size : Z) (w : world)
    (row : Series) (rest : list Series) (e : exn) (evs : list event) :
  0 < batch_size ->
  iterrows df = row :: rest ->
  (forall doc, body row {| trace := trace w; map_obj := doc |}
               = (Raise e, {| trace := trace w ++ evs; map_obj := doc |})) ->
  drive_with body file df batch_size w
  = (Raise e, {| trace := trace w ++ evs; map_obj := create_map |}).
Proof.
  intros Hb E B. unfold drive_with, bind at 1, update_map.
  unfold bind at 1, lift. rewrite (range3_positive _ _ Hb).
  destruct (range_up_first (len df) batch_size) as (starts & ->);
    [|exact Hb|].
  - unfold iterrows, len in *. destruct (data df); [discriminate|].
    cbn [length]. lia.
  - cbn [for_]. unfold bind at 1. unfold bind at 1. unfold batch_with.
    unfold bind at 1.
    destruct (first_row_of_first_batch df batch_size row rest Hb E)
      as (rest' & ->).
    cbn [for_]. unfold bind at 1. cbn [trace map_obj].
    now rewrite (B create_map).
Qed.

End FirstRecord.

(** X8. If the service fails on the request for the first record of the
    file with an exception that neither the helper nor the row loop has a
    clause for, the run is over: for a positive batch size [process_csv]
    ends with that exception right after its one request, no other record
    is looked at, the map is still blank and no file is written.  The
    combined-map script lets through everything but a timeout, an
    unavailable service and a [KeyError]; the highlighted-map script also
    keeps an [IndexError]. *)
Theorem failure_on_the_first_record_stops_the_run (g : Geolocator)
    (df : DataFrame) (batch_size : Z) (w : world) (e : exn)
    (row : Series) (rest : list Series) :
  0 < batch_size ->
  iterrows df = row :: rest ->
  complete row = true ->
  g (ncalls (trace w)) (coords_of row) default_timeout = Raises e ->
  unhandled_by_helper e ->
  (forall key, e <> KeyError key) ->
  let combined := Combined.process_csv g df batch_size in
  let highlighted := Highlighted.process_csv g df batch_size in
  (fst (combined w) = Raise e /\
   during combined w
     = header df ++ [EvReverse (coords_of row) default_timeout] /\
   saves (during combined w) = [] /\
   map_obj (snd (combined w)) = create_map) /\
  ((forall msg, e <> IndexError msg) ->
   fst (highlighted w) = Raise e /\
   during highlighted w
     = header df ++ [EvReverse (coords_of row) default_timeout] /\
   saves (during highlighted w) = [] /\
   map_obj (snd (highlighted w)) = create_map).
Proof.
  intros Hb E C G U K combined highlighted.
  set (w3 := {| trace := ((trace w ++ [EvPrint (MsgColumns (columns df))])
                          ++ [EvPrint MsgFirstRows])
                         ++ [EvPrint (MsgHead (head df))];
                map_obj := map_obj w |}).
  assert (N : forall doc,
             ncalls (trace {| trace := trace w3; map_obj := doc |})
             = ncalls (trace w)).
  { intros doc. subst w3. cbn [trace]. rewrite !ncalls_app. cbn. lia. }
  assert (R : forall doc,
             reverse_geocode_with_retry g (coords_of row) default_retries
               default_timeout {| trace := trace w3; map_obj := doc |}
             = (Raise e,
                log [EvReverse (coords_of row) default_timeout]
                    {| trace := trace w3; map_obj := doc |})).
  { intros doc. apply retry_first_raise; [exact U|]. now rewrite N. }
  split.
  - assert (Q : combined w
                = (Raise e,
                   {| trace := trace w ++ header df
                               ++ [EvReverse (coords_of row) default_timeout];
                      map_obj := create_map |})).
    { subst combined. rewrite <- header_run.
      change (Combined.process_csv g df batch_size w)
        with (drive_with (Combined.process_row g) "combined_map.html"
                         df batch_size w3).
      apply (drive_first_row _ _ df batch_size w3 row rest e _ Hb E).
      intros doc.
      rewrite (combined_row_raised g row _ e _ C (R doc)).
      destruct e; try reflexivity. now destruct (K key). }
    rewrite (during_run _ _ _ _ _ Q), Q. cbn [fst snd map_obj].
    repeat split.
  - intros X.
    destruct (first_row_of_the_sample df row rest E) as (rest' & E').
    assert (Q : highlighted w
                = (Raise e,
                   {| trace := trace w ++ header df
                               ++ [EvReverse (coords_of row) default_timeout];
                      map_obj := create_map |})).
    { subst highlighted. rewrite <- header_run.
      change (Highlighted.process_csv g df batch_size w)
        with (drive_with (Highlighted.process_row g) "highlighted_map.html"
                         (iloc_step df 5) batch_size w3).
      apply (drive_first_row _ _ (iloc_step df 5) batch_size w3 row rest' e _
                             Hb E').
      intros doc.
      rewrite (highlighted_row_raised g row _ e _ C (R doc)).
      destruct e; try reflexivity.
      - now destruct (K key).
      - now destruct (X msg). }
    rewrite (during_run _ _ _ _ _ Q), Q. cbn [fst snd map_obj].
    repeat split.
Qed.

Lemma failure_on_the_first_record_stops_the_run_witness :
  let e := OtherError "GeocoderQuotaExceeded" in
  let combined := Combined.process_csv over_quota site_a_frame 100 in
  let highlighted := Highlighted.process_csv over_quota site_a_frame 100 in
  (fst (combined fresh) = Raise e /\
   during combined fresh
     = header site_a_frame ++ [EvReverse (coords_of site_a) default_timeout] /\
   saves (during combined fresh) = [] /\
   map_obj (snd (combined fresh)) = create_map) /\
  ((forall msg, e <> IndexError msg) ->
   fst (highlighted fresh) = Raise e /\
   during highlighted fresh
     = header site_a_frame ++ [EvReverse (coords_of site_a) default_timeout] /\
   saves (during highlighted fresh) = [] /\
   map_obj (snd (highlighted fresh)) = create_map).
Proof.
  apply (failure_on_the_first_record_stops_the_run
           over_quota site_a_frame 100 fresh
           (OtherError "GeocoderQuotaExceeded") site_a []).
  - reflexivity.
  - reflexivity.
  - reflexivity.
  - reflexivity.
  - exact I.
  - discriminate.
Defined.
